(** * dataset-wrangler: integrity scan and deterministic partitioning

    A shallow embedding of the algorithmic core of the toolkit
    ([split_dataset.py], [cleanup_dataset.py] and [resolve_collision] of
    [batch_rename_images.py]) and the properties of the specification that
    concern it, followed by the runs of [batch_rename_images.py] and
    [check_class_balance.py] and further properties of the four scripts.

    Conventions of the embedding:
    - Python [int] is [Z]; [float] is IEEE-754 binary64, modelled exactly by
      the Standard Library's [spec_float] at precision 53 and [emax] 1024;
    - [str] is [string] (a path is a byte string), file contents are
      [list byte];
    - a computation that may raise or call [sys.exit] returns an [outcome];
      code that touches the file system, standard output or the generator of
      the [random] module threads a state through the monad [M];
    - the collaborators that live outside the repository (SHA-256 of
      [hashlib], the generator of [random], the decoder of [PIL], the table
      of [tabulate], the clock of [datetime]) are
      interfaces (type classes); the library routines whose algorithm the
      scripts depend on ([random.shuffle], [os.path.join],
      [os.path.splitext], [sorted], [range], list indexing) are written out. *)

From Stdlib Require Import ZArith String Ascii List Lia Bool.
From Stdlib Require Import Floats.SpecFloat.
From Stdlib.Strings Require Byte.
From stdpp Require Import base option list gmap strings pretty sorting.

Local Open Scope Z_scope.

(** ** Outcomes of Python computations *)

Module Py.

(** The exceptions the scripts can meet.  [OSError] carries the offending
    path; its subclasses are told apart by [os_kind]. *)
Inductive os_kind := NotFound | PermissionDenied | IsADirectory | NotADirectory | InputOutput.

Inductive exn :=
| IndexError
| OverflowError
| ValueError
| OSError (k : os_kind) (path : string)
| UnidentifiedImageError (path : string)
| OtherError (what : string).

(** What [sys.exit] was called with: nothing or [0], a bare status, or one of
    the two messages of [split_dataset.py] (a message exits with status 1).
    The ratio message carries the float it prints. *)
Inductive exit_arg :=
| ExitStatus (code : Z)
| ExitRatios (total : spec_float)
| ExitNoFiles.

Inductive outcome (A : Type) :=
| Return (a : A)
| Raise (e : exn)
| SysExit (a : exit_arg).
Arguments Return {A} a.
Arguments Raise {A} e.
Arguments SysExit {A} a.

Definition obind {A B} (f : A -> outcome B) (c : outcome A) : outcome B :=
  match c with
  | Return a => f a
  | Raise e => Raise e
  | SysExit a => SysExit a
  end.

#[global] Instance outcome_ret : MRet outcome := @Return.
#[global] Instance outcome_bind : MBind outcome := @obind.

(** [[f(x) for x in l]]: evaluation stops at the first element that raises. *)
Fixpoint traverse {A B} (f : A -> outcome B) (l : list A) : outcome (list B) :=
  match l with
  | [] => Return []
  | x :: l' => y ← f x; ys ← traverse f l'; Return (y :: ys)
  end.

(** *** The state-and-exception monad *)

Definition M (St A : Type) : Type := St -> outcome A * St.

Definition ret {St A} (a : A) : M St A := fun s => (Return a, s).

Definition bind {St A B} (c : M St A) (k : A -> M St B) : M St B :=
  fun s =>
    match c s with
    | (Return a, s') => k a s'
    | (Raise e, s') => (Raise e, s')
    | (SysExit a, s') => (SysExit a, s')
    end.

Definition lift {St A} (c : outcome A) : M St A := fun s => (c, s).
Definition raise {St A} (e : exn) : M St A := lift (Raise e).
Definition sys_exit {St A} (a : exit_arg) : M St A := lift (SysExit a).
Definition get {St} : M St St := fun s => (Return s, s).
Definition modify {St} (f : St -> St) : M St unit := fun s => (Return tt, f s).

(** [try: c  except Exception as e: h e].  [SystemExit] is not an
    [Exception], so it passes through. *)
Definition try_except {St A} (c : M St A) (h : exn -> M St A) : M St A :=
  fun s =>
    match c s with
    | (Raise e, s') => h e s'
    | r => r
    end.

(** [for x in l: body x] *)
Fixpoint for_each {St A} (l : list A) (body : A -> M St unit) : M St unit :=
  match l with
  | [] => ret tt
  | x :: l' => bind (body x) (fun _ => for_each l' body)
  end.

(** [[f(x) for x in l]] with effects *)
Fixpoint map_m {St A B} (f : A -> M St B) (l : list A) : M St (list B) :=
  match l with
  | [] => ret []
  | x :: l' => bind (f x) (fun y => bind (map_m f l') (fun ys => ret (y :: ys)))
  end.

(** [[x for x in l if p(x)]] with an effectful condition *)
Fixpoint filter_m {St A} (p : A -> M St bool) (l : list A) : M St (list A) :=
  match l with
  | [] => ret []
  | x :: l' =>
      bind (p x) (fun b =>
      bind (filter_m p l') (fun ys => ret (if b then x :: ys else ys)))
  end.

(** *** Built-ins on integers and lists *)

(** [list(range(a, b))] *)
Definition range (a b : Z) : list Z := seqZ a (b - a).

(** [len(l)] *)
Definition len {A} (l : list A) : Z := Z.of_nat (length l).

(** The position a (possibly negative) index denotes in [l], if any. *)
Definition position {A} (l : list A) (i : Z) : option nat :=
  let j := if i <? 0 then i + len l else i in
  if (0 <=? j) && (j <? len l) then Some (Z.to_nat j) else None.

(** [l[i]]: a negative index counts from the end; out of range raises. *)
Definition index {A} (l : list A) (i : Z) : outcome A :=
  match position l i ≫= (l !!.) with
  | Some x => Return x
  | None => Raise IndexError
  end.

(** [l[i] = v] *)
Definition setitem {A} (l : list A) (i : Z) (v : A) : outcome (list A) :=
  match position l i with
  | Some k => Return (<[k:=v]> l)
  | None => Raise IndexError
  end.

(** [l[i], l[j] = l[j], l[i]]: the right-hand side is read first, then
    [l[i]] and [l[j]] are assigned in that order. *)
Definition swap {A} (l : list A) (i j : Z) : outcome (list A) :=
  xj ← index l j; xi ← index l i; l1 ← setitem l i xj; setitem l1 j xi.

(** [sorted(l)] for strings: ascending in the order of [str], by code point,
    which on the bytes of UTF-8 is the lexicographic order [String.le]. *)
Definition sorted (l : list string) : list string := merge_sort String.le l.

End Py.
Export Py.

Declare Scope py_scope.
Delimit Scope py_scope with py.
Notation "x <- c ;; k" := (Py.bind c (fun x => k))
  (at level 100, c at next level, right associativity) : py_scope.
Notation "c ;; k" := (Py.bind c (fun _ => k))
  (at level 100, right associativity) : py_scope.

(** ** Binary64 floats *)

Module PyFloat.

Definition prec : Z := 53.
Definition emax : Z := 1024.

Abbreviation float := spec_float.

Definition mul : float -> float -> float := SFmul prec emax.
Definition add : float -> float -> float := SFadd prec emax.
Definition sub : float -> float -> float := SFsub prec emax.
Definition div : float -> float -> float := SFdiv prec emax.
Definition abs : float -> float := SFabs.
Definition ltb : float -> float -> bool := SFltb.

(** The nearest float to an integer (ties to even). *)
Definition of_Z (n : Z) : float := binary_normalize prec emax n 0 false.

(** [float(n)] as used by [n * x]: an integer beyond the finite range raises. *)
Definition of_int (n : Z) : outcome float :=
  match of_Z n with
  | S754_infinity _ => Raise OverflowError
  | x => Return x
  end.

(** [int(x)]: truncation towards zero. *)
Definition to_int (x : float) : outcome Z :=
  match x with
  | S754_zero _ => Return 0
  | S754_finite s m e => Return (cond_Zopp s (Z.shiftl (Z.pos m) e))
  | S754_infinity _ => Raise OverflowError
  | S754_nan => Raise ValueError
  end.


(** [n * x] for an [int] n and a [float] x. *)
Definition int_mul (n : Z) (x : float) : outcome float :=
  y ← of_int n; Return (mul y x).

(** The float a decimal literal [num/den] denotes, when [num] and [den] are
    exactly representable: both the parser and the division round the same
    rational to nearest-even. *)
Definition of_decimal (num den : Z) : float := div (of_Z num) (of_Z den).

Definition one : float := of_Z 1.
(** [1e-6] *)
Definition epsilon : float := of_decimal 1 1000000.

End PyFloat.

(** ** Strings and paths ([str], [os.path]) *)

Module PyStr.

Definition chars (s : string) : list ascii := list_ascii_of_string s.

(** [s.rfind(c)]: the last index of the character, or [-1]. *)
Fixpoint rfind_from (c : ascii) (s : string) (i : Z) : Z :=
  match s with
  | EmptyString => -1
  | String a s' =>
      let r := rfind_from c s' (i + 1) in
      if r <? 0 then (if Ascii.eqb a c then i else -1) else r
  end.
Definition rfind (s : string) (c : ascii) : Z := rfind_from c s 0.

(** [s[:i]] and [s[i:]] for [0 <= i]. *)
Definition slice_to (i : Z) (s : string) : string := substring 0 (Z.to_nat i) s.
Definition slice_from (i : Z) (s : string) : string :=
  substring (Z.to_nat i) (String.length s - Z.to_nat i) s.

Definition endswith (s : string) (c : ascii) : bool :=
  match last (chars s) with
  | Some a => Ascii.eqb a c
  | None => false
  end.

Definition startswith (s : string) (c : ascii) : bool :=
  match s with
  | String a _ => Ascii.eqb a c
  | EmptyString => false
  end.

(** [s.lower()] on the ASCII letters.  The scripts only compare the result
    with lower-case ASCII extensions, which no other character lowers to. *)
Definition lower_ascii (a : ascii) : ascii :=
  let n := nat_of_ascii a in
  if (65 <=? n)%nat && (n <=? 90)%nat then ascii_of_nat (n + 32) else a.

Fixpoint lower (s : string) : string :=
  match s with
  | EmptyString => EmptyString
  | String a s' => String (lower_ascii a) (lower s')
  end.

(** [str(n)] for an integer. *)
Definition str (n : Z) : string := pretty n.

End PyStr.

Module OsPath.
Import PyStr.

Definition sep : ascii := "/"%char.
Definition extsep : ascii := "."%char.

(** [posixpath.join(a, b)] *)
Definition join (a b : string) : string :=
  if startswith b sep then b
  else if (String.eqb a "" || endswith a sep)%bool then a +:+ b
  else a +:+ "/" +:+ b.

(** [posixpath.basename(p)] *)
Definition basename (p : string) : string := slice_from (rfind p sep + 1) p.

(** The loop of [genericpath._splitext] that skips leading dots: is there a
    character other than a dot in [p[i:i+steps]]? *)
Fixpoint has_stem (p : string) (i : nat) (steps : nat) : bool :=
  match steps with
  | O => false
  | S k =>
      match String.get i p with
      | Some a => if Ascii.eqb a extsep then has_stem p (S i) k else true
      | None => has_stem p (S i) k
      end
  end.

(** [posixpath.splitext(p)] *)
Definition splitext (p : string) : string * string :=
  let sepIndex := rfind p sep in
  let dotIndex := rfind p extsep in
  if (sepIndex <? dotIndex)
     && has_stem p (Z.to_nat (sepIndex + 1)) (Z.to_nat (dotIndex - (sepIndex + 1)))
  then (slice_to dotIndex p, slice_from dotIndex p)
  else (p, "").

End OsPath.

(** ** The file system, standard output and the trace of system calls *)

Module Os.
Import PyStr OsPath.

(** A regular file: its bytes, whether it can be opened for reading, the
    offset (if any) at which a read fails, and whether it may be unlinked. *)
Record file := File {
  data : list Byte.byte;
  readable : bool;
  fault_at : option nat;
  removable : bool
}.

(** Does reading the whole file meet the faulty offset? *)
Definition faulty (f : file) : bool :=
  match fault_at f with
  | Some off => (off <? length (data f))%nat
  | None => false
  end.

Inductive event :=
| EvStat (path : string)
| EvListdir (path : string)
| EvOpen (path : string)
| EvRemove (path : string)
| EvMakedirs (path : string)
| EvCopy (src dst : string)
| EvMove (src dst : string).

(** The calls that can change the file system. *)
Definition is_mutation (e : event) : bool :=
  match e with
  | EvRemove _ | EvMakedirs _ | EvCopy _ _ | EvMove _ _ => true
  | _ => false
  end.

(** The calls that read a file's bytes. *)
Definition is_read (e : event) : bool :=
  match e with
  | EvOpen _ | EvCopy _ _ => true
  | _ => false
  end.

(** Paths are identified as strings (no normalisation, no links).  A
    directory's entries are the paths directly below it. *)
Record world := World {
  files : gmap string file;
  dirs : gset string;
  stdout : list string;
  trace : list event
}.

Definition log (e : event) : M world unit :=
  modify (fun w => World (files w) (dirs w) (stdout w) (trace w ++ [e])).

(** [print(line)] *)
Definition print (line : string) : M world unit :=
  modify (fun w => World (files w) (dirs w) (stdout w ++ [line]) (trace w)).

Definition set_files (f : gmap string file -> gmap string file) : M world unit :=
  modify (fun w => World (f (files w)) (dirs w) (stdout w) (trace w)).

Definition set_dirs (f : gset string -> gset string) : M world unit :=
  modify (fun w => World (files w) (f (dirs w)) (stdout w) (trace w)).

Definition is_file (w : world) (p : string) : bool := bool_decide (is_Some (files w !! p)).
Definition is_dir (w : world) (p : string) : bool := bool_decide (p ∈ dirs w).
Definition path_exists (w : world) (p : string) : bool := is_file w p || is_dir w p.

(** [os.path.isfile], [os.path.isdir], [os.path.exists] *)
Definition isfile (p : string) : M world bool :=
  (log (EvStat p);; w <- get;; ret (is_file w p))%py.
Definition isdir (p : string) : M world bool :=
  (log (EvStat p);; w <- get;; ret (is_dir w p))%py.
Definition exists_ (p : string) : M world bool :=
  (log (EvStat p);; w <- get;; ret (path_exists w p))%py.

(** The name under which path [p] is an entry of directory [d], if it is
    one: [p] is [d], a separator unless [d] ends with one, and a non-empty
    name without separator. *)
Definition dir_prefix (d : string) : string :=
  if (String.eqb d "" || endswith d sep)%bool then d else d +:+ "/".

Definition entry_name (d p : string) : option string :=
  let pre := dir_prefix d in
  let n := String.length pre in
  let name := substring n (String.length p - n) p in
  if String.prefix pre p && negb (String.eqb name "") && (rfind name sep <? 0)
  then Some name else None.

Definition entries (w : world) (d : string) : list string :=
  omap (entry_name d) (elements (dom (files w) ∪ dirs w)).

(** [os.listdir(d)]; the order is the system's, here that of [elements]. *)
Definition listdir (d : string) : M world (list string) :=
  (log (EvListdir d);;
   w <- get;;
   if is_dir w d then ret (entries w d)
   else if is_file w d then raise (OSError NotADirectory d)
   else raise (OSError NotFound d))%py.

(** [os.remove(p)] *)
Definition remove (p : string) : M world unit :=
  (log (EvRemove p);;
   w <- get;;
   match files w !! p with
   | Some f =>
       if removable f then set_files (delete p)
       else raise (OSError PermissionDenied p)
   | None =>
       if is_dir w p then raise (OSError IsADirectory p)
       else raise (OSError NotFound p)
   end)%py.

(** [os.makedirs(p, exist_ok=True)]; intermediate directories are not
    tracked. *)
Definition makedirs (p : string) : M world unit :=
  (log (EvMakedirs p);;
   w <- get;;
   if is_file w p then raise (OSError NotADirectory p)
   else set_dirs (fun ds => {[p]} ∪ ds))%py.

(** Where [shutil] puts a file sent to [dst]: inside it when it is a
    directory. *)
Definition real_dst (w : world) (src dst : string) : string :=
  if is_dir w dst then join dst (basename src) else dst.

(** [shutil.copy2(src, dst)], errors on the source side only. *)
Definition copy2 (src dst : string) : M world string :=
  (log (EvCopy src dst);;
   w <- get;;
   match files w !! src with
   | Some f =>
       if negb (readable f) then raise (OSError PermissionDenied src)
       else if faulty f then raise (OSError InputOutput src)
       else let t := real_dst w src dst in
            set_files (insert t f);; ret t
   | None =>
       if is_dir w src then raise (OSError IsADirectory src)
       else raise (OSError NotFound src)
   end)%py.

(** [shutil.move(src, dst)] of a regular file on one file system (a rename). *)
Definition move (src dst : string) : M world string :=
  (log (EvMove src dst);;
   w <- get;;
   match files w !! src with
   | Some f =>
       if is_dir w dst && path_exists w (join dst (basename src))
       then raise (OtherError "shutil.Error")
       else let t := real_dst w src dst in
            set_files (fun fs => <[t:=f]> (delete src fs));; ret t
   | None => raise (OSError NotFound src)
   end)%py.

(** *** Reading a file in blocks *)

(** [f.read(k)] at offset [pos]: the next at most [k] bytes, or an I/O error
    when the block would cross the faulty offset. *)
Definition read_block (f : file) (pos k : nat) : outcome (list Byte.byte) :=
  match fault_at f with
  | Some off =>
      if (pos <=? off)%nat && (off <? pos + k)%nat && (off <? length (data f))%nat
      then Raise (OSError InputOutput "")
      else Return (take k (drop pos (data f)))
  | None => Return (take k (drop pos (data f)))
  end.

(** [open(p, "rb")] *)
Definition open (p : string) : M world file :=
  (log (EvOpen p);;
   w <- get;;
   match files w !! p with
   | Some f => if readable f then ret f else raise (OSError PermissionDenied p)
   | None =>
       if is_dir w p then raise (OSError IsADirectory p)
       else raise (OSError NotFound p)
   end)%py.

End Os.

(** ** Collaborators outside the repository *)

(** The generator behind the [random] module: [random.seed(a)] replaces its
    state by one that depends on [a] only, [_randbelow(n)] draws an integer
    and advances the state. *)
Class Random := {
  rng_state : Type;
  seed_state : Z -> rng_state;
  randbelow : Z -> rng_state -> Z * rng_state
}.

(** What the library promises of [_randbelow(n)] for [0 < n]. *)
Definition randbelow_in_range `{Random} : Prop :=
  forall n g, 0 < n -> 0 <= (randbelow n g).1 < n.

(** [hashlib.sha256]: the hex digest of a byte string. *)
Class Hashlib := { sha256_hex : list Byte.byte -> string }.

(** [PIL]: what [Image.open(path)] followed by [verify()] does on a file that
    could be opened. *)
Inductive image_result :=
| ImageOk
| ImageUnidentified
| ImageOSError
| ImageOtherError (what : string).

Class Pil := { image_check : Os.file -> image_result }.

(** ** [random.shuffle] *)

Module PyRandom.
Section WithRandom.
Context `{Random}.

(** [random.seed(a)] *)
Definition seed (a : Z) : M rng_state unit := modify (fun _ => seed_state a).

Definition draw (n : Z) : M rng_state Z :=
  fun g => (Return (randbelow n g).1, (randbelow n g).2).

(** The body of the loop of [shuffle], for the indices [idx] in turn:
    [j = randbelow(i + 1); x[i], x[j] = x[j], x[i]]. *)
Fixpoint shuffle_loop {A} (idx : list Z) (x : list A) : M rng_state (list A) :=
  match idx with
  | [] => ret x
  | i :: idx' =>
      (j <- draw (i + 1);;
       x' <- lift (swap x i j);;
       shuffle_loop idx' x')%py
  end.

(** [random.shuffle(x)]: [for i in reversed(range(1, len(x)))]. *)
Definition shuffle {A} (x : list A) : M rng_state (list A) :=
  shuffle_loop (reverse (range 1 (len x))) x.

End WithRandom.
End PyRandom.

(** ** [split_dataset.py] *)

Module SplitDataset.
Import PyStr OsPath Os PyRandom.

Record args := Args {
  src_dir : string;
  dest_dir : string;
  train_ratio : PyFloat.float;
  val_ratio : PyFloat.float;
  test_ratio : PyFloat.float;
  seed_arg : Z;
  move_flag : bool;
  preview : bool
}.

(** The test of [validate_ratios]: [abs(total - 1.0) < 1e-6]. *)
Definition ratio_total (train val test : PyFloat.float) : PyFloat.float :=
  PyFloat.add (PyFloat.add train val) test.

Definition ratios_accepted (train val test : PyFloat.float) : bool :=
  PyFloat.ltb (PyFloat.abs (PyFloat.sub (ratio_total train val test) PyFloat.one))
              PyFloat.epsilon.

Definition validate_ratios (train val test : PyFloat.float) : outcome unit :=
  let total := ratio_total train val test in
  if negb (PyFloat.ltb (PyFloat.abs (PyFloat.sub total PyFloat.one)) PyFloat.epsilon)
  then SysExit (ExitRatios total)
  else Return tt.

Definition gather_files (src : string) : M world (list string) :=
  (names <- listdir src;;
   fs <- filter_m (fun f => isfile (join src f)) names;;
   ret (sorted fs))%py.

Definition make_dirs (root : string) (subsets : list string) : M world unit :=
  for_each subsets (fun name => makedirs (join root name)).

(** [int(n * r)], the size [split_indices] computes for a ratio. *)
Definition block_count (n : Z) (r : PyFloat.float) : outcome Z :=
  x ← PyFloat.int_mul n r; PyFloat.to_int x.

Definition split_indices (n : Z) (train_r val_r : PyFloat.float)
  : outcome (list Z * list Z * list Z) :=
  n_train ← block_count n train_r;
  n_val ← block_count n val_r;
  Return (range 0 n_train,
          range n_train (n_train + n_val),
          range (n_train + n_val) n).


Definition dispatch_file (src dst : string) (move_mode : bool) : M world string :=
  if move_mode then move src dst else copy2 src dst.

(** The [subsets] dictionary, in insertion order. *)
Definition subsets_t : Type := list (string * list string).

(** Lines 120-130 of [main]: the index blocks and the three lists read
    through them. *)
Definition select (fs : list string) (train_r val_r : PyFloat.float)
  : outcome subsets_t :=
  '(train_idx, val_idx, test_idx) ← split_indices (len fs) train_r val_r;
  tr ← traverse (index fs) train_idx;
  va ← traverse (index fs) val_idx;
  te ← traverse (index fs) test_idx;
  Return [("train", tr); ("val", va); ("test", te)].


(** The files of all subsets, in order. *)
Definition members (s : subsets_t) : list string := concat (s.*2).

(** File [f] is in the subset called [name]. *)
Definition assigned (s : subsets_t) (f name : string) : Prop :=
  exists l, (name, l) ∈ s /\ f ∈ l.

(** The decimal ratios of the examples. *)
Definition r0_7 : PyFloat.float := PyFloat.of_decimal 7 10.
Definition r0_2 : PyFloat.float := PyFloat.of_decimal 2 10.
Definition r0_1 : PyFloat.float := PyFloat.of_decimal 1 10.
Definition r0_15 : PyFloat.float := PyFloat.of_decimal 15 100.

Section WithRandom.
Context `{Random}.

(** The state of a run: the world and the generator of [random]. *)
Definition state : Type := world * rng_state.

Definition in_world {A} (c : M world A) : M state A :=
  fun s => let '(r, w') := c s.1 in (r, (w', s.2)).
Definition in_random {A} (c : M rng_state A) : M state A :=
  fun s => let '(r, g') := c s.2 in (r, (s.1, g')).

(** [main] up to the [subsets] dictionary (lines 110-130). *)
Definition assign (a : args) : M state subsets_t :=
  (lift (validate_ratios (train_ratio a) (val_ratio a) (test_ratio a));;
   fs <- in_world (gather_files (src_dir a));;
   match fs with
   | [] => sys_exit ExitNoFiles
   | _ =>
       in_random (seed (seed_arg a));;
       fs <- in_random (shuffle fs);;
       lift (select fs (train_ratio a) (val_ratio a))
   end)%py.

Definition exn_str (e : exn) : string :=
  match e with
  | IndexError => "list index out of range"
  | OverflowError => "cannot convert float infinity to integer"
  | ValueError => "cannot convert float NaN to integer"
  | OSError NotFound p => "[Errno 2] No such file or directory: '" +:+ p +:+ "'"
  | OSError PermissionDenied p => "[Errno 13] Permission denied: '" +:+ p +:+ "'"
  | OSError IsADirectory p => "[Errno 21] Is a directory: '" +:+ p +:+ "'"
  | OSError NotADirectory p => "[Errno 20] Not a directory: '" +:+ p +:+ "'"
  | OSError InputOutput p => "[Errno 5] Input/output error: '" +:+ p +:+ "'"
  | UnidentifiedImageError p => "cannot identify image file '" +:+ p +:+ "'"
  | OtherError what => what
  end.

(** The counters [moved], [copied], [errs]. *)
Record tally := Tally { moved : Z; copied : Z; errs : Z }.

Definition place_one (a : args) (subset_name filename : string) (t : tally)
  : M world tally :=
  let src_path := join (src_dir a) filename in
  let dst_path := join (join (dest_dir a) subset_name) filename in
  try_except
    (dispatch_file src_path dst_path (move_flag a);;
     ret (if move_flag a then Tally (moved t + 1) (copied t) (errs t)
          else Tally (moved t) (copied t + 1) (errs t)))%py
    (fun e =>
       (print ("[ERROR] " +:+ filename +:+ " â†’ " +:+ subset_name +:+ ": " +:+ exn_str e);;
        ret (Tally (moved t) (copied t) (errs t + 1)))%py).

Fixpoint place_files (a : args) (subset_name : string) (fl : list string) (t : tally)
  : M world tally :=
  match fl with
  | [] => ret t
  | filename :: fl' =>
      (t' <- place_one a subset_name filename t;; place_files a subset_name fl' t')%py
  end.

Fixpoint place_subsets (a : args) (subsets : subsets_t) (t : tally) : M world tally :=
  match subsets with
  | [] => ret t
  | (subset_name, fl) :: rest =>
      (t' <- place_files a subset_name fl t;; place_subsets a rest t')%py
  end.

Definition newline : string := String (ascii_of_nat 10) "".

Definition main (a : args) : M state unit :=
  (subsets <- assign a;;
   in_world (print "Preview of split counts:");;
   in_world (for_each subsets (fun '(name, lst) =>
     print ("  " +:+ name +:+ ": " +:+ str (len lst) +:+ " files")));;
   if preview a then sys_exit (ExitStatus 0)
   else
     in_world (make_dirs (dest_dir a) (subsets.*1));;
     t <- in_world (place_subsets a subsets (Tally 0 0 0));;
     let action := if move_flag a then "Moved" else "Copied" in
     in_world (print (newline +:+ "Done. " +:+ action +:+ ": "
                      +:+ str (if move_flag a then moved t else copied t)
                      +:+ ", Errors: " +:+ str (errs t))))%py.

End WithRandom.
End SplitDataset.

(** ** [cleanup_dataset.py] *)

Module CleanupDataset.
Import PyStr OsPath Os.

Definition IMAGE_EXTENSIONS : list string :=
  [".jpg"; ".jpeg"; ".png"; ".bmp"; ".gif"; ".tiff"; ".webp"].

Record args := Args { dir : string; dry_run : bool }.

Section WithCollaborators.
Context `{Hashlib} `{Pil}.

(** A [hashlib.sha256()] object: the bytes fed to it so far. *)
Definition hasher : Type := list Byte.byte.
Definition update (h : hasher) (block : list Byte.byte) : hasher := h ++ block.
Definition hexdigest (h : hasher) : string := sha256_hex h.

(** [for block in iter(lambda: f.read(block_size), b""): hasher.update(block)]
    from offset [pos].  Every turn but the last consumes at least one byte,
    so [fuel] beyond the bytes left is never used up. *)
Fixpoint read_loop (fuel : nat) (path : string) (f : file) (block_size pos : nat)
    (h : hasher) : outcome hasher :=
  match fuel with
  | O => Raise (OtherError "read_loop: out of fuel")
  | S fuel' =>
      match read_block f pos block_size with
      | Return [] => Return h
      | Return block =>
          read_loop fuel' path f block_size (pos + length block) (update h block)
      | Raise (OSError k _) => Raise (OSError k path)
      | Raise e => Raise e
      | SysExit a => SysExit a
      end
  end.

Definition compute_hash_with (block_size : nat) (path : string) : M world string :=
  (f <- open path;;
   h <- lift (read_loop (S (length (data f))) path f block_size 0 []);;
   ret (hexdigest h))%py.

(** [compute_hash(path)] with the default [block_size=65536]. *)
Definition compute_hash (path : string) : M world string :=
  compute_hash_with (Z.to_nat 65536) path.

(** The loop of [find_duplicates], with its two accumulators. *)
Fixpoint find_duplicates_loop (file_paths : list string)
    (hashes : gmap string string) (duplicates : list (string * string))
  : M world (list (string * string)) :=
  match file_paths with
  | [] => ret duplicates
  | path :: rest =>
      (file_hash <- compute_hash path;;
       match hashes !! file_hash with
       | Some first => find_duplicates_loop rest hashes (duplicates ++ [(path, first)])
       | None => find_duplicates_loop rest (<[file_hash:=path]> hashes) duplicates
       end)%py
  end.

Definition find_duplicates (file_paths : list string) : M world (list (string * string)) :=
  find_duplicates_loop file_paths ∅ [].

(** [with Image.open(path) as img: img.verify()] *)
Definition open_and_verify (path : string) : M world unit :=
  (f <- open path;;
   match image_check f with
   | ImageOk => ret tt
   | ImageUnidentified => raise (UnidentifiedImageError path)
   | ImageOSError => raise (OSError InputOutput path)
   | ImageOtherError what => raise (OtherError what)
   end)%py.

Definition is_corrupt_image (path : string) : M world bool :=
  try_except
    (open_and_verify path;; ret false)%py
    (fun e =>
       match e with
       | UnidentifiedImageError _ | OSError _ _ => ret true
       | _ => raise e
       end).

Definition gather_all_files (root_dir : string) : M world (list string) :=
  (names <- listdir root_dir;;
   all_files <- filter_m (fun fname => isfile (join root_dir fname)) names;;
   ret (sorted (map (join root_dir) all_files)))%py.

(** The condition of the comprehension that builds [corrupts]. *)
Definition has_image_extension (path : string) : bool :=
  bool_decide (lower (splitext path).2 ∈ IMAGE_EXTENSIONS).

Definition find_corrupts (file_paths : list string) : M world (list string) :=
  filter_m (fun path =>
              if has_image_extension path then is_corrupt_image path
              else ret false) file_paths.

(** The two detection passes of [main] (lines 79-88). *)
Definition scan (root : string) : M world (list (string * string) * list string) :=
  (fs <- gather_all_files root;;
   duplicates <- find_duplicates fs;;
   corrupts <- find_corrupts fs;;
   ret (duplicates, corrupts))%py.

Definition dup_line (dup_path orig_path : string) : string :=
  "[DUP] Remove: " +:+ dup_path +:+ "  (duplicate of " +:+ orig_path +:+ ")".
Definition corrupt_line (corrupt_path : string) : string :=
  "[CORRUPT] Remove: " +:+ corrupt_path.

(** [try: os.remove(p)  except Exception as e: print(...)] *)
Definition try_remove (p : string) : M world unit :=
  try_except (remove p)
    (fun e => print ("  [ERROR] Failed to delete " +:+ p +:+ ": "
                     +:+ SplitDataset.exn_str e)).

Definition process_duplicates (dry : bool) (duplicates : list (string * string))
  : M world unit :=
  for_each duplicates (fun '(dup_path, orig_path) =>
    (print (dup_line dup_path orig_path);;
     if negb dry then try_remove dup_path else ret tt)%py).

Definition process_corrupts (dry : bool) (corrupts : list string) : M world unit :=
  for_each corrupts (fun corrupt_path =>
    (print (corrupt_line corrupt_path);;
     if negb dry then try_remove corrupt_path else ret tt)%py).

Definition when {St} (b : bool) (c : M St unit) : M St unit := if b then c else ret tt.

Definition nonempty {A} (l : list A) : bool := match l with [] => false | _ => true end.

(** [main] from the test for an empty result to the end (lines 90-123). *)
Definition report (dry : bool) (duplicates : list (string * string))
    (corrupts : list string) : M world unit :=
  (if negb (nonempty duplicates) && negb (nonempty corrupts) then
     print "No duplicates or corrupt images found."
   else
     print "Summary:";;
     when (nonempty duplicates)
       (print ("  Duplicates (will remove one of each pair): "
               +:+ str (len duplicates) +:+ " files"));;
     when (nonempty corrupts)
       (print ("  Corrupt images (will remove): " +:+ str (len corrupts) +:+ " files"));;
     when dry
       (print (SplitDataset.newline +:+ "Dry-run mode enabled. No files will be deleted."));;
     print "";;
     process_duplicates dry duplicates;;
     process_corrupts dry corrupts;;
     when (negb dry) (print (SplitDataset.newline +:+ "Cleanup complete.")))%py.

Definition main (a : args) : M world unit :=
  (let root := dir a in
   ok <- isdir root;;
   if negb ok then
     print ("Error: '" +:+ root +:+ "' is not a directory.");;
     sys_exit (ExitStatus 1)
   else
     found <- scan root;;
     report (dry_run a) found.1 found.2)%py.

(** The lines of standard output that report a classification. *)
Definition is_report_line (line : string) : bool :=
  String.prefix "[DUP] " line || String.prefix "[CORRUPT] " line.

Definition report_lines (w : world) : list string :=
  filter (fun line => is_report_line line = true) (stdout w).

(** The calls of a run other than those that change the file system. *)
Definition quiet_calls (w : world) : list event :=
  filter (fun e => is_mutation e = false) (trace w).

(** The fingerprint [compute_hash] returns for a path, if it returns one:
    the file must open and be readable to its end. *)
Definition fingerprint (w : world) (p : string) : option string :=
  match files w !! p with
  | Some f => if readable f && negb (faulty f) then Some (sha256_hex (data f)) else None
  | None => None
  end.

(** What [is_corrupt_image] answers for a path when it answers. *)
Definition undecodable (w : world) (p : string) : bool :=
  match files w !! p with
  | Some f =>
      if readable f
      then match image_check f with ImageOk => false | _ => true end
      else true
  | None => true
  end.

(** A regular file of no bytes. *)
Definition zero_byte (w : world) (p : string) : Prop :=
  exists f, files w !! p = Some f /\ data f = [].

End WithCollaborators.
End CleanupDataset.

(** ** [batch_rename_images.py]: [resolve_collision] *)

Module BatchRename.
Import PyStr OsPath Os.

(** The candidate the loop tries at [idx]: [f"{base}_{idx}{ext}"]. *)
Definition candidate (target_path : string) (idx : Z) : string :=
  let '(base, ext) := splitext target_path in
  base +:+ "_" +:+ str idx +:+ ext.

(** The [while True] loop from [idx] on, for at most [fuel] turns. *)
Fixpoint resolve_from (fuel : nat) (target_path : string) (idx : Z)
  : M world (option string) :=
  match fuel with
  | O => ret None
  | S fuel' =>
      (let new_path := candidate target_path idx in
       taken <- exists_ new_path;;
       if negb taken then ret (Some new_path)
       else resolve_from fuel' target_path (idx + 1))%py
  end.

(** How many paths exist: one more candidate than that cannot all be taken. *)
Definition occupied (w : world) : nat := size (dom (files w) ∪ dirs w).

(** [resolve_collision(target_path)]; [None] stands for a loop that has not
    returned within the turns given, which cannot happen: the paths that
    exist are fewer than the candidates tried. *)
Definition resolve_collision (target_path : string) : M world (option string) :=
  (w <- get;; resolve_from (S (occupied w)) target_path 1)%py.

End BatchRename.

(** ** Instances of the collaborators *)

(** SHA-256 (FIPS 180-4) on byte strings, with 32-bit words as [Z]. *)
Module Sha256.

Definition w32 (x : Z) : Z := x mod 2 ^ 32.
Definition rotr (n x : Z) : Z := Z.lor (Z.shiftr x n) (w32 (Z.shiftl x (32 - n))).
Definition ch (x y z : Z) : Z := Z.lxor (Z.land x y) (Z.land (Z.lxor x (2 ^ 32 - 1)) z).
Definition maj (x y z : Z) : Z :=
  Z.lxor (Z.lxor (Z.land x y) (Z.land x z)) (Z.land y z).
Definition bsig0 (x : Z) : Z := Z.lxor (Z.lxor (rotr 2 x) (rotr 13 x)) (rotr 22 x).
Definition bsig1 (x : Z) : Z := Z.lxor (Z.lxor (rotr 6 x) (rotr 11 x)) (rotr 25 x).
Definition ssig0 (x : Z) : Z := Z.lxor (Z.lxor (rotr 7 x) (rotr 18 x)) (Z.shiftr x 3).
Definition ssig1 (x : Z) : Z := Z.lxor (Z.lxor (rotr 17 x) (rotr 19 x)) (Z.shiftr x 10).

(** The first 64 primes, by trial division. *)
Definition is_prime (n : Z) : bool :=
  (1 <? n) && forallb (fun d => negb (n mod d =? 0)) (seqZ 2 (Z.sqrt n - 1)).

Definition primes : list Z := Eval vm_compute in List.filter is_prime (seqZ 2 310).

(** The integer cube root of [n] below [2 ^ bits], bit by bit. *)
Fixpoint cube_root (bits : nat) (n r : Z) : Z :=
  match bits with
  | O => r
  | S b =>
      let r' := r + 2 ^ Z.of_nat b in
      cube_root b n (if r' * r' * r' <=? n then r' else r)
  end.

(** The round constants: the first 32 bits of the fractional parts of the
    cube roots of the primes; the initial hash value: the same of their
    square roots, for the first eight. *)
Definition K : list Z :=
  Eval vm_compute in map (fun p => w32 (cube_root 36 (p * 2 ^ 96) 0)) primes.

Definition H0 : list Z :=
  Eval vm_compute in map (fun p => w32 (Z.sqrt (p * 2 ^ 64))) (take 8 primes).

(** Big-endian bytes of [x], [n] of them. *)
Fixpoint be_bytes (n : nat) (x : Z) : list Z :=
  match n with
  | O => []
  | S k => (Z.shiftr x (8 * Z.of_nat k)) mod 256 :: be_bytes k x
  end.

Definition be_word (bs : list Z) : Z := fold_left (fun acc b => acc * 256 + b) bs 0.

(** The message followed by [0x80], zeros up to 56 modulo 64, and its length
    in bits on eight bytes. *)
Definition pad (msg : list Z) : list Z :=
  let l := Z.of_nat (length msg) in
  let zeros := Z.to_nat ((55 - l) mod 64) in
  msg ++ [128] ++ replicate zeros 0 ++ be_bytes 8 (8 * l).

Fixpoint words (n : nat) (bs : list Z) : list Z :=
  match n with
  | O => []
  | S k => be_word (take 4 bs) :: words k (drop 4 bs)
  end.

(** The message schedule, most recent word first. *)
Fixpoint extend (n : nat) (rev_w : list Z) : list Z :=
  match n with
  | O => rev_w
  | S k =>
      let at_ i := default 0 (rev_w !! i) in
      extend k (w32 (ssig1 (at_ 1%nat) + at_ 6%nat + ssig0 (at_ 14%nat) + at_ 15%nat) :: rev_w)
  end.

Definition round (st : list Z) (kw : Z * Z) : list Z :=
  match st with
  | [a; b; c; d; e; f; g; h] =>
      let t1 := h + bsig1 e + ch e f g + kw.1 + kw.2 in
      let t2 := bsig0 a + maj a b c in
      [w32 (t1 + t2); a; b; c; w32 (d + t1); e; f; g]
  | _ => st
  end.

Definition compress (hs : list Z) (block : list Z) : list Z :=
  let w := reverse (extend 48 (reverse (words 16 block))) in
  let st := fold_left round (zip K w) hs in
  zip_with (fun x y => w32 (x + y)) hs st.

Fixpoint blocks (n : nat) (bs : list Z) : list (list Z) :=
  match n with
  | O => []
  | S k => take 64 bs :: blocks k (drop 64 bs)
  end.

Definition digest_words (msg : list Z) : list Z :=
  let p := pad msg in
  fold_left compress (blocks (length p / 64) p) H0.

Definition hex_digit (d : Z) : ascii :=
  ascii_of_nat (Z.to_nat (if d <? 10 then 48 + d else 87 + d)).

Definition hex_byte (b : Z) : list ascii := [hex_digit (b / 16); hex_digit (b mod 16)].

Definition hexdigest (msg : list Byte.byte) : string :=
  let ws := digest_words (map (fun b => Z.of_N (Byte.to_N b)) msg) in
  string_of_list_ascii (concat (map hex_byte (concat (map (be_bytes 4) ws)))).

End Sha256.

#[export] Instance sha256_hashlib : Hashlib := {| sha256_hex := Sha256.hexdigest |}.

(** A linear congruential generator on 64 bits as a stand-in for the
    generator of [random]; it keeps the promise [randbelow_in_range]. *)
Definition lcg_next (g : Z) : Z :=
  (g * 6364136223846793005 + 1442695040888963407) mod 2 ^ 64.

#[export] Instance lcg_random : Random := {|
  rng_state := Z;
  seed_state a := Z.abs a;
  randbelow n g := (if 0 <? n then lcg_next g mod n else 0, lcg_next g)
|}.

(** A decoder that accepts a file when it can be read to the end and starts
    with the JPEG or the PNG signature bytes. *)
Definition signature_check (f : Os.file) : image_result :=
  if Os.faulty f then ImageOSError
  else match Os.data f with
       | Byte.xff :: Byte.xd8 :: _ => ImageOk
       | Byte.x89 :: Byte.x50 :: _ => ImageOk
       | _ => ImageUnidentified
       end.

#[export] Instance signature_pil : Pil := {| image_check := signature_check |}.

(** ** Sample directories *)

Module Samples.
Import Os.

(** A file that can be read, has no faulty block and may be deleted. *)
Definition plain (d : list Byte.byte) : file := File d true None true.

(** A file that cannot be opened. *)
Definition locked (d : list Byte.byte) : file := File d false None true.

(** A directory whose entries are the given regular files. *)
Definition folder (d : string) (fl : list (string * file)) : world :=
  World (list_to_map (map (fun kv => (OsPath.join d kv.1, kv.2)) fl)) {[d]} [] [].

Definition jpeg : list Byte.byte := [Byte.xff; Byte.xd8; Byte.xff; Byte.xe0; Byte.x01].
Definition broken : list Byte.byte := [Byte.x00; Byte.x01].

(** Four and ten files to split. *)
Definition four_files : world :=
  folder "s" [("a", plain []); ("b", plain []); ("c", plain []); ("d", plain [])].

Definition ten_files : world :=
  folder "s" (map (fun n => ("f" +:+ PyStr.str (Z.of_nat n), plain [])) (seq 0 10)).

(** Ten files of the same names in another directory, with other contents
    and a history. *)
Definition ten_files_elsewhere : world :=
  let w := folder "t" (map (fun n => ("f" +:+ PyStr.str (Z.of_nat n), plain jpeg)) (seq 0 10)) in
  World (files w) (dirs w) ["earlier output"] [EvStat "t"].

(** A directory that holds a sub-directory but no regular file. *)
Definition no_files : world :=
  World ∅ {["s"; "s/sub"]} [] [].

(** The scenario of the specification: [B.jpg] is a copy of [A.jpg], [C.jpg]
    has a corrupt header; with two notes of equal content and a copy of the
    corrupt image. *)
Definition photos : world :=
  folder "d" [("A.jpg", plain jpeg); ("B.jpg", plain jpeg); ("C.jpg", plain broken);
              ("D.JPG", plain broken); ("n1.txt", plain [Byte.x41]);
              ("n2.txt", plain [Byte.x41])].

(** [b.jpg] cannot be opened; [c.jpg] is a copy of [a.jpg]. *)
Definition photos_locked : world :=
  folder "d" [("a.jpg", plain jpeg); ("b.jpg", locked jpeg); ("c.jpg", plain jpeg)].

(** [b.jpg] opens but its second byte cannot be read. *)
Definition photos_faulty : world :=
  folder "d" [("a.jpg", plain jpeg); ("b.jpg", File jpeg true (Some 1%nat) true);
              ("c.jpg", plain jpeg)].

(** Zero-byte files of several extensions among others. *)
Definition with_empty : world :=
  folder "d" [("a.jpg", plain jpeg); ("e1.txt", plain []); ("e2.jpg", plain []);
              ("e3", plain [])].

(** The renaming collision of the specification. *)
Definition renamed : world :=
  folder "" [("img_001.jpg", plain jpeg); ("img_001_1.jpg", plain jpeg);
             ("img_001_2.jpg", plain jpeg)].

Definition renamed_other : world :=
  folder "" [("img_001.jpg", plain broken); ("img_001_1.jpg", plain []);
             ("img_001_2.jpg", locked jpeg)].

Definition split_args (train val test : PyFloat.float) : SplitDataset.args :=
  SplitDataset.Args "s" "out" train val test 42 false false.

End Samples.

(** * [check_class_balance.py] *)

(** A cell of the table handed to [tabulate]: the script puts strings and
    integers in its rows. *)
Inductive cell := CellStr (s : string) | CellInt (n : Z).

(** [tabulate(rows, headers=..., tablefmt="github")] of the [tabulate]
    package: the text of the table. *)
Class Tabulate := { tabulate_github : list (list cell) -> list string -> string }.

Module CheckClassBalance.
Import PyStr OsPath Os.

Definition EXTENSIONS : list string :=
  [".jpg"; ".jpeg"; ".png"; ".bmp"; ".gif"; ".tiff"; ".webp"].

Record args := Args {
  dir : string;
  ratio_threshold : PyFloat.float;
  diff_threshold : Z
}.

(** [os.path.splitext(f)[1].lower() in EXTENSIONS] *)
Definition supported (f : string) : bool :=
  bool_decide (lower (splitext f).2 ∈ EXTENSIONS).

(** The comprehension of [gather_class_counts] and its [len] (lines 55-60). *)
Definition count_class (class_path : string) : M world Z :=
  (names <- listdir class_path;;
   files <- filter_m (fun f =>
              (ok <- isfile (join class_path f);; ret (ok && supported f))%py) names;;
   ret (len files))%py.

(** The loop of [gather_class_counts] over the entries of the root. *)
Fixpoint gather_loop (root_dir : string) (entries : list string)
    (counts : gmap string Z) : M world (gmap string Z) :=
  match entries with
  | [] => ret counts
  | entry :: rest =>
      (let class_path := join root_dir entry in
       d <- isdir class_path;;
       if d then
         n <- count_class class_path;;
         gather_loop root_dir rest (<[entry:=n]> counts)
       else gather_loop root_dir rest counts)%py
  end.

Definition gather_class_counts (root_dir : string) : M world (gmap string Z) :=
  (names <- listdir root_dir;; gather_loop root_dir names ∅)%py.

(** [max(l)] *)
Definition py_max (l : list Z) : outcome Z :=
  match l with
  | [] => Raise ValueError
  | x :: l' => Return (foldr Z.max x l')
  end.

(** [a / b] for two [int]s: the float nearest to the quotient. *)
Definition true_div (a b : Z) : outcome PyFloat.float :=
  if b =? 0 then Raise (OtherError "division by zero")
  else if a =? 0 then Return (S754_zero (b <? 0))
  else
    let '(m, e, l) :=
      SFdiv_core_binary PyFloat.prec PyFloat.emax (Z.abs a) 0 (Z.abs b) 0 in
    match binary_round_aux PyFloat.prec PyFloat.emax (xorb (a <? 0) (b <? 0)) m e l with
    | S754_infinity _ => Raise OverflowError
    | x => Return x
    end.

(** The integer nearest to [m * 2^e], ties to even, for [0 <= m]. *)
Definition round_half_even (m e : Z) : Z :=
  if 0 <=? e then m * 2 ^ e
  else
    let d := 2 ^ (- e) in
    let q := m / d in
    let r := m mod d in
    if 2 * r <? d then q
    else if d <? 2 * r then q + 1
    else if Z.even q then q else q + 1.

(** [f"{x:.2f}"] *)
Definition format_2f (x : PyFloat.float) : string :=
  match x with
  | S754_nan => "nan"
  | S754_infinity s => if s then "-inf" else "inf"
  | S754_zero s => (if s then "-" else "") +:+ "0.00"
  | S754_finite s m e =>
      let n := round_half_even (Z.pos m * 100) e in
      (if s then "-" else "") +:+ str (n / 100) +:+ "."
      +:+ (if n mod 100 <? 10 then "0" else "") +:+ str (n mod 100)
  end.

(** [sep.join(l)] *)
Fixpoint join_with (sep : string) (l : list string) : string :=
  match l with
  | [] => ""
  | [x] => x
  | x :: l' => x +:+ sep +:+ join_with sep l'
  end.

(** [s or "OK"] *)
Definition or_ok (s : string) : string := if String.eqb s "" then "OK" else s.

(** The [status] list of one class (lines 80-88). *)
Definition status_of (a : args) (ratio : PyFloat.float) (diff : Z) : list string :=
  (if PyFloat.ltb ratio (ratio_threshold a)
   then ["ratio<" +:+ format_2f (ratio_threshold a)] else [])
  ++ (if diff_threshold a <? diff then ["diff>" +:+ str (diff_threshold a)] else []).

(** One turn of the loop over the classes: the row and whether it warns. *)
Definition row_of (a : args) (max_count : Z) (cls : string) (cnt : Z)
  : outcome (list cell * bool) :=
  ratio ← true_div cnt max_count;
  let diff := max_count - cnt in
  let status := status_of a ratio diff in
  Return ([CellStr cls; CellInt cnt; CellStr (format_2f ratio); CellInt diff;
           CellStr (or_ok (join_with "; " status))],
          match status with [] => false | _ => true end).

(** The loop over [sorted(counts.items())], with [summary] and [imbalance]. *)
Fixpoint summarise (a : args) (max_count : Z) (items : list (string * Z))
    (summary : list (list cell)) (imbalance : bool)
  : outcome (list (list cell) * bool) :=
  match items with
  | [] => Return (summary, imbalance)
  | (cls, cnt) :: rest =>
      r ← row_of a max_count cls cnt;
      summarise a max_count rest (summary ++ [r.1]) (imbalance || r.2)
  end.

(** [sorted(counts.items())]: the keys of a dictionary differ, so the pairs
    come in the order of their keys. *)
Definition sorted_items (counts : gmap string Z) : list (string * Z) :=
  map (fun k => (k, default 0 (counts !! k))) (sorted (elements (dom counts))).

(** [counts.values()] *)
Definition values (counts : gmap string Z) : list Z := (map_to_list counts).*2.

Definition headers : list string := ["Class"; "Count"; "Count/Max"; "Diff"; "Status"].

(** The state of a run: the world and the lines written to standard error. *)
Definition state : Type := world * list string.

Definition in_world {A} (c : M world A) : M state A :=
  fun s => let '(r, w') := c s.1 in (r, (w', s.2)).

(** [sys.exit(message)]: the interpreter writes the message to standard
    error and ends with status 1. *)
Definition exit_message {A} (message : string) : M state A :=
  (modify (fun s : state => (s.1, s.2 ++ [message]));; sys_exit (ExitStatus 1))%py.

Section WithTabulate.
Context `{Tabulate}.

Definition main (a : args) : M state unit :=
  (let root := dir a in
   ok <- in_world (isdir root);;
   if negb ok then exit_message ("Error: '" +:+ root +:+ "' is not a directory.")
   else
     counts <- in_world (gather_class_counts root);;
     if bool_decide (counts = ∅) then
       exit_message "No class subdirectories with supported files found."
     else
       max_count <- lift (py_max (values counts));;
       result <- lift (summarise a max_count (sorted_items counts) [] false);;
       in_world (print (tabulate_github result.1 headers));;
       if result.2 then
         in_world (print (SplitDataset.newline +:+ "WARNING: Class imbalance detected."));;
         sys_exit (ExitStatus 1)
       else
         in_world (print (SplitDataset.newline
                          +:+ "All classes are balanced within thresholds."));;
         sys_exit (ExitStatus 0))%py.

End WithTabulate.

End CheckClassBalance.

(** A [tabulate] that joins the cells of each row; enough to run [main]. *)
Definition cell_text (c : cell) : string :=
  match c with CellStr s => s | CellInt n => PyStr.str n end.

#[global] Instance plain_tabulate : Tabulate :=
  {| tabulate_github rows hs :=
       CheckClassBalance.join_with SplitDataset.newline
         (map (fun r => CheckClassBalance.join_with " | " (map cell_text r))
              ((map CellStr hs) :: rows)) |}.

Module ClassSamples.
Import Os.

(** Two classes, three and one image, a note and a stray file. *)
Definition pets : world :=
  World (list_to_map [("p/cat/1.jpg", Samples.plain Samples.jpeg);
                      ("p/cat/2.PNG", Samples.plain Samples.jpeg);
                      ("p/cat/3.jpeg", Samples.plain Samples.jpeg);
                      ("p/cat/notes.txt", Samples.plain []);
                      ("p/dog/1.jpg", Samples.plain Samples.jpeg);
                      ("p/readme.md", Samples.plain [])])
        {["p"; "p/cat"; "p/dog"]} [] [].

(** Two classes that hold no image. *)
Definition bare : world :=
  World (list_to_map [("p/cat/notes.txt", Samples.plain [])])
        {["p"; "p/cat"; "p/dog"]} [] [].

(** Two classes of one image each. *)
Definition level : world :=
  World (list_to_map [("p/cat/1.jpg", Samples.plain Samples.jpeg);
                      ("p/dog/1.JPG", Samples.plain Samples.jpeg);
                      ("p/dog/list.txt", Samples.plain [])])
        {["p"; "p/cat"; "p/dog"]} [] [].

Definition defaults (d : string) : CheckClassBalance.args :=
  CheckClassBalance.Args d (PyFloat.of_decimal 1 2) 50.

End ClassSamples.

(** * [batch_rename_images.py]: the run *)

(** [datetime.now().strftime("%Y-%m-%d %H:%M:%S")]: the text of the
    current time; reading the clock moves it on. *)
Class Clock := {
  clock_state : Type;
  strftime_now : clock_state -> string * clock_state
}.

Module BatchRenameImages.
Import PyStr OsPath BatchRename.

Definition PREFIX : string := "img".
Definition START_INDEX : Z := 1.
Definition NUM_DIGITS : Z := 3.
Definition EXTENSIONS : list string :=
  ["jpg"; "jpeg"; "png"; "gif"; "bmp"; "tiff"; "webp"].

Record args := Args {
  dir : string;
  prefix : string;
  start : Z;
  digits : Z;
  preview : bool
}.

(** *** Strings *)

(** [s.split(c)] for a separator of one character. *)
Fixpoint split (s : string) (c : ascii) : list string :=
  match s with
  | EmptyString => [""]
  | String a s' =>
      if Ascii.eqb a c then "" :: split s' c
      else match split s' c with
           | x :: xs => String a x :: xs
           | [] => [String a ""]
           end
  end.

(** [l[-1]] of a list that is not empty. *)
Definition last_item (l : list string) : string := List.last l "".

(** The white space that [strip] removes, among the ASCII characters. *)
Definition is_space (a : ascii) : bool :=
  let n := nat_of_ascii a in
  ((9 <=? n)%nat && (n <=? 13)%nat) || ((28 <=? n)%nat && (n <=? 32)%nat).

Fixpoint lstrip (s : string) : string :=
  match s with
  | String a s' => if is_space a then lstrip s' else s
  | EmptyString => EmptyString
  end.

(** [s.rstrip()]: the string up to its last character that is no space. *)
Fixpoint rstrip (s : string) : string :=
  match s with
  | String a s' =>
      match rstrip s' with
      | EmptyString => if is_space a then EmptyString else String a EmptyString
      | r => String a r
      end
  | EmptyString => EmptyString
  end.

(** [s.strip()], for a string of ASCII characters. *)
Definition strip (s : string) : string := rstrip (lstrip s).

Fixpoint zeros (n : nat) : string :=
  match n with O => "" | S k => String "0" (zeros k) end.

(** [s.zfill(width)] *)
Definition zfill (s : string) (width : Z) : string :=
  let n := Z.of_nat (String.length s) in
  if width <=? n then s
  else
    let pad := zeros (Z.to_nat (width - n)) in
    match s with
    | String a s' =>
        if (Ascii.eqb a "+" || Ascii.eqb a "-")%bool then String a (pad +:+ s')
        else pad +:+ s
    | EmptyString => pad
    end.

(** [filename.lower().split(".")[-1]]; it is compared with ASCII extensions
    only, see [PyStr.lower]. *)
Definition extension (filename : string) : string :=
  last_item (split (lower filename) extsep).

Definition is_image (f : string) : bool := bool_decide (extension f ∈ EXTENSIONS).

(** [f"{args.prefix}_{str(index).zfill(args.digits)}.{ext}"] *)
Definition new_name_of (a : args) (index : Z) (ext : string) : string :=
  prefix a +:+ "_" +:+ zfill (str index) (digits a) +:+ "." +:+ ext.

(** *** The file system *)

(** [os.replace(src, dst)] of a regular file within one directory (the
    directory of [dst] is taken to exist): a path renamed to itself stays; a
    directory in the way, or a file that may not be taken out of its
    directory, makes it fail; otherwise the file takes the place of whatever
    regular file was at [dst].  The error names both paths.  The call is
    logged as a move. *)
Definition replace (src dst : string) : M Os.world unit :=
  (Os.log (Os.EvMove src dst);;
   w <- Py.get;;
   let both := src +:+ "' -> '" +:+ dst in
   match Os.files w !! src with
   | Some f =>
       if String.eqb src dst then ret tt
       else if Os.is_dir w dst then raise (OSError IsADirectory both)
       else if negb (Os.removable f) then raise (OSError PermissionDenied both)
       else
         match Os.files w !! dst with
         | Some g =>
             if Os.removable g
             then Os.set_files (fun fs => <[dst:=f]> (delete src fs))
             else raise (OSError PermissionDenied both)
         | None => Os.set_files (fun fs => <[dst:=f]> (delete src fs))
         end
   | None => raise (OSError NotFound both)
   end)%py.

(** *** The session *)

Section WithClock.
Context `{Clock}.

(** The state of a run: the file system and standard output, the lines
    waiting on standard input, the prompts written (without a newline, so
    apart from the printed lines), and the clock. *)
Record session := Session {
  sys : Os.world;
  stdin : list string;
  prompts : list string;
  clock : clock_state
}.

Definition in_sys {A} (c : M Os.world A) : M session A :=
  fun s => let '(r, w') := c (sys s) in (r, Session w' (stdin s) (prompts s) (clock s)).

(** [log(msg)] *)
Definition log (msg : string) : M session unit :=
  fun s =>
    let '(timestamp, c') := strftime_now (clock s) in
    (Return tt,
     Session (Os.print ("[" +:+ timestamp +:+ "] " +:+ msg) (sys s)).2
             (stdin s) (prompts s) c').

(** [input(prompt)] *)
Definition input (prompt : string) : M session string :=
  fun s =>
    match stdin s with
    | line :: rest =>
        (Return line, Session (sys s) rest (prompts s ++ [prompt]) (clock s))
    | [] =>
        (Raise (OtherError "EOF when reading a line"),
         Session (sys s) [] (prompts s ++ [prompt]) (clock s))
    end.

(** The [while True] loop of [ask_collision_action], for at most [fuel]
    turns.  Every turn takes a line from standard input, so one turn more
    than there are lines is never used up. *)
Fixpoint ask_from (fuel : nat) (prompt : string) : M session string :=
  match fuel with
  | O => raise (OtherError "ask_collision_action: out of fuel")
  | S fuel' =>
      (line <- input prompt;;
       let choice := lower (strip line) in
       if bool_decide (choice ∈ ["o"; "overwrite"]) then ret "overwrite"
       else if bool_decide (choice ∈ ["s"; "skip"]) then ret "skip"
       else if bool_decide (choice ∈ ["r"; "rename"]) then ret "rename"
       else in_sys (Os.print "Enter O, S, or R.");; ask_from fuel' prompt)%py
  end.

Definition ask_collision_action (old new : string) : M session string :=
  (let prompt := "Target exists: '" +:+ new +:+ "'. [O]verwrite / [S]kip / [R]ename? " in
   s <- Py.get;;
   ask_from (S (length (stdin s))) prompt)%py.

(** *** [main] *)

(** The variables of the loop. *)
Record progress := Progress {
  index : Z;
  renamed_count : Z;
  skipped_count : Z;
  error_count : Z
}.

Definition renamed (p : progress) : progress :=
  Progress (index p + 1) (renamed_count p + 1) (skipped_count p) (error_count p).
Definition skipped (p : progress) : progress :=
  Progress (index p + 1) (renamed_count p) (skipped_count p + 1) (error_count p).
Definition failed (p : progress) : progress :=
  Progress (index p + 1) (renamed_count p) (skipped_count p) (error_count p + 1).

(** [for x in l: ...] with the variables the body updates. *)
Fixpoint for_fold {St A B} (l : list A) (body : A -> B -> M St B) (b : B) : M St B :=
  match l with
  | [] => ret b
  | x :: l' => bind (body x b) (for_fold l' body)
  end.

(** The handling of a collision (lines 121-132): the path to rename to, or
    [None] for [continue]. *)
Definition on_collision (filename old_path new_path : string)
  : M session (option string) :=
  (action <- ask_collision_action old_path new_path;;
   if String.eqb action "skip" then
     log ("Skipping '" +:+ filename +:+ "'");;
     ret None
   else if String.eqb action "rename" then
     resolved <- in_sys (resolve_collision new_path);;
     match resolved with
     | Some r =>
         log ("Auto-renamed collision to '" +:+ basename r +:+ "'");;
         ret (Some r)
     | None => raise (OtherError "resolve_collision: out of fuel")
     end
   else ret (Some new_path))%py.

(** The body of the loop of [main] (lines 110-143). *)
Definition turn (a : args) (filename : string) (p : progress) : M session progress :=
  (let ext := extension filename in
   let new_name := new_name_of a (index p) ext in
   let old_path := join (dir a) filename in
   let new_path := join (dir a) new_name in
   if preview a then
     log ("Preview: '" +:+ filename +:+ "' → '" +:+ new_name +:+ "'");;
     sys_exit (ExitStatus 0)
   else
     taken <- in_sys (Os.exists_ new_path);;
     decision <- (if taken then on_collision filename old_path new_path
                  else ret (Some new_path));;
     match decision with
     | None => ret (skipped p)
     | Some target =>
         try_except
           (in_sys (replace old_path target);;
            log ("Renamed '" +:+ filename +:+ "' → '" +:+ basename target +:+ "'");;
            ret (renamed p))
           (fun e =>
              log ("Error renaming '" +:+ filename +:+ "': " +:+ SplitDataset.exn_str e);;
              ret (failed p))
     end)%py.

(** The comprehension that builds [images] (lines 94-98). *)
Definition gather_images (a : args) : M Os.world (list string) :=
  (names <- Os.listdir (dir a);;
   let all_files := sorted names in
   filter_m (fun f => (ok <- Os.isfile (join (dir a) f);; ret (ok && is_image f))%py)
            all_files)%py.

Definition done_line (p : progress) : string :=
  "Done. Renamed: " +:+ str (renamed_count p) +:+ ", Skipped: " +:+ str (skipped_count p)
  +:+ ", Errors: " +:+ str (error_count p).

Definition main (a : args) : M session unit :=
  (images <- in_sys (gather_images a);;
   match images with
   | [] =>
       log "No image files found. Exiting.";;
       sys_exit (ExitStatus 0)
   | _ =>
       p <- for_fold images (turn a) (Progress (start a) 0 0 0);;
       log (done_line p)
   end)%py.

End WithClock.

End BatchRenameImages.

(** A clock that counts its readings. *)
#[global] Instance counting_clock : Clock :=
  {| clock_state := Z;
     strftime_now n := ("2024-01-01 00:00:" +:+ BatchRenameImages.zfill (PyStr.str n) 2,
                        n + 1) |}.

Module RenameSamples.
Import Os.

(** Three images, one of them without a stem, a note and a directory. *)
Definition shots : world :=
  World (list_to_map [("in/b.PNG", Samples.plain Samples.jpeg);
                      ("in/a.jpg", Samples.plain Samples.broken);
                      ("in/jpg", Samples.plain []);
                      ("in/notes.txt", Samples.plain []);
                      ("in/sub/c.jpg", Samples.plain Samples.jpeg)])
        {["in"; "in/sub"]} [] [].

(** The first target of the default names is taken. *)
Definition taken : world :=
  World (list_to_map [("in/a.jpg", Samples.plain Samples.jpeg);
                      ("in/img_001.jpg", Samples.plain Samples.broken)])
        {["in"]} [] [].

Definition defaults (d : string) (preview : bool) : BatchRenameImages.args :=
  BatchRenameImages.Args d BatchRenameImages.PREFIX BatchRenameImages.START_INDEX
    BatchRenameImages.NUM_DIGITS preview.

Definition begin (w : world) (answers : list string) : BatchRenameImages.session :=
  BatchRenameImages.Session w answers [] 0.

End RenameSamples.

(** * Properties *)

(** ** The monad and the built-ins *)

Section MonadFacts.
Context {St : Type}.

Lemma bind_return {A B} (c : M St A) (k : A -> M St B) s a s' :
  c s = (Return a, s') -> bind c k s = k a s'.
Proof. unfold bind. now intros ->. Qed.

Lemma bind_raise {A B} (c : M St A) (k : A -> M St B) s e s' :
  c s = (Raise e, s') -> bind c k s = (Raise e, s').
Proof. unfold bind. now intros ->. Qed.

Lemma bind_exit {A B} (c : M St A) (k : A -> M St B) s a s' :
  c s = (SysExit a, s') -> bind c k s = (SysExit a, s').
Proof. unfold bind. now intros ->. Qed.

(** A bind that returns: its first part returned too. *)
Lemma bind_inv {A B} (c : M St A) (k : A -> M St B) s b s2 :
  bind c k s = (Return b, s2) ->
  exists a s1, c s = (Return a, s1) /\ k a s1 = (Return b, s2).
Proof.
  unfold bind. destruct (c s) as [[a|e|x] s1]; intros Heq; try discriminate.
  now exists a, s1.
Qed.

End MonadFacts.

Lemma traverse_app {A B} (f : A -> outcome B) l1 l2 r1 r2 :
  traverse f l1 = Return r1 -> traverse f l2 = Return r2 ->
  traverse f (l1 ++ l2) = Return (r1 ++ r2).
Proof.
  revert r1. induction l1 as [|x l1 IH]; intros r1; cbn.
  - now intros [= <-].
  - destruct (f x) as [y| |]; cbn; try discriminate.
    destruct (traverse f l1) as [ys| |] eqn:E; cbn; try discriminate.
    intros [= <-] H2. now rewrite (IH ys eq_refl H2).
Qed.

(** A comprehension that returns read every element successfully. *)
Lemma traverse_Forall2 {A B} (f : A -> outcome B) l r :
  traverse f l = Return r <-> Forall2 (fun x y => f x = Return y) l r.
Proof.
  revert r. induction l as [|x l IH]; intros r; cbn.
  - split; [intros [= <-]; constructor | now inversion 1].
  - destruct (f x) as [y| |] eqn:Ex; cbn.
    + destruct (traverse f l) as [ys| |] eqn:E; cbn.
      * split.
        -- intros [= <-]. constructor; [done | now apply IH].
        -- inversion 1 as [|? y' ? ys' Hy Hys]; subst.
           apply IH in Hys. congruence.
      * split; [discriminate|].
        inversion 1 as [|? y' ? ys' Hy Hys]; subst. apply IH in Hys. discriminate.
      * split; [discriminate|].
        inversion 1 as [|? y' ? ys' Hy Hys]; subst. apply IH in Hys. discriminate.
    + split; [discriminate | inversion 1; congruence].
    + split; [discriminate | inversion 1; congruence].
Qed.

Lemma len_nonneg {A} (l : list A) : 0 <= len l.
Proof. unfold len. lia. Qed.

Lemma position_in_range {A} (l : list A) (i : nat) :
  (i < length l)%nat -> position l (Z.of_nat i) = Some i.
Proof.
  intros Hi. unfold position, len.
  destruct (Z.ltb_spec (Z.of_nat i) 0); [lia|].
  destruct (Z.leb_spec 0 (Z.of_nat i)); [|lia].
  destruct (Z.ltb_spec (Z.of_nat i) (Z.of_nat (length l))); [|lia].
  cbn. now rewrite Nat2Z.id.
Qed.

Lemma index_in_range {A} (l : list A) (i : nat) x :
  l !! i = Some x -> index l (Z.of_nat i) = Return x.
Proof.
  intros Hx. unfold index.
  rewrite position_in_range by (now apply lookup_lt_Some in Hx).
  cbn. now rewrite Hx.
Qed.

Lemma index_beyond {A} (l : list A) (i : Z) :
  len l <= i -> index l i = Raise IndexError.
Proof.
  intros Hi. pose proof (len_nonneg l). unfold index, position.
  destruct (Z.ltb_spec i 0); [lia|].
  destruct (Z.leb_spec 0 i); [|lia].
  destruct (Z.ltb_spec i (len l)); [lia|]. reflexivity.
Qed.

(** Reading a list through a block of consecutive indices inside it yields
    the corresponding slice. *)
Lemma traverse_index_block {A} (l : list A) (k a : nat) :
  (a + k <= length l)%nat ->
  traverse (index l) (range (Z.of_nat a) (Z.of_nat a + Z.of_nat k))
  = Return (take k (drop a l)).
Proof.
  unfold range. replace (Z.of_nat a + Z.of_nat k - Z.of_nat a) with (Z.of_nat k) by lia.
  revert a. induction k as [|k IH]; intros a Ha.
  - now rewrite seqZ_nil by lia.
  - rewrite seqZ_cons by lia.
    destruct (lookup_lt_is_Some_2 l a) as [x Hx]; [lia|].
    cbn [traverse]. rewrite (index_in_range _ _ _ Hx). cbn.
    replace (Z.succ (Z.of_nat a)) with (Z.of_nat (S a)) by lia.
    replace (Z.pred (Z.of_nat (S k))) with (Z.of_nat k) by lia.
    rewrite IH by lia. cbn.
    now rewrite (drop_S _ _ _ Hx).
Qed.

(** ** Floats *)


(** ** [split_dataset.py]: the slices *)

Section SplitFacts.
Import SplitDataset.


(** When both computed sizes are natural numbers that fit in the list, the
    three subsets are consecutive slices of it. *)
Lemma select_slices (fs : list string) r1 r2 (a b : nat) :
  block_count (len fs) r1 = Return (Z.of_nat a) ->
  block_count (len fs) r2 = Return (Z.of_nat b) ->
  (a + b <= length fs)%nat ->
  select fs r1 r2
  = Return [("train", take a fs); ("val", take b (drop a fs)); ("test", drop (a + b) fs)].
Proof.
  intros H1 H2 Hfit. unfold select, split_indices. rewrite H1, H2. cbn.
  change 0 with (Z.of_nat 0) at 1.
  replace (Z.of_nat a) with (Z.of_nat 0 + Z.of_nat a) at 1 by lia.
  rewrite traverse_index_block by (cbn; lia). cbn.
  rewrite traverse_index_block by lia. cbn.
  replace (len fs) with (Z.of_nat (a + b) + Z.of_nat (length fs - (a + b)))
    by (unfold len; lia).
  replace (Z.of_nat a + Z.of_nat b) with (Z.of_nat (a + b)) by lia.
  rewrite traverse_index_block by lia. cbn.
  rewrite drop_0. do 4 f_equal.
  rewrite take_ge; [reflexivity|]. rewrite length_drop. lia.
Qed.

Lemma select_slices_Z (fs : list string) r1 r2 k1 k2 :
  block_count (len fs) r1 = Return k1 ->
  block_count (len fs) r2 = Return k2 ->
  0 <= k1 -> 0 <= k2 -> k1 + k2 <= len fs ->
  select fs r1 r2
  = Return [("train", take (Z.to_nat k1) fs);
            ("val", take (Z.to_nat k2) (drop (Z.to_nat k1) fs));
            ("test", drop (Z.to_nat k1 + Z.to_nat k2) fs)].
Proof.
  intros H1 H2 ? ? Hfit. apply select_slices.
  - now rewrite Z2Nat.id.
  - now rewrite Z2Nat.id.
  - unfold len in Hfit. lia.
Qed.

(** The slices put back together are the list. *)
Lemma slices_cover {A} (l : list A) (a b : nat) :
  take a l ++ take b (drop a l) ++ drop (a + b) l = l.
Proof.
  rewrite <- (take_drop a l) at 4. f_equal.
  rewrite <- (take_drop b (drop a l)) at 2. f_equal.
  rewrite drop_drop. reflexivity.
Qed.

End SplitFacts.


(** ** Strings and directory listings *)

Section StringFacts.
Import PyStr OsPath.

Lemma substring_all s : substring 0 (String.length s) s = s.
Proof. induction s as [|a s IH]; cbn; [reflexivity | now rewrite IH]. Qed.

Lemma prefix_split pre p :
  String.prefix pre p = true ->
  p = pre +:+ substring (String.length pre) (String.length p - String.length pre) p.
Proof.
  revert p. induction pre as [|a pre IH]; intros p.
  - intros _. cbn. now rewrite Nat.sub_0_r, substring_all.
  - destruct p as [|c p]; cbn; [discriminate|].
    destruct (ascii_dec a c) as [->|]; [|discriminate].
    intros Hp. unfold String.app; cbn. f_equal. now apply IH.
Qed.

Lemma string_app_assoc (a b c : string) : (a +:+ b) +:+ c = a +:+ b +:+ c.
Proof. unfold String.app. induction a as [|x a IH]; cbn; [reflexivity | now rewrite IH]. Qed.

Lemma string_app_length (a b : string) :
  String.length (a +:+ b) = (String.length a + String.length b)%nat.
Proof. unfold String.app. induction a as [|x a IH]; cbn; [reflexivity | now rewrite IH]. Qed.

(** Cancellation of a common suffix. *)
Lemma string_app_inv_tail (a b t : string) : a +:+ t = b +:+ t -> a = b.
Proof.
  unfold String.app. revert b. induction a as [|x a IH]; intros [|y b]; cbn; intros Heq.
  - reflexivity.
  - apply (f_equal String.length) in Heq. cbn in Heq.
    change (String.append b t) with (b +:+ t) in Heq.
    rewrite string_app_length in Heq. lia.
  - apply (f_equal String.length) in Heq. cbn in Heq.
    change (String.append a t) with (a +:+ t) in Heq.
    rewrite string_app_length in Heq. lia.
  - injection Heq as -> Heq. f_equal. now apply IH.
Qed.

Lemma rfind_from_range c s i :
  0 <= i -> rfind_from c s i = -1 \/ i <= rfind_from c s i.
Proof.
  revert i. induction s as [|a s IH]; intros i Hi; cbn; [now left|].
  destruct (IH (i + 1)) as [E|E]; [lia| |].
  - rewrite E. cbn. destruct (Ascii.eqb a c); [right; lia | now left].
  - destruct (Z.ltb_spec (rfind_from c s (i + 1)) 0); [lia|]. right. lia.
Qed.

(** A name without separator does not start with one. *)
Lemma no_sep_startswith name :
  rfind name sep < 0 -> startswith name sep = false.
Proof.
  unfold rfind. destruct name as [|a s]; cbn; [reflexivity|].
  destruct (rfind_from_range sep s (0 + 1)) as [E|E]; [lia| |].
  - rewrite E. cbn. destruct (Ascii.eqb a sep); [lia | reflexivity].
  - destruct (Z.ltb_spec (rfind_from sep s (0 + 1)) 0); lia.
Qed.

Lemma join_dir_prefix d name :
  startswith name sep = false -> join d name = Os.dir_prefix d +:+ name.
Proof.
  intros Hn. unfold join, Os.dir_prefix. rewrite Hn.
  destruct (String.eqb d "" || endswith d sep)%bool; [reflexivity|].
  now rewrite string_app_assoc.
Qed.

End StringFacts.

Section ListingFacts.
Import PyStr OsPath Os.

Lemma entry_name_path d p name :
  entry_name d p = Some name ->
  p = dir_prefix d +:+ name /\ rfind name sep < 0 /\ join d name = p.
Proof.
  unfold entry_name. set (pre := dir_prefix d).
  destruct (String.prefix pre p) eqn:Hpre; cbn; [|discriminate].
  destruct (String.eqb _ "") eqn:Hne; cbn; [discriminate|].
  destruct (Z.ltb_spec (rfind (substring (String.length pre)
                                 (String.length p - String.length pre) p) sep) 0);
    [|discriminate].
  intros [= <-]. pose proof (prefix_split _ _ Hpre) as Hp.
  split; [exact Hp|]. split; [assumption|].
  rewrite join_dir_prefix by (now apply no_sep_startswith). symmetry. exact Hp.
Qed.

Lemma NoDup_omap_partial_inj {A B} (f : A -> option B) (l : list A) :
  (forall x y b, f x = Some b -> f y = Some b -> x = y) ->
  NoDup l -> NoDup (omap f l).
Proof.
  intros Hinj. induction 1 as [|x l Hx Hl IH]; cbn; [constructor|].
  destruct (f x) as [b|] eqn:Hb; [|exact IH].
  constructor; [|exact IH].
  rewrite list_elem_of_omap. intros (y & Hy & Hfy).
  now rewrite (Hinj x y b Hb Hfy) in Hx.
Qed.

(** A listing names every entry once. *)
Lemma entries_NoDup w d : NoDup (entries w d).
Proof.
  apply NoDup_omap_partial_inj; [|apply NoDup_elements].
  intros p q name Hp Hq.
  apply entry_name_path in Hp as (-> & _). apply entry_name_path in Hq as (-> & _).
  reflexivity.
Qed.

Lemma entries_no_sep w d name : name ∈ entries w d -> rfind name sep < 0.
Proof.
  unfold entries. rewrite list_elem_of_omap. intros (p & _ & Hp).
  now apply entry_name_path in Hp.
Qed.

(** On the names of a listing, joining with the directory is injective. *)
Lemma join_entries_inj w d n1 n2 :
  n1 ∈ entries w d -> n2 ∈ entries w d -> join d n1 = join d n2 -> n1 = n2.
Proof.
  intros H1%entries_no_sep%no_sep_startswith H2%entries_no_sep%no_sep_startswith.
  rewrite !join_dir_prefix by assumption. apply String.app_inj.
Qed.

(** [sorted] rearranges its argument into ascending order. *)
Lemma sorted_Permutation l : sorted l ≡ₚ l.
Proof. apply merge_sort_Permutation. Qed.

Lemma sorted_StronglySorted l : StronglySorted String.le (sorted l).
Proof. apply StronglySorted_merge_sort; apply _. Qed.

End ListingFacts.

(** ** What a computation does to the world *)

Section Frames.
Import Os.

(** From [w] to [w'] the files and directories did not change and the calls
    made all satisfy [P]. *)
Definition only_events (P : event -> Prop) (w w' : world) : Prop :=
  files w' = files w /\ dirs w' = dirs w /\
  exists evs, trace w' = trace w ++ evs /\ Forall P evs.

Definition keeps {A} (P : event -> Prop) (c : M world A) : Prop :=
  forall w, only_events P w (c w).2.

Lemma only_events_refl P w : only_events P w w.
Proof. repeat split. exists []. now rewrite app_nil_r. Qed.

Lemma only_events_trans P w1 w2 w3 :
  only_events P w1 w2 -> only_events P w2 w3 -> only_events P w1 w3.
Proof.
  intros (F1 & D1 & e1 & T1 & P1) (F2 & D2 & e2 & T2 & P2).
  repeat split; [congruence | congruence |].
  exists (e1 ++ e2). split; [rewrite T2, T1; now rewrite app_assoc|].
  now apply Forall_app.
Qed.

Lemma keeps_ret {A} P (a : A) : keeps P (ret a).
Proof. intros w. apply only_events_refl. Qed.

Lemma keeps_lift {A} P (c : outcome A) : keeps P (lift c).
Proof. intros w. apply only_events_refl. Qed.

Lemma keeps_get P : keeps P get.
Proof. intros w. apply only_events_refl. Qed.

Lemma keeps_bind {A B} P (c : M world A) (k : A -> M world B) :
  keeps P c -> (forall a, keeps P (k a)) -> keeps P (bind c k).
Proof.
  intros Hc Hk w. specialize (Hc w). unfold bind.
  destruct (c w) as [[a|e|x] w1]; cbn in *; try assumption.
  eapply only_events_trans; [exact Hc | apply Hk].
Qed.

Lemma keeps_try_except {A} P (c : M world A) (h : exn -> M world A) :
  keeps P c -> (forall e, keeps P (h e)) -> keeps P (try_except c h).
Proof.
  intros Hc Hh w. specialize (Hc w). unfold try_except.
  destruct (c w) as [[a|e|x] w1]; cbn in *; try assumption.
  eapply only_events_trans; [exact Hc | apply Hh].
Qed.

Lemma keeps_log (P : event -> Prop) e : P e -> keeps P (log e).
Proof.
  intros He w. cbn. repeat split. exists [e]. split; [reflexivity|]. now constructor.
Qed.

Lemma keeps_print P line : keeps P (print line).
Proof. intros w. cbn. repeat split. exists []. now rewrite app_nil_r. Qed.

Lemma keeps_for_each {A} P (l : list A) (body : A -> M world unit) :
  (forall x, keeps P (body x)) -> keeps P (for_each l body).
Proof.
  intros Hb. induction l as [|x l IH]; cbn; [apply keeps_ret|].
  apply keeps_bind; [apply Hb | intros _; exact IH].
Qed.

Lemma keeps_filter_m {A} P (p : A -> M world bool) (l : list A) :
  (forall x, keeps P (p x)) -> keeps P (filter_m p l).
Proof.
  intros Hp. induction l as [|x l IH]; cbn; [apply keeps_ret|].
  apply keeps_bind; [apply Hp | intros b].
  apply keeps_bind; [exact IH | intros ys; apply keeps_ret].
Qed.

Lemma keeps_if {A} P (b : bool) (c1 c2 : M world A) :
  keeps P c1 -> keeps P c2 -> keeps P (if b then c1 else c2).
Proof. now destruct b. Qed.

Lemma keeps_weaken {A} (P Q : event -> Prop) (c : M world A) :
  (forall e, P e -> Q e) -> keeps P c -> keeps Q c.
Proof.
  intros HPQ Hc w. destruct (Hc w) as (F & D & evs & T & HP).
  repeat split; try assumption. exists evs. split; [assumption|].
  eapply Forall_impl; eauto.
Qed.

(** The calls that only look at names. *)
Definition is_lookup (e : event) : Prop :=
  match e with EvStat _ | EvListdir _ => True | _ => False end.

(** The calls that leave the file system alone. *)
Definition is_quiet (e : event) : Prop := is_mutation e = false.

Lemma lookup_quiet e : is_lookup e -> is_quiet e.
Proof. now destruct e. Qed.

Lemma keeps_isfile p : keeps is_lookup (isfile p).
Proof.
  unfold isfile. apply keeps_bind; [now apply keeps_log|]. intros _.
  apply keeps_bind; [apply keeps_get|]. intros w. apply keeps_ret.
Qed.

Lemma keeps_isdir p : keeps is_lookup (isdir p).
Proof.
  unfold isdir. apply keeps_bind; [now apply keeps_log|]. intros _.
  apply keeps_bind; [apply keeps_get|]. intros w. apply keeps_ret.
Qed.

Lemma keeps_exists p : keeps is_lookup (exists_ p).
Proof.
  unfold exists_. apply keeps_bind; [now apply keeps_log|]. intros _.
  apply keeps_bind; [apply keeps_get|]. intros w. apply keeps_ret.
Qed.

Lemma keeps_listdir d : keeps is_lookup (listdir d).
Proof.
  unfold listdir. apply keeps_bind; [now apply keeps_log|]. intros _.
  apply keeps_bind; [apply keeps_get|]. intros w.
  repeat apply keeps_if; first [apply keeps_ret | apply keeps_lift].
Qed.

Lemma keeps_open p : keeps is_quiet (open p).
Proof.
  unfold open. apply keeps_bind; [now apply keeps_log|]. intros _.
  apply keeps_bind; [apply keeps_get|]. intros w.
  destruct (files w !! p) as [f|];
    repeat apply keeps_if; first [apply keeps_ret | apply keeps_lift].
Qed.

End Frames.

(** ** [random.shuffle] rearranges *)

Lemma filter_m_sublist {St A} (p : A -> M St bool) (l : list A) s r s' :
  filter_m p l s = (Return r, s') -> sublist r l.
Proof.
  revert s r s'. induction l as [|x l IH]; intros s r s'; cbn.
  - intros [= <- _]. constructor.
  - intros (b & s1 & _ & Hk)%bind_inv.
    apply bind_inv in Hk as (ys & s2 & Hys & Hret).
    injection Hret as <- _. apply IH in Hys.
    destruct b; [now constructor | now apply sublist_cons].
Qed.

Lemma swap_in_range {A} (l : list A) (i j : Z) :
  0 <= i < len l -> 0 <= j < len l ->
  exists l', swap l i j = Return l' /\ l' ≡ₚ l.
Proof.
  intros Hi Hj. unfold len in *.
  destruct (lookup_lt_is_Some_2 l (Z.to_nat i)) as [xi Hxi]; [lia|].
  destruct (lookup_lt_is_Some_2 l (Z.to_nat j)) as [xj Hxj]; [lia|].
  exists (<[Z.to_nat j:=xi]> (<[Z.to_nat i:=xj]> l)). split.
  - unfold swap.
    rewrite <- (Z2Nat.id i), <- (Z2Nat.id j) by lia.
    rewrite (index_in_range _ _ _ Hxj), (index_in_range _ _ _ Hxi). cbn.
    unfold setitem. rewrite position_in_range by lia. cbn.
    rewrite position_in_range by (rewrite length_insert; lia).
    now rewrite !Nat2Z.id.
  - now apply Permutation_insert_swap.
Qed.

Section ShuffleFacts.
Context `{Random}.
Import PyRandom.

Lemma shuffle_loop_Permutation {A} (idx : list Z) (x : list A) g :
  randbelow_in_range ->
  Forall (fun i => 0 <= i < len x) idx ->
  exists x' g', shuffle_loop idx x g = (Return x', g') /\ x' ≡ₚ x.
Proof.
  intros Hrb. revert x g. induction idx as [|i idx IH]; intros x g Hidx; cbn.
  - now exists x, g.
  - apply Forall_cons in Hidx as [Hi Hidx].
    pose proof (Hrb (i + 1) g ltac:(lia)) as Hj.
    destruct (swap_in_range x i (randbelow (i + 1) g).1) as (x1 & Hswap & Hperm);
      [lia | lia |].
    rewrite Hswap.
    destruct (IH x1 (randbelow (i + 1) g).2) as (x' & g' & Hloop & Hperm').
    { eapply Forall_impl; [exact Hidx|]. cbn. intros k Hk.
      unfold len in *. now rewrite (Permutation_length Hperm). }
    exists x', g'. split; [exact Hloop | now rewrite Hperm'].
Qed.

(** With a generator that keeps its promise, [shuffle] returns a
    rearrangement of its argument. *)
Lemma shuffle_Permutation {A} (x : list A) g :
  randbelow_in_range ->
  exists x' g', shuffle x g = (Return x', g') /\ x' ≡ₚ x.
Proof.
  intros Hrb. apply shuffle_loop_Permutation; [exact Hrb|].
  apply Forall_forall. intros i Hi. unfold range in Hi.
  rewrite elem_of_reverse, elem_of_seqZ in Hi. lia.
Qed.

End ShuffleFacts.

(** ** [split_dataset.py]: the listing *)

Section GatherFacts.
Import SplitDataset Os.

Lemma entries_same_fs w w' d :
  files w' = files w -> dirs w' = dirs w -> entries w' d = entries w d.
Proof. unfold entries. now intros -> ->. Qed.

Lemma listdir_returns d w names w' :
  listdir d w = (Return names, w') -> names = entries w d.
Proof.
  unfold listdir, bind, log, modify, get, ret, raise, lift. cbn.
  destruct (is_dir _ d); [now intros [= <- _]|].
  destruct (is_file _ d); discriminate.
Qed.

Lemma gather_files_NoDup src w fs w' :
  gather_files src w = (Return fs, w') -> NoDup fs.
Proof.
  unfold gather_files. intros (names & w1 & Hls & Hk)%bind_inv.
  apply bind_inv in Hk as (kept & w2 & Hkept & Hret). injection Hret as <- _.
  rewrite sorted_Permutation. apply filter_m_sublist in Hkept.
  apply listdir_returns in Hls as ->.
  eauto using sublist_NoDup, entries_NoDup.
Qed.

Lemma keeps_gather_files src : keeps is_lookup (gather_files src).
Proof.
  unfold gather_files. apply keeps_bind; [apply keeps_listdir|]. intros names.
  apply keeps_bind; [|intros; apply keeps_ret].
  apply keeps_filter_m. intros f. apply keeps_isfile.
Qed.

End GatherFacts.

(** ** [split_dataset.py]: the partition *)

Lemma lcg_in_range : @randbelow_in_range lcg_random.
Proof.
  intros n g Hn. cbn. destruct (Z.ltb_spec 0 n); [|lia].
  apply Z.mod_pos_bound. lia.
Qed.

Section PartitionFacts.
Context `{Random}.
Import SplitDataset Os PyRandom.

Lemma validate_accepted train val test :
  ratios_accepted train val test = true -> validate_ratios train val test = Return tt.
Proof. unfold validate_ratios, ratios_accepted, ratio_total. now intros ->. Qed.

Lemma validate_rejected train val test :
  ratios_accepted train val test = false ->
  validate_ratios train val test = SysExit (ExitRatios (ratio_total train val test)).
Proof. unfold validate_ratios, ratios_accepted, ratio_total. now intros ->. Qed.

(** [assign], step by step. *)
Lemma assign_unfold (a : args) w g :
  assign a (w, g) =
    match validate_ratios (train_ratio a) (val_ratio a) (test_ratio a) with
    | Return _ =>
        match gather_files (src_dir a) w with
        | (Return [], w') => (SysExit ExitNoFiles, (w', g))
        | (Return fs, w') =>
            match shuffle fs (seed_state (seed_arg a)) with
            | (Return fs', g') => (select fs' (train_ratio a) (val_ratio a), (w', g'))
            | (Raise e, g') => (Raise e, (w', g'))
            | (SysExit x, g') => (SysExit x, (w', g'))
            end
        | (Raise e, w') => (Raise e, (w', g))
        | (SysExit x, w') => (SysExit x, (w', g))
        end
    | Raise e => (Raise e, (w, g))
    | SysExit x => (SysExit x, (w, g))
    end.
Proof.
  unfold assign, bind, lift, in_world, in_random, seed, modify, sys_exit. cbn [fst snd].
  destruct (validate_ratios _ _ _) as [[]|e|x]; try reflexivity.
  destruct (gather_files (src_dir a) w) as [[[|f fs]|e|x] w']; try reflexivity.
  cbn [fst snd].
  destruct (shuffle (f :: fs) (seed_state (seed_arg a))) as [[fs'|e|x] g']; reflexivity.
Qed.

(** [assign] once the ratios are accepted and the listing is known. *)
Lemma assign_listed (a : args) w w' g fs :
  ratios_accepted (train_ratio a) (val_ratio a) (test_ratio a) = true ->
  gather_files (src_dir a) w = (Return fs, w') ->
  assign a (w, g) =
    match fs with
    | [] => (SysExit ExitNoFiles, (w', g))
    | _ =>
        match shuffle fs (seed_state (seed_arg a)) with
        | (Return fs', g') => (select fs' (train_ratio a) (val_ratio a), (w', g'))
        | (Raise e, g') => (Raise e, (w', g'))
        | (SysExit x, g') => (SysExit x, (w', g'))
        end
    end.
Proof.
  intros Hacc Hls. rewrite assign_unfold, (validate_accepted _ _ _ Hacc), Hls.
  now destruct fs.
Qed.

End PartitionFacts.

(** Membership in the subsets, one subset at a time. *)
Lemma elem_of_members (s : SplitDataset.subsets_t) f :
  f ∈ SplitDataset.members s <-> exists name, SplitDataset.assigned s f name.
Proof.
  unfold SplitDataset.members, SplitDataset.assigned.
  induction s as [|[n l] s IH]; cbn.
  - split; [now intros ?%elem_of_nil | intros (name & l & Hin & _); now apply elem_of_nil in Hin].
  - rewrite elem_of_app, IH. split.
    + intros [Hl|(name & l' & Hin & Hf)].
      * exists n, l. split; [now left | assumption].
      * exists name, l'. split; [now right | assumption].
    + intros (name & l' & Hin & Hf). apply elem_of_cons in Hin as [[= -> ->]|Hin].
      * now left.
      * right. now exists name, l'.
Qed.

(** When no file occurs twice and the names differ, a file is in one subset
    at most. *)
Lemma assigned_unique (s : SplitDataset.subsets_t) f n1 n2 :
  NoDup (s.*1) -> NoDup (SplitDataset.members s) ->
  SplitDataset.assigned s f n1 -> SplitDataset.assigned s f n2 -> n1 = n2.
Proof.
  unfold SplitDataset.members.
  induction s as [|[n l] s IH]; cbn; intros Hnames Hmem (l1 & H1 & Hf1) (l2 & H2 & Hf2).
  - now apply elem_of_nil in H1.
  - apply NoDup_cons in Hnames as [Hn Hnames].
    apply NoDup_app in Hmem as (Hl & Hdisj & Hrest).
    assert (Hother : forall name l', (name, l') ∈ s -> f ∈ l' -> f ∈ concat (s.*2)).
    { intros name l' Hin Hf. apply (elem_of_members s f). now exists name, l'. }
    apply elem_of_cons in H1 as [[= -> ->]|H1]; apply elem_of_cons in H2 as [[= -> ->]|H2].
    + reflexivity.
    + destruct (Hdisj f Hf1). eauto.
    + destruct (Hdisj f Hf2). eauto.
    + apply IH; try assumption; [now exists l1 | now exists l2].
Qed.

(** C1, as amended.  For a listing that is not empty and ratios that
    validation accepts, whenever the two sizes the code computes,
    [int(n * train)] and [int(n * val)], are not negative and together at most
    [n], the run yields the subsets train, val and test, and these form a
    strict disjoint cover of the listing: together they are a rearrangement
    of it, no file occurs twice, and every file of the listing is in exactly
    one subset. *)
Theorem split_disjoint_cover `{Random} (a : SplitDataset.args) w w' g fs n_train n_val :
  randbelow_in_range ->
  SplitDataset.ratios_accepted (SplitDataset.train_ratio a) (SplitDataset.val_ratio a)
    (SplitDataset.test_ratio a) = true ->
  SplitDataset.gather_files (SplitDataset.src_dir a) w = (Return fs, w') ->
  fs <> [] ->
  SplitDataset.block_count (len fs) (SplitDataset.train_ratio a) = Return n_train ->
  SplitDataset.block_count (len fs) (SplitDataset.val_ratio a) = Return n_val ->
  0 <= n_train -> 0 <= n_val -> n_train + n_val <= len fs ->
  exists s g',
    SplitDataset.assign a (w, g) = (Return s, (w', g'))
    /\ s.*1 = ["train"; "val"; "test"]
    /\ SplitDataset.members s ≡ₚ fs
    /\ NoDup (SplitDataset.members s)
    /\ (forall f, f ∈ fs ->
          exists name, SplitDataset.assigned s f name
                       /\ forall name', SplitDataset.assigned s f name' -> name' = name).
Proof.
  intros Hrb Hacc Hls Hne B1 B2 Hn1 Hn2 Hfit.
  rewrite (assign_listed a w w' g fs Hacc Hls).
  destruct fs as [|f0 fs0]; [congruence|]. set (fs := f0 :: fs0) in *.
  destruct (shuffle_Permutation fs (seed_state (SplitDataset.seed_arg a)) Hrb)
    as (fs' & g' & -> & Hperm).
  assert (Hlen : len fs' = len fs) by (unfold len; now rewrite (Permutation_length Hperm)).
  rewrite <- Hlen in B1, B2, Hfit.
  rewrite (select_slices_Z fs' _ _ n_train n_val B1 B2 Hn1 Hn2 Hfit).
  set (s := [("train", take (Z.to_nat n_train) fs');
             ("val", take (Z.to_nat n_val) (drop (Z.to_nat n_train) fs'));
             ("test", drop (Z.to_nat n_train + Z.to_nat n_val) fs')]).
  assert (Hcover : SplitDataset.members s = fs').
  { unfold SplitDataset.members, s. cbn. rewrite app_nil_r. apply slices_cover. }
  assert (Hnd : NoDup (SplitDataset.members s)).
  { rewrite Hcover, Hperm. eapply gather_files_NoDup; exact Hls. }
  exists s, g'. split; [reflexivity|]. split; [reflexivity|].
  split; [now rewrite Hcover|]. split; [exact Hnd|].
  intros f Hf.
  assert (Hin : f ∈ SplitDataset.members s) by now rewrite Hcover, Hperm.
  apply elem_of_members in Hin as [name Hname]. exists name. split; [exact Hname|].
  intros name' Hname'. apply (assigned_unique s f name' name); try assumption.
  unfold s. cbn. apply (bool_decide_unpack _). vm_compute. exact I.
Qed.

Lemma split_disjoint_cover_witness :
  exists s g',
    SplitDataset.assign
      (Samples.split_args SplitDataset.r0_7 SplitDataset.r0_2 SplitDataset.r0_1)
      (Samples.ten_files, 0)
    = (Return s,
       ((SplitDataset.gather_files "s" Samples.ten_files).2, g'))
    /\ s.*1 = ["train"; "val"; "test"]
    /\ SplitDataset.members s
       ≡ₚ ["f0"; "f1"; "f2"; "f3"; "f4"; "f5"; "f6"; "f7"; "f8"; "f9"]
    /\ NoDup (SplitDataset.members s)
    /\ (forall f, f ∈ ["f0"; "f1"; "f2"; "f3"; "f4"; "f5"; "f6"; "f7"; "f8"; "f9"] ->
          exists name, SplitDataset.assigned s f name
                       /\ forall name', SplitDataset.assigned s f name' -> name' = name).
Proof.
  apply (@split_disjoint_cover lcg_random
           (Samples.split_args SplitDataset.r0_7 SplitDataset.r0_2 SplitDataset.r0_1)
           Samples.ten_files _ 0
           ["f0"; "f1"; "f2"; "f3"; "f4"; "f5"; "f6"; "f7"; "f8"; "f9"] 7 2).
  - exact lcg_in_range.
  - vm_compute. reflexivity.
  - vm_compute. reflexivity.
  - discriminate.
  - vm_compute. reflexivity.
  - vm_compute. reflexivity.
  - lia.
  - lia.
  - vm_compute. discriminate.
Defined.

(** C1 as stated fails: the triple (-0.5, 0.5, 1.0) sums to 1.0 and is
    accepted, the listing has four files, and the run puts the last two files
    of the shuffled list both into val and into test; the triple (0.7, 0.7, -0.4) is accepted too and
    on ten files the run stops with an [IndexError], covering nothing. *)
Lemma split_accepted_ratios_overlap :
  let neg := Samples.split_args (PyFloat.of_decimal (-5) 10) (PyFloat.of_decimal 5 10)
                                (PyFloat.of_Z 1) in
  let big := Samples.split_args SplitDataset.r0_7 SplitDataset.r0_7
                                (PyFloat.of_decimal (-4) 10) in
  (SplitDataset.ratios_accepted (SplitDataset.train_ratio neg) (SplitDataset.val_ratio neg)
     (SplitDataset.test_ratio neg) = true
   /\ (SplitDataset.gather_files "s" Samples.four_files).1 = Return ["a"; "b"; "c"; "d"]
   /\ (SplitDataset.assign neg (Samples.four_files, 0)).1
      = Return [("train", []); ("val", ["c"; "b"]); ("test", ["a"; "d"; "c"; "b"])]
   /\ ~ SplitDataset.members
          [("train", []); ("val", ["c"; "b"]); ("test", ["a"; "d"; "c"; "b"])]
        ≡ₚ ["a"; "b"; "c"; "d"]
   /\ ~ NoDup (SplitDataset.members
          [("train", []); ("val", ["c"; "b"]); ("test", ["a"; "d"; "c"; "b"])]))
  /\ (SplitDataset.ratios_accepted (SplitDataset.train_ratio big) (SplitDataset.val_ratio big)
        (SplitDataset.test_ratio big) = true
      /\ (SplitDataset.assign big (Samples.ten_files, 0)).1 = Raise IndexError).
Proof.
  cbv zeta. split; [|split; vm_compute; reflexivity].
  split; [vm_compute; reflexivity|].
  split; [vm_compute; reflexivity|].
  split; [vm_compute; reflexivity|].
  split.
  - intros Hp. apply Permutation_length in Hp. discriminate.
  - intros Hd. vm_compute in Hd. apply NoDup_cons in Hd as [Hc _].
    apply Hc. repeat constructor.
Qed.


(** C9. Two runs with the same seed, the same listing in the same order and
    the same ratios agree on the shuffled order and on the subsets, whatever
    else differs: the state the generator was in before each run, the other
    arguments, and the rest of the two file systems. *)
Theorem partition_deterministic `{Random} (a1 a2 : SplitDataset.args) w1 w2 g1 g2 fs w1' w2' :
  SplitDataset.seed_arg a1 = SplitDataset.seed_arg a2 ->
  SplitDataset.train_ratio a1 = SplitDataset.train_ratio a2 ->
  SplitDataset.val_ratio a1 = SplitDataset.val_ratio a2 ->
  SplitDataset.test_ratio a1 = SplitDataset.test_ratio a2 ->
  SplitDataset.gather_files (SplitDataset.src_dir a1) w1 = (Return fs, w1') ->
  SplitDataset.gather_files (SplitDataset.src_dir a2) w2 = (Return fs, w2') ->
  (bind (PyRandom.seed (SplitDataset.seed_arg a1)) (fun _ => PyRandom.shuffle fs) g1).1
  = (bind (PyRandom.seed (SplitDataset.seed_arg a2)) (fun _ => PyRandom.shuffle fs) g2).1
  /\ (SplitDataset.assign a1 (w1, g1)).1 = (SplitDataset.assign a2 (w2, g2)).1.
Proof.
  intros Hseed Htr Hva Hte L1 L2. split.
  - unfold bind, PyRandom.seed, modify. now rewrite Hseed.
  - rewrite !assign_unfold, L1, L2, Htr, Hva, Hte, Hseed.
    destruct (SplitDataset.validate_ratios _ _ _) as [[]|e|x]; try reflexivity.
    destruct fs as [|f fs0]; [reflexivity|].
    destruct (PyRandom.shuffle (f :: fs0) (seed_state (SplitDataset.seed_arg a2)))
      as [[fs'|e|x] g']; reflexivity.
Qed.

Lemma partition_deterministic_witness :
  let a1 := Samples.split_args SplitDataset.r0_7 SplitDataset.r0_2 SplitDataset.r0_1 in
  let a2 := SplitDataset.Args "t" "elsewhere" SplitDataset.r0_7 SplitDataset.r0_2
              SplitDataset.r0_1 42 true true in
  (bind (PyRandom.seed 42) (fun _ => PyRandom.shuffle
     ["f0"; "f1"; "f2"; "f3"; "f4"; "f5"; "f6"; "f7"; "f8"; "f9"]) 0).1
  = (bind (PyRandom.seed 42) (fun _ => PyRandom.shuffle
     ["f0"; "f1"; "f2"; "f3"; "f4"; "f5"; "f6"; "f7"; "f8"; "f9"]) 2024).1
  /\ (SplitDataset.assign a1 (Samples.ten_files, 0)).1
     = (SplitDataset.assign a2 (Samples.ten_files_elsewhere, 2024)).1.
Proof.
  cbv zeta.
  apply (@partition_deterministic lcg_random
           (Samples.split_args SplitDataset.r0_7 SplitDataset.r0_2 SplitDataset.r0_1)
           (SplitDataset.Args "t" "elsewhere" SplitDataset.r0_7 SplitDataset.r0_2
              SplitDataset.r0_1 42 true true)
           Samples.ten_files Samples.ten_files_elsewhere 0 2024
           ["f0"; "f1"; "f2"; "f3"; "f4"; "f5"; "f6"; "f7"; "f8"; "f9"]
           (SplitDataset.gather_files "s" Samples.ten_files).2
           (SplitDataset.gather_files "t" Samples.ten_files_elsewhere).2).
  - reflexivity.
  - reflexivity.
  - reflexivity.
  - reflexivity.
  - vm_compute. reflexivity.
  - vm_compute. reflexivity.
Defined.

(** ** [split_dataset.py]: fatal configuration errors *)

Section MainFacts.
Context `{Random}.
Import SplitDataset.

(** When [assign] exits, [main] exits the same way in the same state. *)
Lemma main_exits_with_assign (a : args) st x st' :
  assign a st = (SysExit x, st') -> main a st = (SysExit x, st').
Proof. intros Ha. unfold main. now rewrite (bind_exit _ _ _ _ _ Ha). Qed.

End MainFacts.

(** C5. Configuration errors are fatal and come first.  A ratio triple whose
    sum is not within 1e-6 of 1.0 makes the run exit with the ratio message
    in the very state it started in: no call to the file system was made, so
    no file was read and nothing was changed.  With accepted ratios, a source
    directory without regular files makes the run exit with the no-files
    message after calls that only list and stat: nothing was read, created,
    copied or moved.  The triple (0.7, 0.2, 0.15) is rejected. *)
Theorem config_errors_abort_first `{Random} (a : SplitDataset.args) w g :
  (SplitDataset.ratios_accepted (SplitDataset.train_ratio a) (SplitDataset.val_ratio a)
     (SplitDataset.test_ratio a) = false ->
   SplitDataset.main a (w, g)
   = (SysExit (ExitRatios (SplitDataset.ratio_total (SplitDataset.train_ratio a)
                             (SplitDataset.val_ratio a) (SplitDataset.test_ratio a))),
      (w, g)))
  /\ (SplitDataset.ratios_accepted (SplitDataset.train_ratio a) (SplitDataset.val_ratio a)
        (SplitDataset.test_ratio a) = true ->
      forall w', SplitDataset.gather_files (SplitDataset.src_dir a) w = (Return [], w') ->
      SplitDataset.main a (w, g) = (SysExit ExitNoFiles, (w', g))
      /\ only_events is_lookup w w')
  /\ SplitDataset.ratios_accepted SplitDataset.r0_7 SplitDataset.r0_2 SplitDataset.r0_15
     = false.
Proof.
  split; [|split].
  - intros Hrej. apply main_exits_with_assign.
    now rewrite assign_unfold, (validate_rejected _ _ _ Hrej).
  - intros Hacc w' Hls. split.
    + apply main_exits_with_assign. now rewrite (assign_listed a w w' g [] Hacc Hls).
    + pose proof (keeps_gather_files (SplitDataset.src_dir a) w) as Hk.
      now rewrite Hls in Hk.
  - vm_compute. reflexivity.
Qed.

Lemma config_errors_abort_first_witness :
  let bad := Samples.split_args SplitDataset.r0_7 SplitDataset.r0_2 SplitDataset.r0_15 in
  let good := Samples.split_args SplitDataset.r0_7 SplitDataset.r0_2 SplitDataset.r0_1 in
  SplitDataset.main bad (Samples.ten_files, 0)
  = (SysExit (ExitRatios (SplitDataset.ratio_total SplitDataset.r0_7 SplitDataset.r0_2
                            SplitDataset.r0_15)),
     (Samples.ten_files, 0))
  /\ SplitDataset.main good (Samples.no_files, 0)
     = (SysExit ExitNoFiles, ((SplitDataset.gather_files "s" Samples.no_files).2, 0))
  /\ only_events is_lookup Samples.no_files (SplitDataset.gather_files "s" Samples.no_files).2.
Proof.
  cbv zeta. split.
  - apply (proj1 (@config_errors_abort_first lcg_random
                    (Samples.split_args SplitDataset.r0_7 SplitDataset.r0_2 SplitDataset.r0_15)
                    Samples.ten_files 0)).
    vm_compute. reflexivity.
  - apply (proj1 (proj2 (@config_errors_abort_first lcg_random
                    (Samples.split_args SplitDataset.r0_7 SplitDataset.r0_2 SplitDataset.r0_1)
                    Samples.no_files 0))).
    + vm_compute. reflexivity.
    + vm_compute. reflexivity.
Defined.

(** ** [cleanup_dataset.py]: hashing *)

Section HashFacts.
Context `{Hashlib}.
Import CleanupDataset Os.

Lemma read_block_sound (f : file) pos k :
  faulty f = false -> read_block f pos k = Return (take k (drop pos (data f))).
Proof.
  unfold faulty, read_block. destruct (fault_at f) as [off|]; [|reflexivity].
  intros ->. now rewrite andb_false_r.
Qed.

Lemma drop_length_take {A} (l : list A) k : drop (length (take k l)) l = drop k l.
Proof.
  rewrite length_take. destruct (Nat.le_gt_cases k (length l)).
  - now rewrite Nat.min_l.
  - rewrite Nat.min_r by lia. now rewrite !drop_ge by lia.
Qed.

(** The loop feeds the hasher every byte from [pos] on, in order. *)
Lemma read_loop_whole fuel path (f : file) bs pos h :
  faulty f = false -> (0 < bs)%nat -> (length (data f) - pos < fuel)%nat ->
  read_loop fuel path f bs pos h = Return (h ++ drop pos (data f)).
Proof.
  intros Hf Hbs. revert pos h. induction fuel as [|fuel IH]; intros pos h Hfuel; [lia|].
  cbn [read_loop]. rewrite (read_block_sound _ _ _ Hf).
  destruct (take bs (drop pos (data f))) as [|b block] eqn:Hblock.
  - destruct (drop pos (data f)) as [|x l] eqn:Hdrop; [now rewrite app_nil_r|].
    destruct bs; [lia | discriminate].
  - rewrite <- Hblock. rewrite IH.
    + unfold update. rewrite <- app_assoc. f_equal.
      rewrite <- drop_drop, drop_length_take. now rewrite take_drop.
    + assert (length (take bs (drop pos (data f))) <> 0)%nat by now rewrite Hblock.
      assert (pos < length (data f))%nat.
      { destruct (Nat.le_gt_cases (length (data f)) pos); [|assumption].
        rewrite drop_ge in Hblock by assumption. now rewrite take_nil in Hblock. }
      lia.
Qed.

(** The world after [open(p)]. *)
Definition opened (w : world) (p : string) : world :=
  World (files w) (dirs w) (stdout w) (trace w ++ [EvOpen p]).

Lemma fingerprint_same_files w w' p :
  files w' = files w -> fingerprint w' p = fingerprint w p.
Proof. unfold fingerprint. now intros ->. Qed.

(** Hashing a file that opens and reads to its end returns the digest of
    its bytes and only adds the call to the trace. *)
Lemma compute_hash_fingerprint w p h :
  fingerprint w p = Some h -> compute_hash p w = (Return h, opened w p).
Proof.
  unfold fingerprint. destruct (files w !! p) as [f|] eqn:Hp; [|discriminate].
  destruct (readable f) eqn:Hr; [|discriminate].
  destruct (faulty f) eqn:Hf; [discriminate|]. cbn. intros [= <-].
  assert (Hopen : open p w = (Return f, opened w p)).
  { unfold open, bind, log, modify, get, ret. cbn. now rewrite Hp, Hr. }
  unfold compute_hash, compute_hash_with. rewrite (bind_return _ _ _ _ _ Hopen).
  unfold bind, lift, ret.
  rewrite (read_loop_whole _ _ _ _ _ _ Hf) by lia.
  now rewrite drop_0.
Qed.

Lemma keeps_compute_hash p : keeps is_quiet (compute_hash p).
Proof.
  unfold compute_hash, compute_hash_with. apply keeps_bind; [apply keeps_open|]. intros f.
  apply keeps_bind; [apply keeps_lift|]. intros h. apply keeps_ret.
Qed.

(** *** The duplicate pass as a function of the fingerprints *)

Section Pairing.
Variable fp : string -> string.

Definition remember (hashes : gmap string string) (p : string) : gmap string string :=
  match hashes !! fp p with
  | Some _ => hashes
  | None => <[fp p:=p]> hashes
  end.

(** What the loop appends to [duplicates], given the fingerprints. *)
Fixpoint pair_up (paths : list string) (hashes : gmap string string)
  : list (string * string) :=
  match paths with
  | [] => []
  | p :: rest =>
      match hashes !! fp p with
      | Some first => (p, first) :: pair_up rest hashes
      | None => pair_up rest (<[fp p:=p]> hashes)
      end
  end.

Lemma pair_up_remember p rest hashes :
  pair_up (p :: rest) hashes
  = match hashes !! fp p with Some first => [(p, first)] | None => [] end
    ++ pair_up rest (remember hashes p).
Proof. cbn. unfold remember. now destruct (hashes !! fp p). Qed.

(** A pair is reported for the file at some position [i], with whatever the
    table holds for its fingerprint after the files before [i]. *)
Lemma elem_of_pair_up paths hashes d c :
  (d, c) ∈ pair_up paths hashes <->
  exists i, paths !! i = Some d
            /\ fold_left remember (take i paths) hashes !! fp d = Some c.
Proof.
  revert hashes. induction paths as [|p rest IH]; intros hashes.
  - cbn. split; [now intros ?%elem_of_nil | now intros (i & ? & _)].
  - rewrite pair_up_remember, elem_of_app, IH. split.
    + intros [Hhd|(i & Hi & Hc)].
      * exists 0%nat. destruct (hashes !! fp p) as [q|] eqn:Hq;
          [|now apply elem_of_nil in Hhd].
        apply list_elem_of_singleton in Hhd. injection Hhd as -> ->. now cbn.
      * now exists (S i).
    + intros ([|i] & Hi & Hc); cbn in Hi, Hc.
      * injection Hi as ->. left. rewrite Hc. now apply list_elem_of_singleton.
      * right. now exists i.
Qed.

(** After the files of [pre], the table holds for a fingerprint what it held
    before or else the first file of [pre] with that fingerprint. *)
Lemma remembered_first pre hashes h :
  fold_left remember pre hashes !! h
  = match hashes !! h with
    | Some c => Some c
    | None => snd <$> list_find (fun c => fp c = h) pre
    end.
Proof.
  revert hashes. induction pre as [|p pre IH]; intros hashes; cbn [fold_left].
  - cbn. now destruct (hashes !! h).
  - rewrite IH. unfold remember. cbn [list_find].
    destruct (hashes !! fp p) as [q|] eqn:Hq.
    + destruct (hashes !! h) as [c|] eqn:Hc; [reflexivity|].
      case_decide as Hph; [congruence|].
      destruct (list_find _ pre) as [[j c]|]; reflexivity.
    + case_decide as Hph.
      * subst h. now rewrite lookup_insert_eq, Hq.
      * rewrite lookup_insert_ne by assumption.
        destruct (hashes !! h) as [c|]; [reflexivity|].
        destruct (list_find _ pre) as [[j c]|]; reflexivity.
Qed.

(** The pairs of the pass started with an empty table: a file, and the first
    file of the listing with its fingerprint, which comes before it. *)
Lemma pair_up_first paths d c :
  (d, c) ∈ pair_up paths ∅ <->
  exists i j, (j < i)%nat /\ paths !! i = Some d /\ paths !! j = Some c
              /\ fp c = fp d
              /\ forall k c', (k < j)%nat -> paths !! k = Some c' -> fp c' <> fp d.
Proof.
  rewrite elem_of_pair_up. split.
  - intros (i & Hi & Hc). rewrite remembered_first, lookup_empty in Hc.
    destruct (list_find _ (take i paths)) as [[j c0]|] eqn:Hfind; [|discriminate].
    injection Hc as ->. apply list_find_Some in Hfind as (Hj & Hfp & Hfirst).
    apply lookup_take_Some in Hj as [Hj Hji].
    exists i, j. repeat split; try assumption.
    intros k c' Hk Hc'. apply (Hfirst k c'); [|assumption].
    rewrite lookup_take_lt by lia. assumption.
  - intros (i & j & Hji & Hi & Hj & Hfp & Hfirst). exists i. split; [assumption|].
    rewrite remembered_first, lookup_empty.
    assert (list_find (fun c0 => fp c0 = fp d) (take i paths) = Some (j, c)) as ->; [|reflexivity].
    apply list_find_Some. split; [now rewrite lookup_take_lt by lia|].
    split; [assumption|].
    intros k c' Hk Hkj. apply lookup_take_Some in Hk as [Hk _]. eauto.
Qed.

End Pairing.

End HashFacts.

(** ** [cleanup_dataset.py]: the duplicate pass *)

Lemma StronglySorted_lookup_le {A} (R : relation A) (l : list A) j k x y :
  StronglySorted R l -> l !! j = Some x -> l !! k = Some y -> (j < k)%nat -> R x y.
Proof.
  intros Hs. revert j k. induction Hs as [|a l Hs IH Hall]; intros j k Hj Hk Hjk.
  - now rewrite lookup_nil in Hj.
  - destruct k as [|k]; [lia|]. cbn in Hk. destruct j as [|j]; cbn in Hj.
    + injection Hj as ->. rewrite Forall_forall in Hall. apply Hall.
      eapply list_elem_of_lookup_2; eauto.
    + apply (IH j k); [assumption | assumption | lia].
Qed.

Section DuplicateFacts.
Context `{Hashlib}.
Import CleanupDataset Os.

(** All files of a listing can be hashed. *)
Definition hashable (w : world) (fs : list string) : Prop :=
  forall p, p ∈ fs -> is_Some (fingerprint w p).

(** The fingerprint as a total function, for listings that are [hashable]. *)
Definition fp_of (w : world) (p : string) : string := default "" (fingerprint w p).

Lemma fp_of_eq w fs p q :
  hashable w fs -> p ∈ fs -> q ∈ fs ->
  fp_of w p = fp_of w q <-> fingerprint w p = fingerprint w q.
Proof.
  intros Hh [hp Hp]%Hh [hq Hq]%Hh. unfold fp_of. rewrite Hp, Hq. cbn.
  split; congruence.
Qed.

Lemma find_duplicates_loop_pairs w paths :
  hashable w paths ->
  forall hashes dups w1, files w1 = files w ->
  exists w2,
    find_duplicates_loop paths hashes dups w1
    = (Return (dups ++ pair_up (fp_of w) paths hashes), w2)
    /\ only_events is_quiet w1 w2.
Proof.
  induction paths as [|p rest IH]; intros Hh hashes dups w1 Hw1.
  - exists w1. cbn. rewrite app_nil_r. split; [reflexivity | apply only_events_refl].
  - destruct (Hh p) as [h Hp]; [now left|].
    assert (Hrest : hashable w rest) by (intros q Hq; apply Hh; now right).
    assert (Hfp : fp_of w p = h) by (unfold fp_of; now rewrite Hp).
    cbn [find_duplicates_loop pair_up].
    rewrite (bind_return _ _ _ _ _
               (compute_hash_fingerprint w1 p h
                  ltac:(now rewrite (fingerprint_same_files w w1 p Hw1)))).
    rewrite Hfp.
    assert (Hstep : only_events is_quiet w1 (opened w1 p)).
    { repeat split. exists [EvOpen p]. split; [reflexivity | now repeat constructor]. }
    destruct (hashes !! h) as [first|].
    + destruct (IH Hrest hashes (dups ++ [(p, first)]) (opened w1 p) Hw1) as (w2 & -> & Hk).
      exists w2. split; [now rewrite <- app_assoc|].
      eapply only_events_trans; eassumption.
    + destruct (IH Hrest (<[h:=p]> hashes) dups (opened w1 p) Hw1) as (w2 & -> & Hk).
      exists w2. split; [reflexivity|].
      eapply only_events_trans; eassumption.
Qed.

(** The duplicate pass on a listing that can be hashed returns the pairs of
    [pair_up] and changes nothing. *)
Lemma find_duplicates_pairs w w1 fs :
  hashable w fs -> files w1 = files w ->
  exists w2, find_duplicates fs w1 = (Return (pair_up (fp_of w) fs ∅), w2)
             /\ only_events is_quiet w1 w2.
Proof.
  intros Hh Hw1. apply (find_duplicates_loop_pairs w fs Hh ∅ [] w1 Hw1).
Qed.

(** In a sorted listing without repetition, the pairs are: a file, and the
    least file with its fingerprint, when that is another file. *)
Lemma pair_up_least (fp : string -> string) fs d c :
  NoDup fs -> StronglySorted String.le fs ->
  (d, c) ∈ pair_up fp fs ∅ <->
  d ∈ fs /\ c ∈ fs /\ c <> d /\ fp c = fp d
  /\ forall c', c' ∈ fs -> fp c' = fp d -> String.le c c'.
Proof.
  intros Hnd Hs. rewrite pair_up_first. split.
  - intros (i & j & Hji & Hi & Hj & Hfp & Hfirst).
    split; [eapply list_elem_of_lookup_2; eauto|].
    split; [eapply list_elem_of_lookup_2; eauto|].
    split; [intros ->; pose proof (NoDup_lookup _ _ _ _ Hnd Hi Hj); lia|].
    split; [assumption|].
    intros c' [k Hk]%list_elem_of_lookup Hc'.
    destruct (Nat.lt_trichotomy k j) as [Hlt|[->|Hgt]].
    + now destruct (Hfirst k c' Hlt Hk).
    + rewrite Hj in Hk. injection Hk as ->. reflexivity.
    + eapply StronglySorted_lookup_le; eauto.
  - intros ([i Hi]%list_elem_of_lookup & [j Hj]%list_elem_of_lookup & Hne & Hfp & Hleast).
    assert (Hfirst : forall k c', (k < j)%nat -> fs !! k = Some c' -> fp c' <> fp d).
    { intros k c' Hk Hc' Heq.
      assert (c' = c) as ->.
      { apply (anti_symm String.le).
        - eapply StronglySorted_lookup_le; eauto.
        - apply Hleast; [eapply list_elem_of_lookup_2; eauto | assumption]. }
      pose proof (NoDup_lookup _ _ _ _ Hnd Hc' Hj). lia. }
    exists i, j. repeat split; try assumption.
    destruct (Nat.lt_trichotomy i j) as [Hlt|[->|Hgt]]; [|congruence|assumption].
    now destruct (Hfirst i d Hlt Hi).
Qed.

(** The listing of [gather_all_files]: sorted, without repetition, and
    obtained by calls that only look at names. *)
Lemma gather_all_files_listing root w fs w0 :
  gather_all_files root w = (Return fs, w0) ->
  NoDup fs /\ StronglySorted String.le fs /\ only_events is_lookup w w0.
Proof.
  intros Hg. split; [|split].
  - unfold gather_all_files in Hg. apply bind_inv in Hg as (names & w1 & Hls & Hk).
    apply bind_inv in Hk as (kept & w2 & Hkept & Hret). injection Hret as <- _.
    rewrite sorted_Permutation. apply filter_m_sublist in Hkept.
    apply listdir_returns in Hls as ->.
    apply NoDup_fmap_2_strong.
    + intros n1 n2 H1 H2. apply (join_entries_inj w root); eapply elem_of_sublist; eauto.
    + eauto using sublist_NoDup, entries_NoDup.
  - unfold gather_all_files in Hg. apply bind_inv in Hg as (names & w1 & _ & Hk).
    apply bind_inv in Hk as (kept & w2 & _ & Hret). injection Hret as <- _.
    apply sorted_StronglySorted.
  - assert (Hk : keeps is_lookup (gather_all_files root)).
    { unfold gather_all_files. apply keeps_bind; [apply keeps_listdir|]. intros names.
      apply keeps_bind; [|intros; apply keeps_ret].
      apply keeps_filter_m. intros f. apply keeps_isfile. }
    specialize (Hk w). now rewrite Hg in Hk.
Qed.

End DuplicateFacts.

(** ** [cleanup_dataset.py]: deletion *)

Section LoopFacts.
Context {St : Type} (R : St -> St -> Prop) `{!Reflexive R} `{!Transitive R}.

Lemma bind_related {A B} (c : M St A) (k : A -> M St B) s :
  R s (c s).2 -> (forall a, R (c s).2 (k a (c s).2).2) -> R s (bind c k s).2.
Proof.
  unfold bind. intros Hc Hk. destruct (c s) as [[a|e|x] s1]; cbn in *; try assumption.
  etransitivity; [exact Hc | apply Hk].
Qed.

Lemma for_each_related {A} (l : list A) (body : A -> M St unit) :
  (forall x, x ∈ l -> forall s, R s (body x s).2) ->
  forall s, R s (for_each l body s).2.
Proof.
  induction l as [|x l IH]; intros Hb s; cbn; [reflexivity|].
  apply bind_related; [apply Hb; now left|].
  intros _. apply IH. intros y Hy. apply Hb. now right.
Qed.

(** Every run of [c] takes a state to one related to it. *)
Definition preserves {A} (c : M St A) : Prop := forall s, R s (c s).2.

Lemma preserves_ret {A} (a : A) : preserves (ret a).
Proof. intros s. reflexivity. Qed.

Lemma preserves_bind {A B} (c : M St A) (k : A -> M St B) :
  preserves c -> (forall a, preserves (k a)) -> preserves (bind c k).
Proof. intros Hc Hk s. apply bind_related; [apply Hc | intros a; apply Hk]. Qed.

Lemma preserves_for_each {A} (l : list A) (body : A -> M St unit) :
  (forall x, preserves (body x)) -> preserves (for_each l body).
Proof. intros Hb s. apply for_each_related. intros x _. apply Hb. Qed.

Lemma preserves_if {A} (b : bool) (c1 c2 : M St A) :
  preserves c1 -> preserves c2 -> preserves (if b then c1 else c2).
Proof. now destruct b. Qed.

End LoopFacts.

Section RemovalFacts.
Import CleanupDataset Os.

(** The file at [q] is the same in both worlds. *)
Definition same_file_at (q : string) (w w' : world) : Prop := files w' !! q = files w !! q.

#[local] Instance same_file_at_refl q : Reflexive (same_file_at q).
Proof. now intros w. Qed.
#[local] Instance same_file_at_trans q : Transitive (same_file_at q).
Proof. unfold same_file_at. intros w1 w2 w3 H1 H2. congruence. Qed.

Lemma try_remove_other p q w : q <> p -> same_file_at q w (try_remove p w).2.
Proof.
  intros Hne. unfold same_file_at, try_remove, try_except, remove, bind, log, modify, get,
    set_files, raise, lift, print. cbn.
  destruct (files w !! p) as [f|] eqn:Hp.
  - destruct (removable f); cbn; [now rewrite lookup_delete_ne | reflexivity].
  - destruct (is_dir _ p); reflexivity.
Qed.

(** Deleting the duplicates leaves every path alone that is not the first
    member of a pair. *)
Lemma process_duplicates_other dry ds q w :
  q ∉ ds.*1 -> same_file_at q w (process_duplicates dry ds w).2.
Proof.
  intros Hq. unfold process_duplicates. apply for_each_related; try apply _.
  intros [d c] Hdc w1. apply bind_related; try apply _; [reflexivity|].
  intros _. destruct dry; cbn [negb]; [reflexivity|].
  pose proof (try_remove_other d q (print (dup_line d c) w1).2) as Hr.
  apply Hr. intros ->. apply Hq. apply list_elem_of_fmap. now exists (d, c).
Qed.

End RemovalFacts.


(** Case analysis on a path of an explicit listing. *)
Ltac each_listed Hp tac :=
  repeat (apply elem_of_cons in Hp as [->|Hp]; [tac|]);
  now apply elem_of_nil in Hp.


(** ** [cleanup_dataset.py]: the report and dry runs *)

Section ReportFacts.
Context `{Hashlib} `{Pil}.
Import CleanupDataset Os.

Lemma report_lines_print line w :
  report_lines (print line w).2
  = report_lines w ++ (if is_report_line line then [line] else []).
Proof.
  unfold report_lines. cbn. rewrite filter_app. f_equal.
  cbn. destruct (is_report_line line) eqn:E.
  - rewrite decide_True by reflexivity. reflexivity.
  - rewrite decide_False by discriminate. reflexivity.
Qed.

Lemma remove_cases p w :
  (exists w', remove p w = (Return tt, w') /\ stdout w' = stdout w)
  \/ (exists e w', remove p w = (Raise e, w') /\ stdout w' = stdout w).
Proof.
  unfold remove, bind, log, modify, get, set_files, raise, lift. cbn.
  destruct (files w !! p) as [f|].
  - destruct (removable f); cbn; [left | right]; eauto.
  - destruct (is_dir _ p); right; eauto.
Qed.

Lemma try_remove_returns p w :
  (try_remove p w).1 = Return tt /\ report_lines (try_remove p w).2 = report_lines w.
Proof.
  unfold try_remove, try_except.
  destruct (remove_cases p w) as [(w' & -> & Hout)|(e & w' & -> & Hout)].
  - cbn. split; [reflexivity|]. unfold report_lines. now rewrite Hout.
  - split; [reflexivity|]. rewrite report_lines_print.
    unfold report_lines. rewrite Hout. cbn. apply app_nil_r.
Qed.

Lemma bind_run {St A B} (c : M St A) (k : A -> M St B) s a :
  (c s).1 = Return a -> bind c k s = k a (c s).2.
Proof. unfold bind. destruct (c s) as [r s1]. cbn. now intros ->. Qed.

(** A loop whose body always returns and reports one line per turn. *)
Lemma for_each_lines {A} (l : list A) (body : A -> M world unit) (line_of : A -> string) :
  (forall x w, (body x w).1 = Return tt
               /\ report_lines (body x w).2 = report_lines w ++ [line_of x]) ->
  forall w, (for_each l body w).1 = Return tt
            /\ report_lines (for_each l body w).2 = report_lines w ++ map line_of l.
Proof.
  intros Hb. induction l as [|x l IH]; intros w.
  - cbn. now rewrite app_nil_r.
  - destruct (Hb x w) as [Hr Hl]. cbn [for_each map].
    rewrite (bind_run _ _ _ tt Hr). destruct (IH (body x w).2) as [-> ->].
    rewrite Hl, <- app_assoc. now split.
Qed.

Lemma process_duplicates_lines dry ds w :
  (process_duplicates dry ds w).1 = Return tt
  /\ report_lines (process_duplicates dry ds w).2
     = report_lines w ++ map (fun dc => dup_line dc.1 dc.2) ds.
Proof.
  unfold process_duplicates. apply for_each_lines. clear w. intros [d c] w.
  rewrite (bind_run _ _ _ tt) by reflexivity.
  pose proof (report_lines_print (dup_line d c) w) as Hp. cbn [is_report_line] in Hp.
  change (is_report_line (dup_line d c)) with true in Hp.
  destruct dry; cbn [negb].
  - cbn [ret fst snd]. now split.
  - destruct (try_remove_returns d (print (dup_line d c) w).2) as [-> ->]. now split.
Qed.

Lemma process_corrupts_lines dry cs w :
  (process_corrupts dry cs w).1 = Return tt
  /\ report_lines (process_corrupts dry cs w).2 = report_lines w ++ map corrupt_line cs.
Proof.
  unfold process_corrupts. apply for_each_lines. clear w. intros c w.
  rewrite (bind_run _ _ _ tt) by reflexivity.
  pose proof (report_lines_print (corrupt_line c) w) as Hp.
  change (is_report_line (corrupt_line c)) with true in Hp.
  destruct dry; cbn [negb].
  - cbn [ret fst snd]. now split.
  - destruct (try_remove_returns c (print (corrupt_line c) w).2) as [-> ->]. now split.
Qed.

End ReportFacts.

Section DryRunFacts.
Context `{Hashlib} `{Pil}.
Import CleanupDataset Os.

Lemma when_print_lines (b : bool) line w :
  is_report_line line = false ->
  (when b (print line) w).1 = Return tt
  /\ report_lines (when b (print line) w).2 = report_lines w.
Proof.
  intros Hl. destruct b; cbn [when]; [|now split].
  split; [reflexivity|]. rewrite report_lines_print, Hl. apply app_nil_r.
Qed.

(** Whatever the mode, the run reports one line per duplicate pair and one
    per corrupt path, in order, and returns. *)
Lemma report_lines_report dry ds cs w :
  (report dry ds cs w).1 = Return tt
  /\ report_lines (report dry ds cs w).2
     = report_lines w ++ map (fun dc => dup_line dc.1 dc.2) ds ++ map corrupt_line cs.
Proof.
  unfold report.
  destruct (negb (nonempty ds) && negb (nonempty cs)) eqn:Hempty.
  - destruct ds; [|discriminate]. destruct cs; [|discriminate]. cbn [map app].
    split; [reflexivity|]. rewrite report_lines_print. reflexivity.
  - rewrite (bind_run _ _ _ tt) by reflexivity.
    pose proof (report_lines_print "Summary:" w) as L0. cbn [is_report_line] in L0.
    change (is_report_line "Summary:") with false in L0. rewrite app_nil_r in L0.
    set (w0 := (print "Summary:" w).2) in *.
    destruct (when_print_lines (nonempty ds)
                ("  Duplicates (will remove one of each pair): "
                 +:+ PyStr.str (len ds) +:+ " files") w0 eq_refl) as [R1 L1].
    rewrite (bind_run _ _ _ tt R1). set (w1 := (when (nonempty ds) _ w0).2) in *.
    destruct (when_print_lines (nonempty cs)
                ("  Corrupt images (will remove): " +:+ PyStr.str (len cs) +:+ " files")
                w1 eq_refl) as [R2 L2].
    rewrite (bind_run _ _ _ tt R2). set (w2 := (when (nonempty cs) _ w1).2) in *.
    destruct (when_print_lines dry
                (SplitDataset.newline +:+ "Dry-run mode enabled. No files will be deleted.")
                w2 eq_refl) as [R3 L3].
    rewrite (bind_run _ _ _ tt R3). set (w3 := (when dry _ w2).2) in *.
    rewrite (bind_run _ _ _ tt) by reflexivity.
    pose proof (report_lines_print "" w3) as L4.
    change (is_report_line "") with false in L4. rewrite app_nil_r in L4.
    set (w4 := (print "" w3).2) in *.
    destruct (process_duplicates_lines dry ds w4) as [R5 L5].
    rewrite (bind_run _ _ _ tt R5). set (w5 := (process_duplicates dry ds w4).2) in *.
    destruct (process_corrupts_lines dry cs w5) as [R6 L6].
    rewrite (bind_run _ _ _ tt R6). set (w6 := (process_corrupts dry cs w5).2) in *.
    destruct (when_print_lines (negb dry) (SplitDataset.newline +:+ "Cleanup complete.")
                w6 eq_refl) as [R7 L7].
    split; [exact R7|].
    rewrite L7, L6, L5, L4, L3, L2, L1, L0. now rewrite <- app_assoc.
Qed.

(** *** Calls made *)

Definition same_quiet_calls (w w' : world) : Prop := quiet_calls w' = quiet_calls w.

#[local] Instance same_quiet_calls_refl : Reflexive same_quiet_calls.
Proof. now intros w. Qed.
#[local] Instance same_quiet_calls_trans : Transitive same_quiet_calls.
Proof. unfold same_quiet_calls. intros w1 w2 w3 H1 H2. congruence. Qed.

(** Nothing but standard output changed. *)
Definition only_printed (w w' : world) : Prop :=
  files w' = files w /\ dirs w' = dirs w /\ trace w' = trace w.

#[local] Instance only_printed_refl : Reflexive only_printed.
Proof. now intros w. Qed.
#[local] Instance only_printed_trans : Transitive only_printed.
Proof. unfold only_printed. intros w1 w2 w3 (?&?&?) (?&?&?). repeat split; congruence. Qed.

Lemma try_remove_quiet_calls p w : same_quiet_calls w (try_remove p w).2.
Proof.
  unfold same_quiet_calls, quiet_calls, try_remove, try_except, remove, bind, log, modify,
    get, set_files, raise, lift, print. cbn.
  destruct (files w !! p) as [f|].
  - destruct (removable f); cbn; rewrite filter_app; cbn; apply app_nil_r.
  - destruct (is_dir _ p); cbn; rewrite filter_app; cbn; apply app_nil_r.
Qed.

Lemma preserves_when (R : world -> world -> Prop) `{!Reflexive R} (b : bool)
    (c : M world unit) :
  preserves R c -> preserves R (when b c).
Proof. intros Hc. destruct b; cbn [when]; [exact Hc | intros w; reflexivity]. Qed.

(** The report, for any relation that printing and the bodies of the two
    loops preserve. *)
Lemma preserves_report (R : world -> world -> Prop) `{!Reflexive R} `{!Transitive R}
    dry ds cs :
  (forall line, preserves R (print line)) ->
  (forall p, preserves R (if negb dry then try_remove p else ret tt)) ->
  preserves R (report dry ds cs).
Proof.
  intros Hprint Hbody. unfold report. apply preserves_if; [apply Hprint|].
  repeat (apply preserves_bind; try apply _; [|intros _]);
    try (apply preserves_when; try apply _); try apply Hprint.
  - unfold process_duplicates. apply preserves_for_each; try apply _. intros [d c].
    apply preserves_bind; try apply _; [apply Hprint | intros _; apply Hbody].
  - unfold process_corrupts. apply preserves_for_each; try apply _. intros c.
    apply preserves_bind; try apply _; [apply Hprint | intros _; apply Hbody].
Qed.

(** The deletions are the only calls a live run adds to the report. *)
Lemma report_quiet_calls dry ds cs w : same_quiet_calls w (report dry ds cs w).2.
Proof.
  apply (preserves_report same_quiet_calls).
  - intros line w0. reflexivity.
  - intros p w0. destruct (negb dry); [apply try_remove_quiet_calls | reflexivity].
Qed.

(** A dry run's report only prints. *)
Lemma report_dry_only_printed ds cs w : only_printed w (report true ds cs w).2.
Proof.
  apply (preserves_report only_printed).
  - intros line w0. repeat split.
  - intros p w0. reflexivity.
Qed.

(** *** The scan changes nothing *)

Lemma keeps_find_duplicates_loop paths hashes dups :
  keeps is_quiet (find_duplicates_loop paths hashes dups).
Proof.
  revert hashes dups. induction paths as [|p rest IH]; intros hashes dups; cbn.
  - apply keeps_ret.
  - apply keeps_bind; [apply keeps_compute_hash|]. intros h.
    destruct (hashes !! h); apply IH.
Qed.

Lemma keeps_is_corrupt_image p : keeps is_quiet (is_corrupt_image p).
Proof.
  unfold is_corrupt_image, open_and_verify. apply keeps_try_except.
  - apply keeps_bind; [|intros; apply keeps_ret].
    apply keeps_bind; [apply keeps_open|]. intros f.
    destruct (image_check f); first [apply keeps_ret | apply keeps_lift].
  - intros e. destruct e; first [apply keeps_ret | apply keeps_lift].
Qed.

Lemma keeps_scan root : keeps is_quiet (scan root).
Proof.
  unfold scan. apply keeps_bind.
  { apply (keeps_weaken is_lookup); [apply lookup_quiet|].
    unfold gather_all_files. apply keeps_bind; [apply keeps_listdir|]. intros names.
    apply keeps_bind; [|intros; apply keeps_ret].
    apply keeps_filter_m. intros f. apply keeps_isfile. }
  intros fs. apply keeps_bind; [apply keeps_find_duplicates_loop|]. intros ds.
  apply keeps_bind; [|intros; apply keeps_ret].
  unfold find_corrupts. apply keeps_filter_m. intros p.
  apply keeps_if; [apply keeps_is_corrupt_image | apply keeps_ret].
Qed.

(** [main], step by step. *)
Lemma main_unfold (a : args) w :
  let w0 := World (files w) (dirs w) (stdout w) (trace w ++ [EvStat (dir a)]) in
  main a w =
    if is_dir w (dir a) then
      match scan (dir a) w0 with
      | (Return found, w1) => report (dry_run a) found.1 found.2 w1
      | (Raise e, w1) => (Raise e, w1)
      | (SysExit x, w1) => (SysExit x, w1)
      end
    else (SysExit (ExitStatus 1),
          (print ("Error: '" +:+ dir a +:+ "' is not a directory.") w0).2).
Proof.
  cbv zeta. unfold main.
  assert (Hstat : isdir (dir a) w
                  = (Return (is_dir w (dir a)),
                     World (files w) (dirs w) (stdout w) (trace w ++ [EvStat (dir a)])))
    by reflexivity.
  rewrite (bind_return _ _ _ _ _ Hstat).
  destruct (is_dir w (dir a)); cbn [negb].
  - unfold bind. destruct (scan (dir a) _) as [[found|e|x] w1]; reflexivity.
  - reflexivity.
Qed.

End DryRunFacts.

(** C4. A dry run and a live run on the same snapshot end the same way and
    report the same classification: the same [DUP] and [CORRUPT] lines, which
    in either mode are one line per duplicate pair and one per corrupt path
    of the scan.  The dry run leaves files and directories as they were and
    makes no call that changes the file system; the live run makes the same
    calls and, beyond them, only calls that do. *)
Theorem dry_run_equivalence `{Hashlib} `{Pil} (root : string) (w : Os.world) :
  let dry := CleanupDataset.main (CleanupDataset.Args root true) w in
  let live := CleanupDataset.main (CleanupDataset.Args root false) w in
  dry.1 = live.1
  /\ CleanupDataset.report_lines dry.2 = CleanupDataset.report_lines live.2
  /\ only_events is_quiet w dry.2
  /\ CleanupDataset.quiet_calls live.2 = CleanupDataset.quiet_calls dry.2
  /\ (forall mode ds cs w1,
        CleanupDataset.report_lines (CleanupDataset.report mode ds cs w1).2
        = CleanupDataset.report_lines w1
          ++ map (fun dc => CleanupDataset.dup_line dc.1 dc.2) ds
          ++ map CleanupDataset.corrupt_line cs).
Proof.
  cbv zeta. rewrite !main_unfold. cbn [CleanupDataset.dir CleanupDataset.dry_run].
  set (w0 := Os.World (Os.files w) (Os.dirs w) (Os.stdout w)
               (Os.trace w ++ [Os.EvStat root])).
  assert (Hw0 : only_events is_quiet w w0).
  { repeat split. exists [Os.EvStat root]. split; [reflexivity | now repeat constructor]. }
  assert (Hlines : forall mode ds cs w1,
             CleanupDataset.report_lines (CleanupDataset.report mode ds cs w1).2
             = CleanupDataset.report_lines w1
               ++ map (fun dc => CleanupDataset.dup_line dc.1 dc.2) ds
               ++ map CleanupDataset.corrupt_line cs)
    by (intros; apply report_lines_report).
  destruct (Os.is_dir w root).
  - pose proof (keeps_scan root w0) as Hscan.
    destruct (CleanupDataset.scan root w0) as [[found|e|x] w1]; cbn [snd] in Hscan.
    + destruct (report_lines_report true found.1 found.2 w1) as [Rd Ld].
      destruct (report_lines_report false found.1 found.2 w1) as [Rl Ll].
      split; [congruence|]. split; [congruence|]. split; [|split; [|exact Hlines]].
      * eapply only_events_trans; [exact Hw0|].
        eapply only_events_trans; [exact Hscan|].
        destruct (report_dry_only_printed found.1 found.2 w1) as (Hf & Hd & Ht).
        repeat split; try assumption. exists []. rewrite app_nil_r. now split.
      * pose proof (report_quiet_calls true found.1 found.2 w1) as Qd.
        pose proof (report_quiet_calls false found.1 found.2 w1) as Ql.
        unfold same_quiet_calls in Qd, Ql. congruence.
    + repeat split; try reflexivity; try exact Hlines.
      all: try (destruct (only_events_trans _ _ _ _ Hw0 Hscan) as (Hf & Hd & Ht); assumption).
    + repeat split; try reflexivity; try exact Hlines.
      all: try (destruct (only_events_trans _ _ _ _ Hw0 Hscan) as (Hf & Hd & Ht); assumption).
  - cbn [fst snd]. repeat split; try reflexivity; try exact Hlines.
    exists [Os.EvStat root]. split; [reflexivity | now repeat constructor].
Qed.

(** ** [cleanup_dataset.py]: the corruption pass *)

Section CorruptFacts.
Context `{Hashlib} `{Pil}.
Import CleanupDataset Os.

(** The decoder accepts the file at [p] or fails with one of the two errors
    [is_corrupt_image] handles. *)
Definition decodes_or_fails (w : world) (p : string) : Prop :=
  forall f what, files w !! p = Some f -> readable f = true ->
                 image_check f <> ImageOtherError what.

Lemma is_corrupt_image_run w p :
  decodes_or_fails w p ->
  is_corrupt_image p w = (Return (undecodable w p), opened w p).
Proof.
  intros Hd. unfold is_corrupt_image, try_except, open_and_verify, undecodable.
  unfold open, bind, log, modify, get, ret, raise, lift. cbn.
  fold (opened w p).
  destruct (files w !! p) as [f|] eqn:Hp.
  - destruct (readable f) eqn:Hr; [|reflexivity].
    specialize (Hd f). destruct (image_check f); try reflexivity.
    now destruct (Hd what).
  - destruct (is_dir _ p); reflexivity.
Qed.

Lemma undecodable_same_files w w' p :
  files w' = files w -> undecodable w' p = undecodable w p.
Proof. unfold undecodable. now intros ->. Qed.

Lemma decodes_or_fails_same_files w w' p :
  files w' = files w -> decodes_or_fails w p -> decodes_or_fails w' p.
Proof. unfold decodes_or_fails. now intros ->. Qed.

(** The corruption pass returns the files with an image extension that do
    not decode, in listing order. *)
Lemma find_corrupts_run w fs :
  (forall p, p ∈ fs -> has_image_extension p = true -> decodes_or_fails w p) ->
  forall w1, files w1 = files w ->
  exists w2,
    find_corrupts fs w1
    = (Return (filter (fun p => has_image_extension p && undecodable w p = true) fs), w2).
Proof.
  unfold find_corrupts. induction fs as [|p fs IH]; intros Hd w1 Hw1.
  - now exists w1.
  - cbn [filter_m].
    assert (Hrest : forall q, q ∈ fs -> has_image_extension q = true -> decodes_or_fails w q)
      by (intros q Hq; apply Hd; now right).
    destruct (has_image_extension p) eqn:Hext.
    + rewrite (bind_return _ _ _ _ _
                 (is_corrupt_image_run w1 p
                    (decodes_or_fails_same_files w w1 p Hw1 (Hd p ltac:(now left) Hext)))).
      destruct (IH Hrest (opened w1 p) Hw1) as (w2 & Hw2).
      rewrite (bind_return _ _ _ _ _ Hw2). exists w2. cbn [ret].
      rewrite filter_cons, Hext, (undecodable_same_files w w1 p Hw1). cbn [andb].
      destruct (undecodable w p).
      * now rewrite decide_True by reflexivity.
      * now rewrite decide_False by discriminate.
    + rewrite (bind_return _ _ _ _ _ (eq_refl : ret false w1 = (Return false, w1))).
      destruct (IH Hrest w1 Hw1) as (w2 & Hw2).
      rewrite (bind_return _ _ _ _ _ Hw2). exists w2. cbn [ret].
      rewrite filter_cons, Hext. cbn [andb]. now rewrite decide_False by discriminate.
Qed.

End CorruptFacts.

(** C7. The duplicate pass takes every file of the listing, whatever its
    extension: a file that has a lexicographically smaller file of the same
    fingerprint in the listing is reported as a duplicate.  The corruption
    pass reports exactly the files of the listing whose extension, lowered,
    is one of the image extensions and which do not decode.  Neither pass
    looks at the other's result, so one file can be in both: in the sample
    directory [D.JPG] is a duplicate of [C.jpg] and corrupt, and the text
    file [n2.txt] is a duplicate without being looked at by the corruption
    pass. *)
Theorem passes_are_independent `{Hashlib} `{Pil} root w fs w0 :
  CleanupDataset.gather_all_files root w = (Return fs, w0) ->
  hashable w fs ->
  (forall p, p ∈ fs -> CleanupDataset.has_image_extension p = true -> decodes_or_fails w p) ->
  (exists ds cs w1,
      CleanupDataset.scan root w = (Return (ds, cs), w1)
      /\ (forall d e, d ∈ fs -> e ∈ fs -> e <> d -> String.le e d ->
            CleanupDataset.fingerprint w e = CleanupDataset.fingerprint w d ->
            d ∈ ds.*1)
      /\ (forall p, p ∈ cs <->
            p ∈ fs /\ PyStr.lower (OsPath.splitext p).2 ∈ CleanupDataset.IMAGE_EXTENSIONS
            /\ CleanupDataset.undecodable w p = true))
  /\ (@CleanupDataset.scan sha256_hashlib signature_pil "d" Samples.photos).1
     = Return ([("d/B.jpg", "d/A.jpg"); ("d/D.JPG", "d/C.jpg"); ("d/n2.txt", "d/n1.txt")],
               ["d/C.jpg"; "d/D.JPG"]).
Proof.
  intros Hg Hh Hdec. split; [|vm_compute; reflexivity].
  destruct (gather_all_files_listing root w fs w0 Hg) as (Hnd & Hs & Hw0 & _).
  destruct (find_duplicates_pairs w w0 fs Hh Hw0) as (w1 & Hfd & Hw1 & _).
  destruct (find_corrupts_run w fs Hdec w1 ltac:(congruence)) as (w2 & Hfc).
  exists (pair_up (fp_of w) fs ∅),
         (filter (fun p => CleanupDataset.has_image_extension p
                           && CleanupDataset.undecodable w p = true) fs), w2.
  split; [|split].
  - unfold CleanupDataset.scan.
    rewrite (bind_return _ _ _ _ _ Hg), (bind_return _ _ _ _ _ Hfd),
      (bind_return _ _ _ _ _ Hfc). reflexivity.
  - intros d e [i Hi]%list_elem_of_lookup [k Hk]%list_elem_of_lookup Hne Hle Hfp.
    assert (Hki : (k < i)%nat).
    { destruct (Nat.lt_trichotomy k i) as [Hlt|[->|Hgt]]; [assumption|congruence|].
      destruct Hne. apply (anti_symm String.le); [assumption|].
      eapply StronglySorted_lookup_le; eauto. }
    assert (Hfound : is_Some (list_find (fun c => fp_of w c = fp_of w d) (take i fs))).
    { apply (list_find_elem_of _ _ e).
      - apply (list_elem_of_lookup_2 _ k). rewrite lookup_take_lt by lia. exact Hk.
      - apply (fp_of_eq w fs e d Hh); [..|assumption]; eapply list_elem_of_lookup_2; eauto. }
    destruct Hfound as [[j c] Hjc].
    apply list_elem_of_fmap. exists (d, c). split; [reflexivity|].
    apply elem_of_pair_up. exists i. split; [assumption|].
    now rewrite remembered_first, lookup_empty, Hjc.
  - intros p. rewrite list_elem_of_filter. unfold CleanupDataset.has_image_extension.
    rewrite andb_true_iff, bool_decide_eq_true. tauto.
Qed.

Lemma passes_are_independent_witness :
  exists ds cs w1,
    CleanupDataset.scan "d" Samples.photos = (Return (ds, cs), w1)
    /\ (forall d e,
          d ∈ ["d/A.jpg"; "d/B.jpg"; "d/C.jpg"; "d/D.JPG"; "d/n1.txt"; "d/n2.txt"] ->
          e ∈ ["d/A.jpg"; "d/B.jpg"; "d/C.jpg"; "d/D.JPG"; "d/n1.txt"; "d/n2.txt"] ->
          e <> d -> String.le e d ->
          CleanupDataset.fingerprint Samples.photos e
          = CleanupDataset.fingerprint Samples.photos d ->
          d ∈ ds.*1)
    /\ (forall p, p ∈ cs <->
          p ∈ ["d/A.jpg"; "d/B.jpg"; "d/C.jpg"; "d/D.JPG"; "d/n1.txt"; "d/n2.txt"]
          /\ PyStr.lower (OsPath.splitext p).2 ∈ CleanupDataset.IMAGE_EXTENSIONS
          /\ CleanupDataset.undecodable Samples.photos p = true).
Proof.
  refine (proj1 (@passes_are_independent sha256_hashlib signature_pil "d" Samples.photos
                   ["d/A.jpg"; "d/B.jpg"; "d/C.jpg"; "d/D.JPG"; "d/n1.txt"; "d/n2.txt"]
                   (CleanupDataset.gather_all_files "d" Samples.photos).2 _ _ _)).
  - vm_compute. reflexivity.
  - intros p Hp. each_listed Hp ltac:(vm_compute; eauto).
  - intros p Hp _ f what Hf _.
    each_listed Hp ltac:(vm_compute in Hf; injection Hf as <-; vm_compute; discriminate).
Defined.

(** ** [cleanup_dataset.py]: zero-byte files and unreadable files *)

(** C10. Hashing a zero-byte file returns the SHA-256 digest of the empty
    byte string (with SHA-256 itself: e3b0c442...b855), so the zero-byte files
    of a listing share one fingerprint; when no other content of the listing
    has that digest, every zero-byte file but the lexicographically first is
    reported as a duplicate of that first one, whatever the extensions. *)
Theorem zero_byte_files_are_duplicates `{Hashlib} root w fs w0 z0 :
  CleanupDataset.gather_all_files root w = (Return fs, w0) ->
  hashable w fs ->
  (forall p f, p ∈ fs -> Os.files w !! p = Some f ->
               sha256_hex (Os.data f) = sha256_hex [] -> Os.data f = []) ->
  z0 ∈ fs -> CleanupDataset.zero_byte w z0 ->
  (forall z, z ∈ fs -> CleanupDataset.zero_byte w z -> String.le z0 z) ->
  (forall z, z ∈ fs -> CleanupDataset.zero_byte w z ->
             (CleanupDataset.compute_hash z w).1 = Return (sha256_hex []))
  /\ (exists ds w1,
        CleanupDataset.find_duplicates fs w0 = (Return ds, w1)
        /\ forall z, z ∈ fs -> CleanupDataset.zero_byte w z -> z <> z0 -> (z, z0) ∈ ds)
  /\ @sha256_hex sha256_hashlib []
     = "e3b0c44298fc1c149afbf4c8996fb92427ae41e4649b934ca495991b7852b855".
Proof.
  intros Hg Hh Hfree Hz0 Hzero0 Hfirst.
  assert (Hfp : forall z, z ∈ fs -> CleanupDataset.zero_byte w z ->
                          CleanupDataset.fingerprint w z = Some (sha256_hex [])).
  { intros z Hz (f & Hf & Hdata). destruct (Hh z Hz) as [h Hfpz]. rewrite Hfpz.
    unfold CleanupDataset.fingerprint in Hfpz. rewrite Hf in Hfpz.
    destruct (Os.readable f && negb (Os.faulty f)); [|discriminate].
    rewrite Hdata in Hfpz. congruence. }
  split; [|split; [|vm_compute; reflexivity]].
  - intros z Hz Hzero. now rewrite (compute_hash_fingerprint w z _ (Hfp z Hz Hzero)).
  - destruct (gather_all_files_listing root w fs w0 Hg) as (Hnd & Hs & Hw0 & _).
    destruct (find_duplicates_pairs w w0 fs Hh Hw0) as (w1 & Hfd & _).
    exists (pair_up (fp_of w) fs ∅), w1. split; [exact Hfd|].
    intros z Hz Hzero Hne. apply (pair_up_least _ fs z z0 Hnd Hs).
    split; [assumption|]. split; [assumption|]. split; [congruence|].
    split.
    + apply (fp_of_eq w fs z0 z Hh Hz0 Hz). now rewrite !Hfp.
    + intros c Hc Hfpc. apply Hfirst; [assumption|].
      apply (fp_of_eq w fs c z Hh Hc Hz) in Hfpc. rewrite (Hfp z Hz Hzero) in Hfpc.
      unfold CleanupDataset.fingerprint in Hfpc.
      destruct (Os.files w !! c) as [f|] eqn:Hf; [|discriminate].
      destruct (Os.readable f && negb (Os.faulty f)); [|discriminate].
      exists f. split; [exact Hf|]. apply (Hfree c f Hc Hf). congruence.
Qed.

Lemma zero_byte_files_are_duplicates_witness :
  (forall z, z ∈ ["d/a.jpg"; "d/e1.txt"; "d/e2.jpg"; "d/e3"] ->
             CleanupDataset.zero_byte Samples.with_empty z ->
             (CleanupDataset.compute_hash z Samples.with_empty).1 = Return (sha256_hex []))
  /\ (exists ds w1,
        CleanupDataset.find_duplicates ["d/a.jpg"; "d/e1.txt"; "d/e2.jpg"; "d/e3"]
          (CleanupDataset.gather_all_files "d" Samples.with_empty).2 = (Return ds, w1)
        /\ forall z, z ∈ ["d/a.jpg"; "d/e1.txt"; "d/e2.jpg"; "d/e3"] ->
                     CleanupDataset.zero_byte Samples.with_empty z ->
                     z <> "d/e1.txt" -> (z, "d/e1.txt") ∈ ds)
  /\ @sha256_hex sha256_hashlib []
     = "e3b0c44298fc1c149afbf4c8996fb92427ae41e4649b934ca495991b7852b855".
Proof.
  apply (@zero_byte_files_are_duplicates sha256_hashlib "d" Samples.with_empty
           ["d/a.jpg"; "d/e1.txt"; "d/e2.jpg"; "d/e3"]
           (CleanupDataset.gather_all_files "d" Samples.with_empty).2 "d/e1.txt").
  - vm_compute. reflexivity.
  - intros p Hp. each_listed Hp ltac:(vm_compute; eauto).
  - intros p f Hp Hf.
    each_listed Hp ltac:(vm_compute in Hf; injection Hf as <-; vm_compute;
                         first [discriminate | reflexivity]).
  - set_solver.
  - exists (Samples.plain []). split; vm_compute; reflexivity.
  - intros z Hz (f & Hf & Hdata).
    each_listed Hz ltac:(first [ vm_compute in Hf; injection Hf as <-; discriminate Hdata
                               | vm_compute; exact I ]).
Defined.

(** C2, on the code: in the sample directory [b.jpg] cannot be opened.  The
    duplicate pass raises on it, and so does the whole run, live or dry: it
    prints nothing, never opens [c.jpg] (a copy of [a.jpg]) and never reaches
    the corruption pass, although [is_corrupt_image] would have answered for
    the unreadable file.  A file that opens and then fails to read ends the
    run the same way. *)
Lemma unreadable_file_aborts_scan :
  (CleanupDataset.find_duplicates ["d/a.jpg"; "d/b.jpg"; "d/c.jpg"] Samples.photos_locked).1
  = Raise (OSError PermissionDenied "d/b.jpg")
  /\ (forall dry,
        let run := CleanupDataset.main (CleanupDataset.Args "d" dry) Samples.photos_locked in
        run.1 = Raise (OSError PermissionDenied "d/b.jpg")
        /\ Os.stdout run.2 = []
        /\ ~ (Os.EvOpen "d/c.jpg" ∈ Os.trace run.2)
        /\ Os.files run.2 = Os.files Samples.photos_locked)
  /\ (CleanupDataset.is_corrupt_image "d/b.jpg" Samples.photos_locked).1 = Return true
  /\ (forall dry,
        (CleanupDataset.main (CleanupDataset.Args "d" dry) Samples.photos_faulty).1
        = Raise (OSError InputOutput "d/b.jpg")).
Proof.
  split; [vm_compute; reflexivity|].
  split; [|split; [vm_compute; reflexivity | intros []; vm_compute; reflexivity]].
  intros dry. cbv zeta. destruct dry.
  - split; [vm_compute; reflexivity|]. split; [vm_compute; reflexivity|].
    split; [|vm_compute; reflexivity].
    vm_compute. intros Hin. repeat (apply elem_of_cons in Hin as [Hin|Hin]; [discriminate|]).
    now apply elem_of_nil in Hin.
  - split; [vm_compute; reflexivity|]. split; [vm_compute; reflexivity|].
    split; [|vm_compute; reflexivity].
    vm_compute. intros Hin. repeat (apply elem_of_cons in Hin as [Hin|Hin]; [discriminate|]).
    now apply elem_of_nil in Hin.
Qed.

(** ** [batch_rename_images.py]: collision resolution *)

Section ResolveFacts.
Import BatchRename Os.

(** Different indices give different candidates. *)
Lemma candidate_inj target : Inj (=) (=) (candidate target).
Proof.
  intros k1 k2. unfold candidate. destruct (OsPath.splitext target) as [base ext].
  intros Heq. apply String.app_inj in Heq. apply String.app_inj in Heq.
  apply string_app_inv_tail in Heq. unfold PyStr.str in Heq.
  now apply (inj pretty) in Heq.
Qed.

Lemma path_exists_occupied w p :
  path_exists w p = true <-> p ∈ dom (files w) ∪ dirs w.
Proof.
  unfold path_exists, is_file, is_dir.
  rewrite orb_true_iff, !bool_decide_eq_true, elem_of_union, elem_of_dom. tauto.
Qed.

(** Not all of more candidates than there are paths can exist. *)
Lemma some_candidate_free target w :
  exists m, 1 <= m <= Z.of_nat (S (occupied w)) /\ path_exists w (candidate target m) = false.
Proof.
  set (n := S (occupied w)).
  destruct (list_find (fun k => path_exists w (candidate target k) = false)
              (seqZ 1 (Z.of_nat n))) as [[i m]|] eqn:Hfind.
  - apply list_find_Some in Hfind as (Hm & Hfree & _).
    apply lookup_seqZ in Hm. exists m. split; [lia | assumption].
  - exfalso. rewrite list_find_None, Forall_forall in Hfind.
    set (cands := candidate target <$> seqZ 1 (Z.of_nat n)).
    assert (Hnd : NoDup cands).
    { apply NoDup_fmap_2; [apply candidate_inj | apply NoDup_seqZ]. }
    assert (Hsub : (list_to_set cands : gset string) ⊆ dom (files w) ∪ dirs w).
    { intros p Hp. apply elem_of_list_to_set, list_elem_of_fmap in Hp as (k & -> & Hk).
      apply path_exists_occupied. specialize (Hfind k Hk).
      now destruct (path_exists w (candidate target k)). }
    apply subseteq_size in Hsub. rewrite size_list_to_set in Hsub by assumption.
    unfold cands in Hsub. rewrite length_fmap, length_seqZ in Hsub.
    unfold n, occupied in *. lia.
Qed.

(** The least index from 1 whose candidate is free, within the bound. *)
Lemma least_free_candidate target w :
  exists n, 1 <= n <= Z.of_nat (S (occupied w))
            /\ path_exists w (candidate target n) = false
            /\ forall k, 1 <= k < n -> path_exists w (candidate target k) = true.
Proof.
  destruct (some_candidate_free target w) as (m & Hm & Hfree).
  destruct (list_find_elem_of (fun k => path_exists w (candidate target k) = false)
              (seqZ 1 (Z.of_nat (S (occupied w)))) m) as [[i n] Hfind].
  { apply elem_of_seqZ. lia. }
  { assumption. }
  apply list_find_Some in Hfind as (Hn & Hnfree & Hbefore).
  apply lookup_seqZ in Hn as [-> Hi]. exists (1 + Z.of_nat i).
  split; [lia|]. split; [assumption|].
  intros k Hk. specialize (Hbefore (Z.to_nat (k - 1)) k).
  destruct (path_exists w (candidate target k)); [reflexivity|].
  destruct Hbefore; [apply lookup_seqZ; lia | lia | reflexivity].
Qed.

Lemma exists_run p w :
  exists_ p w = (Return (path_exists w p),
                 World (files w) (dirs w) (stdout w) (trace w ++ [EvStat p])).
Proof. reflexivity. Qed.

(** The loop returns the first free candidate at or after [idx], when there
    is one within its turns, after calls that only look at names. *)
Lemma resolve_from_least target w fuel :
  forall idx n w1,
    files w1 = files w -> dirs w1 = dirs w ->
    idx <= n < idx + Z.of_nat fuel ->
    path_exists w (candidate target n) = false ->
    (forall k, idx <= k < n -> path_exists w (candidate target k) = true) ->
    exists w2, resolve_from fuel target idx w1 = (Return (Some (candidate target n)), w2)
               /\ only_events is_lookup w1 w2.
Proof.
  induction fuel as [|fuel IH]; intros idx n w1 Hf Hd Hn Hfree Hbefore; [lia|].
  cbn [resolve_from]. rewrite (bind_return _ _ _ _ _ (exists_run _ w1)).
  set (w1' := World (files w1) (dirs w1) (stdout w1) (trace w1 ++ [EvStat (candidate target idx)])).
  assert (Hstep : only_events is_lookup w1 w1').
  { repeat split. exists [EvStat (candidate target idx)]. split; [reflexivity|].
    now repeat constructor. }
  assert (Hsame : forall p, path_exists w1 p = path_exists w p).
  { intros p. unfold path_exists, is_file, is_dir. now rewrite Hf, Hd. }
  rewrite Hsame. destruct (Z.eq_dec idx n) as [->|Hne].
  - rewrite Hfree. cbn [negb ret]. now exists w1'.
  - rewrite Hbefore by lia. cbn [negb].
    destruct (IH (idx + 1) n w1') as (w2 & Hw2 & Hk); try assumption; try lia.
    { intros k Hk. apply Hbefore. lia. }
    exists w2. split; [exact Hw2|]. eapply only_events_trans; eassumption.
Qed.

End ResolveFacts.

(** C8. Collision resolution returns the target's stem, [_n] and the
    target's extension for the least [n] from 1 whose path does not exist; it
    always returns, after calls that only look at names; the result depends
    on the target and on which paths exist only; and with [img_001_1.jpg] and
    [img_001_2.jpg] present, [img_001.jpg] resolves to [img_001_3.jpg]. *)
Theorem collision_resolution (target : string) (w : Os.world) :
  (exists n w',
      1 <= n
      /\ BatchRename.resolve_collision target w
         = (Return (Some ((OsPath.splitext target).1 +:+ "_" +:+ PyStr.str n
                          +:+ (OsPath.splitext target).2)), w')
      /\ Os.path_exists w (BatchRename.candidate target n) = false
      /\ (forall k, 1 <= k < n -> Os.path_exists w (BatchRename.candidate target k) = true)
      /\ only_events is_lookup w w')
  /\ (forall w2, (forall p, Os.path_exists w2 p = Os.path_exists w p) ->
                 (BatchRename.resolve_collision target w2).1
                 = (BatchRename.resolve_collision target w).1)
  /\ (BatchRename.resolve_collision "img_001.jpg" Samples.renamed).1
     = Return (Some "img_001_3.jpg").
Proof.
  assert (Hrun : forall v, exists n v',
             1 <= n
             /\ BatchRename.resolve_collision target v
                = (Return (Some (BatchRename.candidate target n)), v')
             /\ Os.path_exists v (BatchRename.candidate target n) = false
             /\ (forall k, 1 <= k < n ->
                   Os.path_exists v (BatchRename.candidate target k) = true)
             /\ only_events is_lookup v v').
  { intros v. destruct (least_free_candidate target v) as (n & Hn & Hfree & Hbefore).
    destruct (resolve_from_least target v (S (BatchRename.occupied v)) 1 n v)
      as (v' & Hv' & Hk); try reflexivity; try assumption; [lia|].
    exists n, v'. split; [lia|]. split; [exact Hv'|]. split; [assumption|].
    split; assumption. }
  split; [|split; [|vm_compute; reflexivity]].
  - destruct (Hrun w) as (n & w' & Hn & Hres & Hfree & Hbefore & Hk).
    exists n, w'. split; [assumption|]. split; [|split; [assumption|split; assumption]].
    rewrite Hres. unfold BatchRename.candidate.
    now destruct (OsPath.splitext target).
  - intros w2 Hsame.
    destruct (Hrun w) as (n & w' & Hn & -> & Hfree & Hbefore & _).
    destruct (Hrun w2) as (n2 & w2' & Hn2 & -> & Hfree2 & Hbefore2 & _).
    cbn [fst]. do 2 f_equal. f_equal.
    destruct (Z.lt_trichotomy n2 n) as [Hlt|[->|Hgt]]; [|reflexivity|].
    + rewrite Hsame, Hbefore in Hfree2 by lia. discriminate.
    + rewrite <- Hsame, Hbefore2 in Hfree by lia. discriminate.
Qed.

Lemma collision_resolution_witness :
  (BatchRename.resolve_collision "img_001.jpg" Samples.renamed_other).1
  = (BatchRename.resolve_collision "img_001.jpg" Samples.renamed).1.
Proof.
  apply (proj1 (proj2 (collision_resolution "img_001.jpg" Samples.renamed))).
  intros p. unfold Os.path_exists, Os.is_file, Os.is_dir.
  assert (Hdom : dom (Os.files Samples.renamed_other) = dom (Os.files Samples.renamed))
    by (vm_compute; reflexivity).
  assert (Hfile : forall m : gmap string Os.file,
             bool_decide (is_Some (m !! p)) = bool_decide (p ∈ dom m)).
  { intros m. apply bool_decide_ext. now rewrite elem_of_dom. }
  rewrite !Hfile, Hdom. reflexivity.
Defined.

(** * Further properties of the code *)

(** * Further properties of the code *)

(** ** [split_dataset.py]: what validation and the block sizes guarantee *)

Section RatioFacts.
Import SplitDataset.

(** A float that is a number: neither NaN nor an infinity. *)
Definition is_finite (x : PyFloat.float) : bool :=
  match x with
  | S754_zero _ | S754_finite _ _ _ => true
  | _ => false
  end.

(** The sign bit of a float ([false] for NaN). *)
Definition sign_bit (x : PyFloat.float) : bool :=
  match x with
  | S754_zero s | S754_finite s _ _ | S754_infinity s => s
  | S754_nan => false
  end.

Lemma add_finite x y :
  is_finite (PyFloat.add x y) = true -> is_finite x = true /\ is_finite y = true.
Proof.
  destruct x as [sx|sx| |sx mx ex], y as [sy|sy| |sy my ey];
    try (intros _; split; reflexivity); cbn; try discriminate.
  destruct sx, sy; cbn; discriminate.
Qed.

Lemma sub_finite_l x y : is_finite (PyFloat.sub x y) = true -> is_finite x = true.
Proof.
  destruct x as [sx|sx| |sx mx ex]; try reflexivity;
    destruct y as [sy|sy| |sy my ey]; cbn; try discriminate.
  destruct sx, sy; cbn; discriminate.
Qed.

Lemma below_epsilon_finite x :
  PyFloat.ltb (PyFloat.abs x) PyFloat.epsilon = true -> is_finite x = true.
Proof. destruct x as [sx|sx| |sx mx ex]; try reflexivity; vm_compute; discriminate. Qed.

(** The product of two floats carries the exclusive or of their signs. *)
Lemma binary_round_aux_sign sx mx ex lx :
  match binary_round_aux PyFloat.prec PyFloat.emax sx mx ex lx with
  | S754_zero s | S754_finite s _ _ | S754_infinity s => s = sx
  | S754_nan => True
  end.
Proof.
  unfold binary_round_aux.
  destruct (shr_fexp _ _ mx ex lx) as [mrs' e'].
  destruct (shr_fexp _ _ _ e' loc_Exact) as [mrs'' e''].
  destruct (shr_m mrs''); [reflexivity | | exact I].
  destruct (Z.leb _ _); reflexivity.
Qed.

Lemma of_Z_nonneg_sign n :
  0 <= n ->
  match PyFloat.of_Z n with
  | S754_zero s | S754_finite s _ _ | S754_infinity s => s = false
  | S754_nan => True
  end.
Proof.
  intros Hn. unfold PyFloat.of_Z, binary_normalize. destruct n as [|p|p]; [reflexivity| |lia].
  unfold binary_round. destruct (shl_align _ _ _) as [mz ez].
  apply binary_round_aux_sign.
Qed.

Lemma to_int_sign s m e k :
  PyFloat.to_int (S754_finite s m e) = Return k ->
  (s = false -> 0 <= k) /\ (s = true -> k <= 0).
Proof.
  cbn. intros [= <-].
  assert (0 <= Z.shiftl (Z.pos m) e) by (apply Z.shiftl_nonneg; lia).
  split; intros ->; cbn; lia.
Qed.

End RatioFacts.

(** X1. Validation accepts finite ratios only: a triple that holds a NaN or
    an infinity, as [float] parses from [nan] and [inf], is rejected. *)
Theorem accepted_ratios_are_finite train val test :
  SplitDataset.ratios_accepted train val test = true ->
  is_finite train = true /\ is_finite val = true /\ is_finite test = true.
Proof.
  unfold SplitDataset.ratios_accepted, SplitDataset.ratio_total.
  intros Hacc%below_epsilon_finite%sub_finite_l%add_finite.
  destruct Hacc as [Htv Hte]. apply add_finite in Htv. tauto.
Qed.

Lemma accepted_ratios_are_finite_witness :
  is_finite SplitDataset.r0_7 = true /\ is_finite SplitDataset.r0_2 = true
  /\ is_finite SplitDataset.r0_1 = true.
Proof.
  apply (accepted_ratios_are_finite SplitDataset.r0_7 SplitDataset.r0_2 SplitDataset.r0_1).
  vm_compute. reflexivity.
Defined.

(** X2. The size computed for a block has the sign of its ratio: for a list
    length [n >= 0], [int(n * r)] is not negative when the sign bit of [r]
    is clear and not positive when it is set.  So only a negative ratio can
    make [split_indices] produce negative indices. *)
Theorem block_count_sign n r k :
  0 <= n ->
  SplitDataset.block_count n r = Return k ->
  (sign_bit r = false -> 0 <= k) /\ (sign_bit r = true -> k <= 0).
Proof.
  intros Hn. unfold SplitDataset.block_count, PyFloat.int_mul, PyFloat.of_int.
  pose proof (of_Z_nonneg_sign n Hn) as Hy.
  destruct (PyFloat.of_Z n) as [sy|sy| |sy my ey]; cbn; try discriminate.
  - subst sy. destruct r as [sr|sr| |sr mr er]; cbn; try discriminate;
      intros [= <-]; lia.
  - subst sy. destruct r as [sr|sr| |sr mr er]; cbn; try discriminate.
    + intros [= <-]; lia.
    + pose proof (binary_round_aux_sign sr (Z.pos (my * mr)) (ey + er) loc_Exact) as Hs.
      unfold PyFloat.mul, SFmul. cbn [xorb].
      destruct (binary_round_aux _ _ sr _ _ _) as [s|s| |s m e]; cbn; try discriminate.
      * intros [= <-]; lia.
      * subst s. intros Hk. now apply (to_int_sign sr m e k).
Qed.

Lemma block_count_sign_witness :
  (sign_bit SplitDataset.r0_7 = false -> 0 <= 7)
  /\ (sign_bit SplitDataset.r0_7 = true -> 7 <= 0).
Proof.
  apply (block_count_sign 10 SplitDataset.r0_7 7); [lia|].
  vm_compute. reflexivity.
Defined.

(** ** Exact runs of the calls that only look *)

Section LookupRuns.
Import PyStr OsPath Os.

(** The world after the calls [evs] were made and nothing else happened. *)
Definition logged (w : world) (evs : list event) : world :=
  World (files w) (dirs w) (stdout w) (trace w ++ evs).

Lemma logged_nil w : logged w [] = w.
Proof. destruct w. unfold logged. cbn. now rewrite app_nil_r. Qed.

Lemma logged_logged w e1 e2 : logged (logged w e1) e2 = logged w (e1 ++ e2).
Proof. unfold logged. cbn. now rewrite app_assoc. Qed.

Lemma is_file_logged w evs p : is_file (logged w evs) p = is_file w p.
Proof. reflexivity. Qed.

Lemma isfile_run p w : isfile p w = (Return (is_file w p), logged w [EvStat p]).
Proof. reflexivity. Qed.

(** A comprehension filtered by [os.path.isfile] keeps the regular files and
    makes one [stat] call per name. *)
Lemma filter_isfile_run (path_of : string -> string) names w :
  filter_m (fun f => isfile (path_of f)) names w
  = (Return (filter (fun f => is_file w (path_of f) = true) names),
     logged w (map (fun f => EvStat (path_of f)) names)).
Proof.
  revert w. induction names as [|f names IH]; intros w.
  - cbn. now rewrite logged_nil.
  - cbn [filter_m map]. rewrite (bind_return _ _ _ _ _ (isfile_run (path_of f) w)).
    rewrite (bind_return _ _ _ _ _ (IH (logged w [EvStat (path_of f)]))).
    cbn [ret]. rewrite logged_logged. cbn [app]. f_equal. f_equal.
    rewrite filter_cons.
    assert (Hsame : filter (fun f0 => is_file (logged w [EvStat (path_of f)]) (path_of f0) = true) names
                    = filter (fun f0 => is_file w (path_of f0) = true) names) by reflexivity.
    rewrite Hsame. destruct (is_file w (path_of f)).
    + now rewrite decide_True by reflexivity.
    + now rewrite decide_False by discriminate.
Qed.

Lemma listdir_run d w :
  listdir d w
  = (if is_dir w d then Return (entries w d)
     else if is_file w d then Raise (OSError NotADirectory d)
     else Raise (OSError NotFound d),
     logged w [EvListdir d]).
Proof.
  unfold listdir, bind, log, modify, get, ret, raise, lift. cbn.
  change (is_dir _ d) with (is_dir w d). change (is_file _ d) with (is_file w d).
  destruct (is_dir w d); [reflexivity|]. destruct (is_file w d); reflexivity.
Qed.

Lemma prefix_app pre rest : String.prefix pre (pre +:+ rest) = true.
Proof.
  unfold String.app. induction pre as [|a pre IH]; cbn; [now destruct rest|].
  destruct (ascii_dec a a); [exact IH | congruence].
Qed.

Lemma substring_app_tail pre rest :
  substring (String.length pre) (String.length (pre +:+ rest) - String.length pre)
    (pre +:+ rest) = rest.
Proof.
  rewrite string_app_length.
  replace (String.length pre + String.length rest - String.length pre)%nat
    with (String.length rest) by lia.
  unfold String.app. induction pre as [|a pre IH]; cbn; [apply substring_all | exact IH].
Qed.

(** The entries of a directory are the names, without separator, of the
    paths directly below it. *)
Lemma elem_of_entries w d name :
  name ∈ entries w d <->
  name <> "" /\ rfind name sep < 0 /\ path_exists w (dir_prefix d +:+ name) = true.
Proof.
  unfold entries. rewrite list_elem_of_omap. split.
  - intros (p & Hp & Hname). pose proof Hname as Hname'.
    apply entry_name_path in Hname' as (-> & Hsep & _).
    split; [|split; [exact Hsep|]].
    + unfold entry_name in Hname. rewrite prefix_app, substring_app_tail in Hname.
      destruct (String.eqb_spec name ""); [discriminate | assumption].
    + apply path_exists_occupied. now apply elem_of_elements in Hp.
  - intros (Hne & Hsep & Hex). exists (dir_prefix d +:+ name). split.
    + apply elem_of_elements. now apply path_exists_occupied.
    + unfold entry_name. rewrite prefix_app, substring_app_tail.
      destruct (String.eqb_spec name ""); [contradiction|].
      destruct (Z.ltb_spec (rfind name sep) 0); [reflexivity | lia].
Qed.

End LookupRuns.

(** ** [split_dataset.py]: the listing, exactly *)

Section GatherRuns.
Import PyStr OsPath Os SplitDataset.

Lemma gather_files_run src w :
  gather_files src w
  = (if is_dir w src
     then Return (sorted (filter (fun f => is_file w (join src f) = true) (entries w src)))
     else if is_file w src then Raise (OSError NotADirectory src)
     else Raise (OSError NotFound src),
     logged w (EvListdir src
               :: if is_dir w src
                  then map (fun f => EvStat (join src f)) (entries w src) else [])).
Proof.
  unfold gather_files. destruct (is_dir w src) eqn:Hd.
  - rewrite (bind_return _ _ _ _ _ (eq_trans (listdir_run src w) ltac:(now rewrite Hd))).
    rewrite (bind_return _ _ _ _ _ (filter_isfile_run (join src) _ _)).
    cbn [ret]. now rewrite logged_logged.
  - pose proof (listdir_run src w) as Hl. rewrite Hd in Hl.
    destruct (is_file w src);
      rewrite (bind_raise _ _ _ _ _ Hl); reflexivity.
Qed.

End GatherRuns.



(** ** [split_dataset.py]: preview and placement *)

Section PlacementFacts.
Context `{Random}.
Import PyStr OsPath Os SplitDataset.

(** The line [main] prints for a subset. *)
Definition count_line (kv : string * list string) : string :=
  "  " +:+ kv.1 +:+ ": " +:+ str (len kv.2) +:+ " files".

(** The world after [lines] were printed and nothing else happened. *)
Definition printed (w : world) (lines : list string) : world :=
  World (files w) (dirs w) (stdout w ++ lines) (trace w).

Lemma for_each_print {A} (l : list A) (line_of : A -> string) w :
  for_each l (fun x => print (line_of x)) w = (Return tt, printed w (map line_of l)).
Proof.
  revert w. induction l as [|x l IH]; intros w.
  - cbn. unfold printed. rewrite app_nil_r. now destruct w.
  - cbn [for_each map]. rewrite (bind_run _ _ _ tt) by reflexivity.
    rewrite IH. unfold printed. cbn. now rewrite <- app_assoc.
Qed.

(** The world [assign] leaves: that of the start, with the calls of the
    listing added. *)
Lemma assign_world (a : args) w g :
  exists evs, (assign a (w, g)).2.1 = logged w evs /\ Forall is_lookup evs.
Proof.
  rewrite assign_unfold.
  destruct (validate_ratios _ _ _) as [[]|e|x];
    try (exists []; split; [symmetry; apply logged_nil | constructor]).
  pose proof (gather_files_run (src_dir a) w) as Hg.
  assert (Hev : Forall is_lookup
                  (EvListdir (src_dir a)
                   :: (if is_dir w (src_dir a)
                       then map (fun f => EvStat (join (src_dir a) f)) (entries w (src_dir a))
                       else []))).
  { constructor; [exact I|]. destruct (is_dir w (src_dir a)); [|constructor].
    apply Forall_forall. intros e (f & -> & _)%list_elem_of_fmap. exact I. }
  destruct (gather_files (src_dir a) w) as [r w'] eqn:Hrun.
  injection Hg as Hr Hw'. eexists. split; [|exact Hev].
  destruct r as [[|f fs]|e|x]; cbn [fst snd]; try exact Hw'.
  destruct (PyRandom.shuffle (f :: fs) (seed_state (seed_arg a))) as [[fs'|e|x] g'];
    exact Hw'.
Qed.

Lemma for_each_ext {St A} (l : list A) (body1 body2 : A -> M St unit) s :
  (forall x, body1 x = body2 x) -> for_each l body1 s = for_each l body2 s.
Proof.
  intros Hb. revert s. induction l as [|x l IH]; intros s; [reflexivity|].
  cbn. rewrite Hb. unfold bind. destruct (body2 x s) as [[[]|e|y] s1]; auto.
Qed.

(** The preview lines of [main], whatever the mode. *)
Lemma print_counts_run (s : subsets_t) w :
  for_each s (fun '(name, lst) =>
    print ("  " +:+ name +:+ ": " +:+ str (len lst) +:+ " files")) w
  = (Return tt, printed w (map count_line s)).
Proof.
  rewrite <- for_each_print. apply for_each_ext. intros [name lst]. reflexivity.
Qed.

(** [main] from the [subsets] dictionary on, in preview mode. *)
Lemma main_preview (a : args) st s st' :
  preview a = true -> assign a st = (Return s, st') ->
  main a st
  = (SysExit (ExitStatus 0),
     (printed st'.1 ("Preview of split counts:" :: map count_line s), st'.2)).
Proof.
  intros Hp Ha. unfold main. rewrite (bind_return _ _ _ _ _ Ha), Hp.
  destruct st' as [w' g']. unfold bind, in_world, sys_exit, lift. cbn [fst snd print modify].
  rewrite print_counts_run. unfold printed. cbn. now rewrite <- app_assoc.
Qed.

End PlacementFacts.

(** X4. A preview run only looks: whatever the arguments and the directory,
    with [--preview] the calls made are [listdir] and [stat] calls and files
    and directories stay as they were; and once the subsets are assigned the
    run prints the heading and one count line per subset and exits with
    status 0. *)
Theorem preview_only_looks `{Random} (a : SplitDataset.args) w g :
  SplitDataset.preview a = true ->
  only_events is_lookup w (SplitDataset.main a (w, g)).2.1
  /\ forall s st, SplitDataset.assign a (w, g) = (Return s, st) ->
       SplitDataset.main a (w, g)
       = (SysExit (ExitStatus 0),
          (printed st.1 ("Preview of split counts:" :: map count_line s), st.2))
       /\ Os.stdout st.1 = Os.stdout w.
Proof.
  intros Hp. destruct (assign_world a w g) as (evs & Hw & Hev).
  assert (Hlook : only_events is_lookup w (logged w evs)).
  { repeat split. now exists evs. }
  split.
  - destruct (SplitDataset.assign a (w, g)) as [[s|e|x] st] eqn:Ha.
    + rewrite (main_preview a (w, g) s st Hp Ha). cbn [fst snd] in *. rewrite Hw.
      repeat split. now exists evs.
    + unfold SplitDataset.main. rewrite (bind_raise _ _ _ _ _ Ha). cbn [fst snd] in *.
      now rewrite Hw.
    + unfold SplitDataset.main. rewrite (bind_exit _ _ _ _ _ Ha). cbn [fst snd] in *.
      now rewrite Hw.
  - intros s st Ha. split; [now apply main_preview|].
    rewrite Ha in Hw. cbn [fst snd] in Hw. now rewrite Hw.
Qed.

Lemma preview_only_looks_witness :
  let a := SplitDataset.Args "s" "out" SplitDataset.r0_7 SplitDataset.r0_2
             SplitDataset.r0_1 42 false true in
  only_events is_lookup Samples.ten_files (SplitDataset.main a (Samples.ten_files, 0)).2.1.
Proof.
  cbv zeta.
  apply (proj1 (@preview_only_looks lcg_random
                  (SplitDataset.Args "s" "out" SplitDataset.r0_7 SplitDataset.r0_2
                     SplitDataset.r0_1 42 false true)
                  Samples.ten_files 0 eq_refl)).
Defined.

Section PlacementLoop.
Import PyStr OsPath Os SplitDataset.

(** The files counted so far, whatever became of them. *)
Definition total (t : tally) : Z := moved t + copied t + errs t.

(** Copying or moving one file returns or raises; it never exits. *)
Lemma dispatch_file_no_exit src dst m w :
  (exists t, (dispatch_file src dst m w).1 = Return t)
  \/ (exists e, (dispatch_file src dst m w).1 = Raise e).
Proof.
  unfold dispatch_file, move, copy2, bind, log, modify, get, set_files, raise, lift, ret.
  destruct m; cbn.
  - destruct (files w !! src) as [f|]; [|right; eauto].
    destruct (is_dir _ dst && path_exists _ _); [right | left]; eauto.
  - destruct (files w !! src) as [f|].
    + destruct (readable f); cbn; [|right; eauto].
      destruct (faulty f); [right | left]; eauto.
    + destruct (is_dir _ src); right; eauto.
Qed.

Lemma place_one_returns a name f t w :
  exists t', (place_one a name f t w).1 = Return t'
             /\ total t' = total t + 1
             /\ (move_flag a = false -> moved t' = moved t)
             /\ (move_flag a = true -> copied t' = copied t)
             /\ errs t <= errs t'.
Proof.
  unfold place_one, try_except, bind at 1.
  destruct (dispatch_file_no_exit (join (src_dir a) f)
              (join (join (dest_dir a) name) f) (move_flag a) w) as [[p Hp]|[e He]];
    destruct (dispatch_file _ _ _ w) as [r w1]; cbn in Hp || cbn in He; subst r.
  - cbn. eexists. split; [reflexivity|]. unfold total.
    destruct (move_flag a); cbn; repeat split; intros; try discriminate; lia.
  - cbn. eexists. split; [reflexivity|]. unfold total. cbn.
    repeat split; intros; lia.
Qed.

Lemma place_files_returns a name fl t w :
  exists t', (place_files a name fl t w).1 = Return t'
             /\ total t' = total t + len fl
             /\ (move_flag a = false -> moved t' = moved t)
             /\ (move_flag a = true -> copied t' = copied t)
             /\ errs t <= errs t'.
Proof.
  revert t w. induction fl as [|f fl IH]; intros t w.
  - exists t. cbn. unfold len. cbn. repeat split; auto; lia.
  - destruct (place_one_returns a name f t w) as (t1 & H1 & Ht1 & Hm1 & Hc1 & He1).
    cbn [place_files]. rewrite (bind_run _ _ _ _ H1).
    destruct (IH t1 (place_one a name f t w).2) as (t' & H' & Ht' & Hm' & Hc' & He').
    exists t'. split; [exact H'|]. unfold len in *. cbn [length].
    repeat split; intros; try lia.
    + rewrite Hm', Hm1 by assumption. reflexivity.
    + rewrite Hc', Hc1 by assumption. reflexivity.
Qed.

End PlacementLoop.

(** X5. Placement accounts for every file and is never cut short: whatever
    happens to single files, the loop over the subsets returns, and the three
    counters together grow by the number of files in the subsets; in copy
    mode [moved] stays put, in move mode [copied] does, and [errs] never
    decreases. *)
Theorem placement_accounts_for_every_file (a : SplitDataset.args)
    (s : SplitDataset.subsets_t) (t : SplitDataset.tally) (w : Os.world) :
  exists t',
    (SplitDataset.place_subsets a s t w).1 = Return t'
    /\ total t' = total t + len (SplitDataset.members s)
    /\ (SplitDataset.move_flag a = false -> SplitDataset.moved t' = SplitDataset.moved t)
    /\ (SplitDataset.move_flag a = true -> SplitDataset.copied t' = SplitDataset.copied t)
    /\ SplitDataset.errs t <= SplitDataset.errs t'.
Proof.
  revert t w. induction s as [|[name fl] s IH]; intros t w.
  - exists t. cbn. unfold len. cbn. repeat split; auto; lia.
  - destruct (place_files_returns a name fl t w) as (t1 & H1 & Ht1 & Hm1 & Hc1 & He1).
    cbn [SplitDataset.place_subsets]. rewrite (bind_run _ _ _ _ H1).
    destruct (IH t1 (SplitDataset.place_files a name fl t w).2)
      as (t' & H' & Ht' & Hm' & Hc' & He').
    exists t'. split; [exact H'|].
    unfold SplitDataset.members, len in *. cbn [fmap list_fmap snd concat].
    rewrite length_app. repeat split; intros; try lia.
    + rewrite Hm', Hm1 by assumption. reflexivity.
    + rewrite Hc', Hc1 by assumption. reflexivity.
Qed.

(** ** [split_dataset.py]: what copy mode and [make_dirs] leave alone *)

Section CopyFacts.
Context `{Random}.
Import PyStr OsPath Os SplitDataset.

(** Every regular file of [w] is still one in [w']. *)
Definition files_stay (w w' : world) : Prop :=
  forall p, is_file w p = true -> is_file w' p = true.

#[global] Instance files_stay_refl : Reflexive files_stay.
Proof. now intros w p. Qed.
#[global] Instance files_stay_trans : Transitive files_stay.
Proof. intros w1 w2 w3 H1 H2 p Hp. auto. Qed.

Lemma files_stay_same w w' : files w' = files w -> files_stay w w'.
Proof. intros Hf p. unfold is_file. now rewrite Hf. Qed.

Lemma print_files_stay line : preserves files_stay (print line).
Proof. intros w. now apply files_stay_same. Qed.

Lemma makedirs_files_stay p : preserves files_stay (makedirs p).
Proof.
  intros w. apply files_stay_same.
  unfold makedirs, bind, log, modify, get, set_dirs, raise, lift. cbn.
  destruct (is_file _ p); reflexivity.
Qed.

Lemma copy2_files_stay src dst : preserves files_stay (copy2 src dst).
Proof.
  intros w. unfold copy2, bind, log, modify, get, set_files, raise, lift, ret. cbn.
  destruct (files w !! src) as [f|] eqn:Hs.
  - destruct (readable f); cbn; [|now apply files_stay_same].
    destruct (faulty f); cbn; [now apply files_stay_same|].
    intros p. unfold is_file. cbn. rewrite !bool_decide_eq_true.
    intros Hp. rewrite lookup_insert. case_decide; [eauto | assumption].
  - destruct (is_dir _ src); now apply files_stay_same.
Qed.

Lemma place_subsets_files_stay (a : args) s t :
  move_flag a = false -> preserves files_stay (place_subsets a s t).
Proof.
  intros Hcopy. revert t. induction s as [|[name fl] s IH]; intros t; cbn.
  - intros w. reflexivity.
  - apply preserves_bind; try apply _; [|intros t1; apply IH].
    clear IH. revert t. induction fl as [|f fl IHf]; intros t; cbn.
    + intros w. reflexivity.
    + apply preserves_bind; try apply _; [|intros t1; apply IHf].
      unfold place_one, dispatch_file. rewrite Hcopy. intros w. unfold try_except.
      pose proof (copy2_files_stay (join (src_dir a) f)
                    (join (join (dest_dir a) name) f) w) as Hc.
      unfold bind at 1. destruct (copy2 _ _ w) as [[p|e|x] w1]; cbn in *; try assumption.
Qed.

(** A relation between worlds, as one between the states of a run. *)
Definition on_world (R : world -> world -> Prop) : state -> state -> Prop :=
  fun s s' => R s.1 s'.1.

#[global] Instance on_world_refl R `{!Reflexive R} : Reflexive (on_world R).
Proof. intros s. unfold on_world. reflexivity. Qed.
#[global] Instance on_world_trans R `{!Transitive R} : Transitive (on_world R).
Proof. intros s1 s2 s3. unfold on_world. apply transitivity. Qed.

Lemma preserves_in_world R {A} (c : M world A) :
  preserves R c -> preserves (on_world R) (in_world c).
Proof.
  intros Hc [w g]. specialize (Hc w). unfold on_world, in_world. cbn [fst snd].
  now destruct (c w).
Qed.

Lemma preserves_lift {St} (R : St -> St -> Prop) `{!Reflexive R} {A} (c : outcome A) :
  preserves R (lift c).
Proof. intros s. reflexivity. Qed.

Lemma assign_files_stay (a : args) : preserves (on_world files_stay) (assign a).
Proof.
  intros [w g]. destruct (assign_world a w g) as (evs & Hw & _).
  unfold on_world. cbn [fst]. rewrite Hw. now apply files_stay_same.
Qed.

Lemma main_files_stay (a : args) :
  move_flag a = false -> preserves (on_world files_stay) (main a).
Proof.
  intros Hcopy. unfold main.
  apply preserves_bind; try apply _; [apply assign_files_stay|]. intros s.
  apply preserves_bind; try apply _;
    [apply preserves_in_world, print_files_stay|]. intros _.
  apply preserves_bind; try apply _.
  { apply preserves_in_world. apply preserves_for_each; try apply _.
    intros [name lst]. apply print_files_stay. }
  intros _. apply preserves_if; [apply preserves_lift; apply _|].
  apply preserves_bind; try apply _.
  { apply preserves_in_world. unfold make_dirs. apply preserves_for_each; try apply _.
    intros name. apply makedirs_files_stay. }
  intros _. apply preserves_bind; try apply _;
    [now apply preserves_in_world, place_subsets_files_stay|].
  intros t. apply preserves_in_world, print_files_stay.
Qed.

End CopyFacts.

(** X6. Copy mode removes nothing: without [--move], every regular file
    that exists before a run of [main] exists after it, however the run
    ends. *)
Theorem copy_mode_removes_nothing `{Random} (a : SplitDataset.args) w g p :
  SplitDataset.move_flag a = false ->
  Os.is_file w p = true ->
  Os.is_file (SplitDataset.main a (w, g)).2.1 p = true.
Proof. intros Hcopy. apply (main_files_stay a Hcopy (w, g)). Qed.

Lemma copy_mode_removes_nothing_witness :
  Os.is_file
    (SplitDataset.main
       (Samples.split_args SplitDataset.r0_7 SplitDataset.r0_2 SplitDataset.r0_1)
       (Samples.ten_files, 0)).2.1 "s/f3" = true.
Proof.
  apply (@copy_mode_removes_nothing lcg_random
           (Samples.split_args SplitDataset.r0_7 SplitDataset.r0_2 SplitDataset.r0_1)
           Samples.ten_files 0 "s/f3" eq_refl).
  vm_compute. reflexivity.
Defined.

Section MakeDirsFacts.
Import PyStr OsPath Os SplitDataset.



End MakeDirsFacts.



(** ** [cleanup_dataset.py]: hashing in blocks, and when it fails *)

Section HashRuns.
Context `{Hashlib}.
Import PyStr OsPath Os CleanupDataset.

Lemma open_run p w :
  open p w
  = (match files w !! p with
     | Some f => if readable f then Return f else Raise (OSError PermissionDenied p)
     | None => if is_dir w p then Raise (OSError IsADirectory p)
               else Raise (OSError NotFound p)
     end, opened w p).
Proof.
  unfold open, bind, log, modify, get, ret, raise. cbn. fold (opened w p).
  change (is_dir (opened w p) p) with (is_dir w p).
  destruct (files w !! p) as [f|]; [now destruct (readable f)|].
  now destruct (is_dir w p).
Qed.



End HashRuns.

(** X8. Hashing does not depend on the block size: for a file that opens
    and reads to its end, [compute_hash] with any positive [block_size]
    returns the digest of the whole content, after one [open] and with
    nothing changed; with [block_size=0] the first read is empty and the
    digest is that of the empty string, whatever the content. *)
Theorem hash_any_block_size `{Hashlib} (p : string) (w : Os.world) (f : Os.file) :
  Os.files w !! p = Some f -> Os.readable f = true -> Os.faulty f = false ->
  (forall bs, (0 < bs)%nat ->
     CleanupDataset.compute_hash_with bs p w
     = (Return (sha256_hex (Os.data f)), opened w p))
  /\ CleanupDataset.compute_hash_with 0 p w = (Return (sha256_hex []), opened w p).
Proof.
  intros Hp Hr Hf.
  assert (Hopen : Os.open p w = (Return f, opened w p)) by (now rewrite open_run, Hp, Hr).
  split.
  - intros bs Hbs. unfold CleanupDataset.compute_hash_with.
    rewrite (bind_return _ _ _ _ _ Hopen). unfold bind, lift, ret.
    rewrite (read_loop_whole _ _ _ _ _ _ Hf) by lia. now rewrite drop_0.
  - unfold CleanupDataset.compute_hash_with.
    rewrite (bind_return _ _ _ _ _ Hopen). unfold bind, lift, ret.
    cbn [CleanupDataset.read_loop]. rewrite (read_block_sound _ _ _ Hf). reflexivity.
Qed.

Lemma hash_any_block_size_witness :
  (forall bs, (0 < bs)%nat ->
     CleanupDataset.compute_hash_with bs "d/A.jpg" Samples.photos
     = (Return (sha256_hex Samples.jpeg), opened Samples.photos "d/A.jpg"))
  /\ CleanupDataset.compute_hash_with 0 "d/A.jpg" Samples.photos
     = (Return (sha256_hex []), opened Samples.photos "d/A.jpg").
Proof.
  apply (@hash_any_block_size sha256_hashlib "d/A.jpg" Samples.photos
           (Samples.plain Samples.jpeg)); vm_compute; reflexivity.
Defined.



Section AbortFacts.
Context `{Hashlib}.
Import PyStr OsPath Os CleanupDataset.

Lemma opened_logged w p : opened w p = logged w [EvOpen p].
Proof. reflexivity. Qed.


End AbortFacts.



(** ** [cleanup_dataset.py]: the listing, exactly *)

Section GatherAllRuns.
Import PyStr OsPath Os CleanupDataset.

(** The names [os.path.isfile] keeps from the listing of [root]. *)
Definition file_names (w : world) (root : string) : list string :=
  filter (fun f => is_file w (join root f) = true) (entries w root).

Lemma gather_all_files_run root w :
  gather_all_files root w
  = (if is_dir w root then Return (sorted (map (join root) (file_names w root)))
     else if is_file w root then Raise (OSError NotADirectory root)
     else Raise (OSError NotFound root),
     logged w (EvListdir root
               :: if is_dir w root
                  then map (fun f => EvStat (join root f)) (entries w root) else [])).
Proof.
  unfold gather_all_files, file_names. destruct (is_dir w root) eqn:Hd.
  - rewrite (bind_return _ _ _ _ _ (eq_trans (listdir_run root w) ltac:(now rewrite Hd))).
    rewrite (bind_return _ _ _ _ _ (filter_isfile_run (join root) _ _)).
    cbn [ret]. now rewrite logged_logged.
  - pose proof (listdir_run root w) as Hl. rewrite Hd in Hl.
    destruct (is_file w root); rewrite (bind_raise _ _ _ _ _ Hl); reflexivity.
Qed.

Lemma elem_of_file_names w root name :
  name ∈ file_names w root <->
  name <> "" /\ rfind name sep < 0 /\ is_file w (join root name) = true.
Proof.
  unfold file_names. rewrite list_elem_of_filter, elem_of_entries. split.
  - intros (Hfile & Hne & Hsep & _). repeat split; assumption.
  - intros (Hne & Hsep & Hfile). split; [assumption|]. repeat split; try assumption.
    rewrite <- join_dir_prefix by (now apply no_sep_startswith).
    unfold path_exists. now rewrite Hfile.
Qed.

(** Putting the same prefix before two strings keeps their order. *)
Lemma compare_app pre a b :
  String.compare (pre +:+ a) (pre +:+ b) = String.compare a b.
Proof.
  unfold String.app. induction pre as [|c pre IH]; cbn; [reflexivity|].
  unfold Ascii.compare. now rewrite N.compare_refl.
Qed.

Lemma le_app pre a b : String.le (pre +:+ a) (pre +:+ b) <-> String.le a b.
Proof. unfold String.le, String.leb. now rewrite compare_app. Qed.

Lemma StronglySorted_fmap_on {A B} (R1 : relation A) (R2 : relation B) (g : A -> B) l :
  (forall x y, x ∈ l -> y ∈ l -> R1 x y -> R2 (g x) (g y)) ->
  StronglySorted R1 l -> StronglySorted R2 (g <$> l).
Proof.
  intros Hg Hs. induction Hs as [|x l Hs IH Hall]; cbn; constructor.
  - apply IH. intros y z Hy Hz. apply Hg; now right.
  - rewrite Forall_fmap. rewrite Forall_forall in Hall |- *.
    intros y Hy. cbn. apply Hg; [now left | now right | now apply Hall].
Qed.

(** Sorting the full paths is sorting the names. *)
Lemma sorted_join root names :
  (forall n, n ∈ names -> rfind n sep < 0) ->
  sorted (map (join root) names) = map (join root) (sorted names).
Proof.
  intros Hsep. apply (StronglySorted_unique String.le).
  - apply sorted_StronglySorted.
  - apply (StronglySorted_fmap_on String.le); [|apply sorted_StronglySorted].
    intros x y Hx Hy Hxy. rewrite sorted_Permutation in Hx, Hy.
    rewrite !join_dir_prefix by (now apply no_sep_startswith, Hsep).
    now apply le_app.
  - rewrite sorted_Permutation. change (join root <$> names ≡ₚ join root <$> sorted names).
    now rewrite sorted_Permutation.
Qed.

End GatherAllRuns.

(** X11. The listing of [gather_all_files]: for a directory it returns,
    after one [listdir] and one [stat] per entry, the full paths of the
    regular files directly inside it - no sub-directory, no repetition - in
    ascending order of the paths; for anything else the [OSError] of
    [os.listdir] escapes with the path. *)
Theorem gather_all_files_lists_regular_files root w :
  (Os.is_dir w root = true ->
   exists fs evs,
     CleanupDataset.gather_all_files root w = (Return fs, logged w evs)
     /\ Forall is_lookup evs
     /\ StronglySorted String.le fs /\ NoDup fs
     /\ forall p, p ∈ fs <->
          Os.is_file w p = true
          /\ exists name, name <> "" /\ PyStr.rfind name OsPath.sep < 0
                          /\ p = OsPath.join root name)
  /\ (Os.is_dir w root = false ->
      exists k, CleanupDataset.gather_all_files root w
                = (Raise (OSError k root), logged w [Os.EvListdir root])).
Proof.
  split; intros Hd.
  - destruct (CleanupDataset.gather_all_files root w) as [r w'] eqn:Hrun.
    pose proof (gather_all_files_run root w) as Hg. rewrite Hrun, Hd in Hg.
    injection Hg as -> ->.
    destruct (gather_all_files_listing root w _ _ Hrun) as (Hnd & Hs & _).
    eexists _, _. split; [reflexivity|]. split; [|split; [exact Hs | split; [exact Hnd|]]].
    + constructor; [exact I|]. apply Forall_forall.
      intros e (f & -> & _)%list_elem_of_fmap. exact I.
    + intros p. rewrite sorted_Permutation.
      change (map (OsPath.join root) (file_names w root))
        with (OsPath.join root <$> file_names w root).
      rewrite list_elem_of_fmap. split.
      * intros (name & -> & Hn). apply elem_of_file_names in Hn as (Hne & Hsep & Hfile).
        split; [assumption|]. now exists name.
      * intros (Hfile & name & Hne & Hsep & ->). exists name. split; [reflexivity|].
        now apply elem_of_file_names.
  - rewrite gather_all_files_run, Hd. destruct (Os.is_file w root); eexists; reflexivity.
Qed.

Lemma gather_all_files_lists_regular_files_witness :
  exists fs evs,
    CleanupDataset.gather_all_files "d" Samples.photos = (Return fs, logged Samples.photos evs)
    /\ Forall is_lookup evs
    /\ StronglySorted String.le fs /\ NoDup fs
    /\ forall p, p ∈ fs <->
         Os.is_file Samples.photos p = true
         /\ exists name, name <> "" /\ PyStr.rfind name OsPath.sep < 0
                         /\ p = OsPath.join "d" name.
Proof.
  apply (proj1 (gather_all_files_lists_regular_files "d" Samples.photos)).
  vm_compute. reflexivity.
Defined.

(** X12. The two scripts list a directory alike: on a directory,
    [gather_all_files] of [cleanup_dataset.py] returns the names that
    [gather_files] of [split_dataset.py] returns, in the same order, each
    joined to the directory. *)
Theorem listings_agree root w :
  Os.is_dir w root = true ->
  exists names,
    (SplitDataset.gather_files root w).1 = Return names
    /\ (CleanupDataset.gather_all_files root w).1 = Return (map (OsPath.join root) names)
    /\ (SplitDataset.gather_files root w).2 = (CleanupDataset.gather_all_files root w).2.
Proof.
  intros Hd. rewrite gather_files_run, gather_all_files_run, Hd. cbn [fst snd].
  eexists. split; [reflexivity|]. split; [|reflexivity]. f_equal.
  apply sorted_join. intros n Hn. now apply elem_of_file_names in Hn.
Qed.

Lemma listings_agree_witness :
  exists names,
    (SplitDataset.gather_files "d" Samples.photos).1 = Return names
    /\ (CleanupDataset.gather_all_files "d" Samples.photos).1
       = Return (map (OsPath.join "d") names)
    /\ (SplitDataset.gather_files "d" Samples.photos).2
       = (CleanupDataset.gather_all_files "d" Samples.photos).2.
Proof.
  apply (listings_agree "d" Samples.photos). vm_compute. reflexivity.
Defined.

(** ** [cleanup_dataset.py]: what the corruption test answers *)

Section CorruptRuns.
Context `{Pil}.
Import PyStr OsPath Os CleanupDataset.

Lemma is_corrupt_image_cases (p : string) (w : world) :
  is_corrupt_image p w
  = (match files w !! p with
     | Some f =>
         if readable f
         then match image_check f with
              | ImageOk => Return false
              | ImageUnidentified | ImageOSError => Return true
              | ImageOtherError what => Raise (OtherError what)
              end
         else Return true
     | None => Return true
     end, opened w p).
Proof.
  unfold is_corrupt_image, try_except, open_and_verify.
  unfold bind at 1. unfold bind at 1. rewrite open_run.
  destruct (files w !! p) as [f|].
  - destruct (readable f); [|reflexivity]. destruct (image_check f); reflexivity.
  - destruct (is_dir w p); reflexivity.
Qed.

End CorruptRuns.


(** ** [cleanup_dataset.py]: what a run deletes *)

Section LoopReaches.
Context {St : Type}.

Lemma preserves_try_except (R : St -> St -> Prop) `{!Reflexive R} `{!Transitive R}
    {A} (c : M St A) (h : exn -> M St A) :
  preserves R c -> (forall e, preserves R (h e)) -> preserves R (try_except c h).
Proof.
  intros Hc Hh s. unfold try_except. specialize (Hc s).
  destruct (c s) as [[a|e|x] s1]; cbn in *; try assumption.
  etransitivity; [exact Hc | apply Hh].
Qed.

Lemma preserves_filter_m (R : St -> St -> Prop) `{!Reflexive R} `{!Transitive R}
    {A} (p : A -> M St bool) (l : list A) :
  (forall x, preserves R (p x)) -> preserves R (filter_m p l).
Proof.
  intros Hp. induction l as [|x l IH]; cbn; [apply preserves_ret; apply _|].
  apply preserves_bind; try apply _; [apply Hp | intros b].
  apply preserves_bind; try apply _; [apply IH | intros ys; apply preserves_ret; apply _].
Qed.

(** A loop whose turns all return reaches what the turn of [x] brings
    about, if the later turns keep it. *)
Lemma for_each_reaches {A} (I Q : St -> Prop) (l : list A) (body : A -> M St unit) x :
  x ∈ l ->
  (forall y s, (body y s).1 = Return tt) ->
  (forall y s, I s -> I (body y s).2) ->
  (forall s, I s -> Q (body x s).2) ->
  (forall y s, Q s -> Q (body y s).2) ->
  forall s, I s -> Q (for_each l body s).2.
Proof.
  intros Hx Hret HI Hx_turn HQ.
  assert (Hkeep : forall l' s, Q s -> Q (for_each l' body s).2).
  { induction l' as [|y l' IH]; intros s Hs; cbn; [assumption|].
    rewrite (bind_run _ _ _ _ (Hret y s)). apply IH, HQ, Hs. }
  induction l as [|y l IH]; intros s Hs; [now apply elem_of_nil in Hx|].
  cbn. rewrite (bind_run _ _ _ _ (Hret y s)).
  apply elem_of_cons in Hx as [<-|Hx].
  - apply Hkeep, Hx_turn, Hs.
  - apply IH; [assumption | apply HI, Hs].
Qed.

End LoopReaches.

Section DeletionFacts.
Context `{Hashlib} `{Pil}.
Import PyStr OsPath Os CleanupDataset.

(** The run from [w] to [w'] made calls and nothing else. *)
Definition only_logged (w w' : world) : Prop := exists evs, w' = logged w evs.

#[global] Instance only_logged_refl : Reflexive only_logged.
Proof. intros w. exists []. now rewrite logged_nil. Qed.
#[global] Instance only_logged_trans : Transitive only_logged.
Proof. intros w1 w2 w3 [e1 ->] [e2 ->]. exists (e1 ++ e2). apply logged_logged. Qed.

Lemma open_only_logged p : preserves only_logged (open p).
Proof. intros w. rewrite open_run, opened_logged. now eexists. Qed.

Lemma compute_hash_only_logged p : preserves only_logged (compute_hash p).
Proof.
  unfold compute_hash, compute_hash_with.
  apply preserves_bind; try apply _; [apply open_only_logged | intros f].
  apply preserves_bind; try apply _; [apply preserves_lift; apply _ | intros h].
  apply preserves_ret; apply _.
Qed.

Lemma find_duplicates_loop_only_logged paths hashes dups :
  preserves only_logged (find_duplicates_loop paths hashes dups).
Proof.
  revert hashes dups. induction paths as [|p rest IH]; intros hashes dups; cbn.
  - apply preserves_ret; apply _.
  - apply preserves_bind; try apply _; [apply compute_hash_only_logged | intros h].
    destruct (hashes !! h); apply IH.
Qed.

Lemma is_corrupt_image_only_logged p : preserves only_logged (is_corrupt_image p).
Proof. intros w. rewrite is_corrupt_image_cases, opened_logged. now eexists. Qed.

Lemma scan_only_logged root : preserves only_logged (scan root).
Proof.
  unfold scan. apply preserves_bind; try apply _.
  { intros w. rewrite gather_all_files_run. now eexists. }
  intros fs. apply preserves_bind; try apply _;
    [apply find_duplicates_loop_only_logged | intros ds].
  apply preserves_bind; try apply _; [|intros cs; apply preserves_ret; apply _].
  unfold find_corrupts. apply preserves_filter_m; try apply _. intros p.
  apply preserves_if; [apply is_corrupt_image_only_logged | apply preserves_ret; apply _].
Qed.

(** From [w] to [w'] files were at most deleted, no directory changed, and
    lines were at most added to the output. *)
Definition shrinks (w w' : world) : Prop :=
  files w' ⊆ files w /\ dirs w' = dirs w /\ stdout w `prefix_of` stdout w'.

#[global] Instance shrinks_refl : Reflexive shrinks.
Proof. intros w. repeat split; reflexivity. Qed.
#[global] Instance shrinks_trans : Transitive shrinks.
Proof.
  intros w1 w2 w3 (Hf1 & Hd1 & Ho1) (Hf2 & Hd2 & Ho2). repeat split.
  - now transitivity (files w2).
  - congruence.
  - now transitivity (stdout w2).
Qed.

Lemma only_logged_shrinks w w' : only_logged w w' -> shrinks w w'.
Proof. intros [evs ->]. repeat split; reflexivity. Qed.

Lemma print_shrinks line : preserves shrinks (print line).
Proof. intros w. repeat split; cbn; [reflexivity | now apply prefix_app_r]. Qed.

Lemma try_remove_shrinks p : preserves shrinks (try_remove p).
Proof.
  unfold try_remove. apply preserves_try_except; try apply _; [|intros e; apply print_shrinks].
  intros w. unfold remove, bind, log, modify, get, set_files, raise, lift. cbn.
  destruct (files w !! p) as [f|].
  - destruct (removable f); repeat split; cbn; try reflexivity. apply delete_subseteq.
  - destruct (is_dir _ p); repeat split; reflexivity.
Qed.

Lemma turn_shrinks dry p :
  preserves shrinks (if negb dry then try_remove p else ret tt).
Proof. destruct dry; cbn; [apply preserves_ret; apply _ | apply try_remove_shrinks]. Qed.

Lemma report_shrinks dry ds cs : preserves shrinks (report dry ds cs).
Proof.
  apply (preserves_report shrinks); [apply print_shrinks | apply turn_shrinks].
Qed.

Lemma main_shrinks (a : args) : preserves shrinks (main a).
Proof.
  intros w. rewrite main_unfold. cbv zeta.
  set (w0 := World (files w) (dirs w) (stdout w) (trace w ++ [EvStat (dir a)])).
  assert (Hstat : shrinks w w0) by (repeat split; reflexivity).
  destruct (is_dir w (dir a)).
  - pose proof (only_logged_shrinks _ _ (scan_only_logged (dir a) w0)) as Hs.
    destruct (scan (dir a) w0) as [[found|e|x] w1]; cbn [snd] in *;
      try exact (shrinks_trans _ _ _ Hstat Hs).
    etransitivity; [exact Hstat|]. etransitivity; [exact Hs|]. apply report_shrinks.
  - etransitivity; [exact Hstat | apply print_shrinks].
Qed.

(** *** Paths that are not reported *)

#[global] Instance same_file_at_reflexive q : Reflexive (same_file_at q).
Proof. now intros w. Qed.
#[global] Instance same_file_at_transitive q : Transitive (same_file_at q).
Proof. unfold same_file_at. intros w1 w2 w3 H1 H2. congruence. Qed.

Lemma process_corrupts_other dry cs q w :
  q ∉ cs -> same_file_at q w (process_corrupts dry cs w).2.
Proof.
  intros Hq. unfold process_corrupts.
  apply (for_each_related (same_file_at q)).
  intros c Hc w1. apply (bind_related (same_file_at q)); [reflexivity|].
  intros _. destruct dry; cbn [negb]; [reflexivity|].
  apply (try_remove_other c q (print (corrupt_line c) w1).2). intros ->. now apply Hq.
Qed.

Lemma print_same_file q line : preserves (same_file_at q) (print line).
Proof. intros w. reflexivity. Qed.

Lemma report_other dry ds cs q w :
  q ∉ ds.*1 -> q ∉ cs -> same_file_at q w (report dry ds cs w).2.
Proof.
  intros Hd Hc. revert w. change (preserves (same_file_at q) (report dry ds cs)).
  unfold report. apply preserves_if; [apply print_same_file|].
  repeat (apply preserves_bind; try apply _; [|intros _]);
    try (apply preserves_when; try apply _); try apply print_same_file.
  - intros w. now apply process_duplicates_other.
  - intros w. now apply process_corrupts_other.
Qed.

(** *** Paths that are reported *)

(** Since [w], [line] was printed. *)
Definition printed_since (w : world) (line : string) (w' : world) : Prop :=
  exists lines, stdout w' = stdout w ++ lines /\ line ∈ lines.

Lemma printed_since_shrinks w line w1 w2 :
  printed_since w line w1 -> shrinks w1 w2 -> printed_since w line w2.
Proof.
  intros (lines & Ho & Hin) (_ & _ & [more Hmore]). exists (lines ++ more). split.
  - rewrite Hmore, Ho. now rewrite <- (assoc_L (++)).
  - apply elem_of_app. now left.
Qed.

Lemma print_printed_since w line w1 :
  shrinks w w1 -> printed_since w line (print line w1).2.
Proof.
  intros (_ & _ & [lines Ho]). exists (lines ++ [line]). cbn. split.
  - rewrite Ho. now rewrite <- (assoc_L (++)).
  - apply elem_of_app. right. now left.
Qed.

(** The path is gone or may not be deleted. *)
Definition undeletable (p : string) (w : world) : Prop :=
  match files w !! p with
  | Some f => removable f = false
  | None => True
  end.

Lemma undeletable_shrinks p w w' : undeletable p w -> shrinks w w' -> undeletable p w'.
Proof.
  unfold undeletable. intros Hu (Hsub & _).
  destruct (files w' !! p) as [f|] eqn:Hp; [|exact I].
  now rewrite (lookup_weaken _ _ _ _ Hp Hsub) in Hu.
Qed.

Lemma try_remove_undeletable p w : undeletable p (try_remove p w).2.
Proof.
  unfold undeletable, try_remove, try_except, remove, bind, log, modify, get, set_files,
    raise, lift, print. cbn.
  destruct (files w !! p) as [f|] eqn:Hp.
  - destruct (removable f) eqn:Hr; cbn; [now rewrite lookup_delete_eq | now rewrite Hp].
  - destruct (is_dir _ p); cbn; now rewrite Hp.
Qed.

Lemma remove_undeletable p w :
  undeletable p w ->
  exists k, remove p w = (Raise (OSError k p), logged w [EvRemove p]).
Proof.
  unfold undeletable, remove, bind, log, modify, get, set_files, raise, lift, logged. cbn.
  destruct (files w !! p) as [f|].
  - intros ->. now eexists.
  - intros _. destruct (is_dir _ p); now eexists.
Qed.

(** Deleting what cannot be deleted prints the error. *)
Lemma try_remove_fails p w0 w :
  shrinks w0 w -> undeletable p w ->
  exists k, printed_since w0 ("  [ERROR] Failed to delete " +:+ p +:+ ": "
                             +:+ SplitDataset.exn_str (OSError k p)) (try_remove p w).2.
Proof.
  intros Hs Hu. destruct (remove_undeletable p w Hu) as [k Hk]. exists k.
  unfold try_remove, try_except. rewrite Hk.
  apply print_printed_since. etransitivity; [exact Hs|]. repeat split; reflexivity.
Qed.

Definition dup_turn (dry : bool) (kv : string * string) : M world unit :=
  (print (dup_line kv.1 kv.2);; if negb dry then try_remove kv.1 else ret tt)%py.

Definition corrupt_turn (dry : bool) (c : string) : M world unit :=
  (print (corrupt_line c);; if negb dry then try_remove c else ret tt)%py.

Lemma process_duplicates_turns dry ds w :
  process_duplicates dry ds w = for_each ds (dup_turn dry) w.
Proof. unfold process_duplicates. apply for_each_ext. now intros [d c]. Qed.

Lemma dup_turn_returns dry kv w : (dup_turn dry kv w).1 = Return tt.
Proof.
  unfold dup_turn. rewrite (bind_run (print (dup_line kv.1 kv.2)) _ w tt eq_refl).
  destruct dry; cbn [negb]; [reflexivity | apply try_remove_returns].
Qed.

Lemma corrupt_turn_returns dry c w : (corrupt_turn dry c w).1 = Return tt.
Proof.
  unfold corrupt_turn. rewrite (bind_run (print (corrupt_line c)) _ w tt eq_refl).
  destruct dry; cbn [negb]; [reflexivity | apply try_remove_returns].
Qed.

Lemma dup_turn_shrinks dry kv : preserves shrinks (dup_turn dry kv).
Proof.
  apply preserves_bind; try apply _; [apply print_shrinks | intros _; apply turn_shrinks].
Qed.

Lemma corrupt_turn_shrinks dry c : preserves shrinks (corrupt_turn dry c).
Proof.
  apply preserves_bind; try apply _; [apply print_shrinks | intros _; apply turn_shrinks].
Qed.

Lemma process_duplicates_shrinks dry ds : preserves shrinks (process_duplicates dry ds).
Proof.
  intros w. rewrite process_duplicates_turns. revert w.
  apply preserves_for_each; try apply _. apply dup_turn_shrinks.
Qed.

Lemma process_corrupts_shrinks dry cs : preserves shrinks (process_corrupts dry cs).
Proof. apply preserves_for_each; try apply _. apply corrupt_turn_shrinks. Qed.

End DeletionFacts.

Section ReportFacts.
Context `{Hashlib} `{Pil}.
Import PyStr OsPath Os CleanupDataset.

Lemma when_print_shrinks b line : preserves shrinks (when b (print line)).
Proof. apply preserves_when; try apply _. apply print_shrinks. Qed.

Lemma when_print_files b line w : files (when b (print line) w).2 = files w.
Proof. now destruct b. Qed.

(** A report that has something to report: the lines before the two loops
    leave the files alone, and the loops run one after the other. *)
Lemma report_stages dry ds cs w :
  negb (nonempty ds) && negb (nonempty cs) = false ->
  exists w4,
    shrinks w w4 /\ files w4 = files w
    /\ (report dry ds cs w).2
       = (when (negb dry) (print (SplitDataset.newline +:+ "Cleanup complete."))
            (process_corrupts dry cs (process_duplicates dry ds w4).2).2).2.
Proof.
  intros Hempty. unfold report. rewrite Hempty.
  rewrite (bind_run (print "Summary:") _ w tt eq_refl).
  set (w0 := (print "Summary:" w).2).
  destruct (when_print_lines (nonempty ds)
              ("  Duplicates (will remove one of each pair): "
               +:+ PyStr.str (len ds) +:+ " files") w0 eq_refl) as [R1 _].
  rewrite (bind_run _ _ _ tt R1). set (w1 := (when (nonempty ds) _ w0).2).
  destruct (when_print_lines (nonempty cs)
              ("  Corrupt images (will remove): " +:+ PyStr.str (len cs) +:+ " files")
              w1 eq_refl) as [R2 _].
  rewrite (bind_run _ _ _ tt R2). set (w2 := (when (nonempty cs) _ w1).2).
  destruct (when_print_lines dry
              (SplitDataset.newline +:+ "Dry-run mode enabled. No files will be deleted.")
              w2 eq_refl) as [R3 _].
  rewrite (bind_run _ _ _ tt R3). set (w3 := (when dry _ w2).2).
  rewrite (bind_run (print "") _ w3 tt eq_refl).
  set (w4 := (print "" w3).2).
  rewrite (bind_run _ _ _ tt (proj1 (process_duplicates_lines dry ds w4))).
  rewrite (bind_run _ _ _ tt (proj1 (process_corrupts_lines dry cs _))).
  exists w4. split; [|split; [|reflexivity]].
  - transitivity w0; [apply print_shrinks|].
    transitivity w1; [apply when_print_shrinks|].
    transitivity w2; [apply when_print_shrinks|].
    transitivity w3; [apply when_print_shrinks | apply print_shrinks].
  - subst w4 w3 w2 w1 w0. cbn [print modify snd files].
    now rewrite !when_print_files.
Qed.

Lemma nonempty_elem_of {A} (x : A) l : x ∈ l -> nonempty l = true.
Proof. destruct l; [now intros ?%elem_of_nil | reflexivity]. Qed.

Lemma stages_of_duplicate (ds : list (string * string)) (cs : list string) p :
  p ∈ ds.*1 -> negb (nonempty ds) && negb (nonempty cs) = false.
Proof.
  intros (kv & _ & Hkv)%list_elem_of_fmap. now rewrite (nonempty_elem_of _ _ Hkv).
Qed.

Lemma stages_of_corrupt (ds : list (string * string)) (cs : list string) p :
  p ∈ cs -> negb (nonempty ds) && negb (nonempty cs) = false.
Proof. intros Hp. rewrite (nonempty_elem_of _ _ Hp). apply andb_false_r. Qed.

(** Every member of the two lists gets its line. *)
Lemma report_prints_duplicate dry ds cs d o w :
  (d, o) ∈ ds -> printed_since w (dup_line d o) (report dry ds cs w).2.
Proof.
  intros Hin.
  destruct (report_stages dry ds cs w) as (w4 & Hs & _ & ->).
  { apply (stages_of_duplicate ds cs d), list_elem_of_fmap. now exists (d, o). }
  eapply printed_since_shrinks; [|apply when_print_shrinks].
  eapply printed_since_shrinks; [|apply process_corrupts_shrinks].
  rewrite process_duplicates_turns.
  apply (for_each_reaches (shrinks w) (printed_since w (dup_line d o)) ds _ (d, o));
    try assumption.
  - intros kv s. apply dup_turn_returns.
  - intros kv s Hk. etransitivity; [exact Hk | apply dup_turn_shrinks].
  - intros s Hk. unfold dup_turn. rewrite (bind_run (print _) _ s tt eq_refl).
    eapply printed_since_shrinks; [apply print_printed_since, Hk | apply turn_shrinks].
  - intros kv s Hq. eapply printed_since_shrinks; [exact Hq | apply dup_turn_shrinks].
Qed.

Lemma report_prints_corrupt dry ds cs c w :
  c ∈ cs -> printed_since w (corrupt_line c) (report dry ds cs w).2.
Proof.
  intros Hin.
  destruct (report_stages dry ds cs w) as (w4 & Hs & _ & ->).
  { now apply (stages_of_corrupt ds cs c). }
  eapply printed_since_shrinks; [|apply when_print_shrinks].
  apply (for_each_reaches (shrinks w) (printed_since w (corrupt_line c)) cs _ c);
    try assumption.
  - intros y s. apply corrupt_turn_returns.
  - intros y s Hk. etransitivity; [exact Hk | apply corrupt_turn_shrinks].
  - intros s Hk. unfold corrupt_turn. rewrite (bind_run (print _) _ s tt eq_refl).
    eapply printed_since_shrinks; [apply print_printed_since, Hk | apply turn_shrinks].
  - intros y s Hq. eapply printed_since_shrinks; [exact Hq | apply corrupt_turn_shrinks].
  - etransitivity; [exact Hs | apply process_duplicates_shrinks].
Qed.

(** After a live report no reported path is left that could be deleted. *)
Lemma report_undeletable ds cs p w :
  p ∈ ds.*1 \/ p ∈ cs -> undeletable p (report false ds cs w).2.
Proof.
  intros Hin.
  destruct (report_stages false ds cs w) as (w4 & Hs & _ & ->).
  { destruct Hin; [now apply (stages_of_duplicate ds cs p)
                  | now apply (stages_of_corrupt ds cs p)]. }
  eapply undeletable_shrinks; [|apply when_print_shrinks].
  assert (Hturn : forall q s, undeletable q
                    ((if negb false then try_remove q else ret tt) s).2)
    by (intros q s; apply try_remove_undeletable).
  destruct Hin as [(kv & -> & Hkv)%list_elem_of_fmap | Hc].
  - eapply undeletable_shrinks; [|apply process_corrupts_shrinks].
    rewrite process_duplicates_turns.
    apply (for_each_reaches (fun _ => True) (undeletable kv.1) ds _ kv); trivial.
    + intros y s. apply dup_turn_returns.
    + intros s _. unfold dup_turn. rewrite (bind_run (print _) _ s tt eq_refl).
      apply Hturn.
    + intros y s Hq. eapply undeletable_shrinks; [exact Hq | apply dup_turn_shrinks].
  - apply (for_each_reaches (fun _ => True) (undeletable p) cs _ p); trivial.
    + intros y s. apply corrupt_turn_returns.
    + intros s _. unfold corrupt_turn. rewrite (bind_run (print _) _ s tt eq_refl).
      apply Hturn.
    + intros y s Hq. eapply undeletable_shrinks; [exact Hq | apply corrupt_turn_shrinks].
Qed.

(** A path in both lists: its second deletion fails and says so. *)
Lemma report_second_deletion ds cs p w :
  p ∈ ds.*1 -> p ∈ cs ->
  exists k, printed_since w ("  [ERROR] Failed to delete " +:+ p +:+ ": "
                            +:+ SplitDataset.exn_str (OSError k p))
              (report false ds cs w).2.
Proof.
  intros Hd Hc.
  destruct (report_stages false ds cs w) as (w4 & Hs & _ & ->).
  { now apply (stages_of_corrupt ds cs p). }
  set (w5 := (process_duplicates false ds w4).2).
  assert (Hs5 : shrinks w w5)
    by (etransitivity; [exact Hs | apply process_duplicates_shrinks]).
  assert (Hu5 : undeletable p w5).
  { apply list_elem_of_fmap in Hd as (kv & -> & Hkv). subst w5.
    rewrite process_duplicates_turns.
    apply (for_each_reaches (fun _ => True) (undeletable kv.1) ds _ kv); trivial.
    - intros y s. apply dup_turn_returns.
    - intros s _. unfold dup_turn. rewrite (bind_run (print _) _ s tt eq_refl).
      apply try_remove_undeletable.
    - intros y s Hq. eapply undeletable_shrinks; [exact Hq | apply dup_turn_shrinks]. }
  pose (err k := "  [ERROR] Failed to delete " +:+ p +:+ ": "
                 +:+ SplitDataset.exn_str (OSError k p)).
  assert (Hloop : exists k, printed_since w (err k) (process_corrupts false cs w5).2).
  { apply (for_each_reaches
             (fun s => shrinks w s /\ undeletable p s)
             (fun s => exists k, printed_since w (err k) s) cs _ p); try assumption.
    - intros y s. apply corrupt_turn_returns.
    - intros y s [Hk Hu]. pose proof (corrupt_turn_shrinks false y s) as Hy. split.
      + etransitivity; [exact Hk | exact Hy].
      + eapply undeletable_shrinks; [exact Hu | exact Hy].
    - intros s [Hk Hu]. unfold corrupt_turn. rewrite (bind_run (print _) _ s tt eq_refl).
      cbn [negb]. apply try_remove_fails.
      + etransitivity; [exact Hk | apply print_shrinks].
      + eapply undeletable_shrinks; [exact Hu | apply print_shrinks].
    - intros y s [k Hq]. exists k.
      eapply printed_since_shrinks; [exact Hq | apply corrupt_turn_shrinks].
    - now split. }
  destruct Hloop as [k Hk]. exists k.
  eapply printed_since_shrinks; [exact Hk | apply when_print_shrinks].
Qed.

Lemma scan_files root w : files (scan root w).2 = files w.
Proof. destruct (scan_only_logged root w) as [evs ->]. reflexivity. Qed.

Lemma scan_shrinks root : preserves shrinks (scan root).
Proof. intros w. apply only_logged_shrinks, scan_only_logged. Qed.

(** What [main] deleted was reported, in a live run. *)
Lemma main_deleted_reported (a : args) w q f :
  files w !! q = Some f -> files (main a w).2 !! q = None ->
  dry_run a = false
  /\ exists line, printed_since w line (main a w).2
                  /\ (line = corrupt_line q \/ exists o, line = dup_line q o).
Proof.
  intros Hq. rewrite main_unfold. cbv zeta.
  set (w0 := World (files w) (dirs w) (stdout w) (trace w ++ [EvStat (dir a)])).
  assert (Hstat : shrinks w w0) by (repeat split; reflexivity).
  destruct (is_dir w (dir a)); [|cbn; now rewrite Hq].
  pose proof (scan_files (dir a) w0) as Hfiles.
  pose proof (scan_shrinks (dir a) w0) as Hscan.
  destruct (scan (dir a) w0) as [[[ds cs]|e|x] w1]; cbn [fst snd] in *;
    try (rewrite Hfiles; cbn; now rewrite Hq).
  assert (Hw1 : shrinks w w1) by exact (shrinks_trans _ _ _ Hstat Hscan).
  assert (Hsince : forall line, printed_since w1 line (report (dry_run a) ds cs w1).2 ->
                                printed_since w line (report (dry_run a) ds cs w1).2).
  { intros line (lines & Ho & Hin). destruct Hw1 as (_ & _ & [more Hmore]).
    exists (more ++ lines). split.
    - rewrite Ho, Hmore. now rewrite <- (assoc_L (++)).
    - apply elem_of_app. now right. }
  intros Hgone. destruct (dry_run a) eqn:Hdry.
  { destruct (report_dry_only_printed ds cs w1) as (Hf & _).
    rewrite Hf, Hfiles in Hgone. cbn in Hgone. congruence. }
  split; [reflexivity|].
  destruct (decide (q ∈ ds.*1)) as [(kv & -> & Hkv)%list_elem_of_fmap | Hnd].
  - exists (dup_line kv.1 kv.2). split; [|right; now exists kv.2].
    apply Hsince, report_prints_duplicate. now destruct kv.
  - destruct (decide (q ∈ cs)) as [Hc | Hnc].
    + exists (corrupt_line q). split; [|now left].
      now apply Hsince, report_prints_corrupt.
    + pose proof (report_other false ds cs q w1 Hnd Hnc) as Hsame.
      unfold same_file_at in Hsame. rewrite Hsame, Hfiles in Hgone. cbn in Hgone. congruence.
Qed.

End ReportFacts.

(** X14. Whatever its arguments and whatever happens, a run of
    [cleanup_dataset.py] creates no file, changes no file that it leaves,
    changes no directory and only adds to the output. *)
Theorem cleanup_only_deletes `{Hashlib} `{Pil} (a : CleanupDataset.args) (w : Os.world) :
  Os.files (CleanupDataset.main a w).2 ⊆ Os.files w
  /\ Os.dirs (CleanupDataset.main a w).2 = Os.dirs w
  /\ Os.stdout w `prefix_of` Os.stdout (CleanupDataset.main a w).2.
Proof. apply main_shrinks. Qed.

(** X15. A file that is gone after a run of [cleanup_dataset.py] was
    deleted by a live run, and the run printed a [[DUP] Remove:] or a
    [[CORRUPT] Remove:] line for it. *)
Theorem deleted_files_are_reported `{Hashlib} `{Pil} (a : CleanupDataset.args)
    (w : Os.world) (q : string) (f : Os.file) :
  Os.files w !! q = Some f ->
  Os.files (CleanupDataset.main a w).2 !! q = None ->
  CleanupDataset.dry_run a = false
  /\ exists line more,
       Os.stdout (CleanupDataset.main a w).2 = Os.stdout w ++ more /\ line ∈ more
       /\ (line = CleanupDataset.corrupt_line q
           \/ exists o, line = CleanupDataset.dup_line q o).
Proof.
  intros Hq Hgone.
  destruct (main_deleted_reported a w q f Hq Hgone) as (Hdry & line & (more & Ho & Hin) & Hl).
  split; [exact Hdry|]. now exists line, more.
Qed.

Lemma deleted_files_are_reported_witness :
  CleanupDataset.dry_run (CleanupDataset.Args "d" false) = false
  /\ exists line more,
       Os.stdout (CleanupDataset.main (CleanupDataset.Args "d" false) Samples.photos).2
       = Os.stdout Samples.photos ++ more /\ line ∈ more
       /\ (line = CleanupDataset.corrupt_line "d/B.jpg"
           \/ exists o, line = CleanupDataset.dup_line "d/B.jpg" o).
Proof.
  apply (@deleted_files_are_reported sha256_hashlib signature_pil
           (CleanupDataset.Args "d" false) Samples.photos "d/B.jpg"
           (Samples.plain Samples.jpeg)).
  - vm_compute. reflexivity.
  - vm_compute. reflexivity.
Defined.

(** X16. After the reporting part of a live run, every path in the list of
    duplicates or of corrupt images is gone, unless deleting it is not
    permitted - then the file is as it was. *)
Theorem live_run_deletes_reported (ds : list (string * string)) (cs : list string)
    (p : string) (w : Os.world) :
  p ∈ ds.*1 \/ p ∈ cs ->
  match Os.files (CleanupDataset.report false ds cs w).2 !! p with
  | Some f => Os.removable f = false /\ Os.files w !! p = Some f
  | None => True
  end.
Proof.
  intros Hin. pose proof (report_undeletable ds cs p w Hin) as Hu.
  unfold undeletable in Hu.
  destruct (Os.files (CleanupDataset.report false ds cs w).2 !! p) as [f|] eqn:Hp;
    [|exact I].
  split; [exact Hu|].
  exact (lookup_weaken _ _ _ _ Hp (proj1 (report_shrinks false ds cs w))).
Qed.

Lemma live_run_deletes_reported_witness :
  match Os.files (CleanupDataset.report false [("d/B.jpg", "d/A.jpg")] ["d/C.jpg"]
                    Samples.photos).2 !! "d/C.jpg" with
  | Some f => Os.removable f = false /\ Os.files Samples.photos !! "d/C.jpg" = Some f
  | None => True
  end.
Proof.
  apply (live_run_deletes_reported [("d/B.jpg", "d/A.jpg")] ["d/C.jpg"] "d/C.jpg"
           Samples.photos).
  right. constructor.
Defined.

(** X17. A path that is both in the list of duplicates and in the list of
    corrupt images is deleted twice by a live run; the second deletion
    fails with an [OSError], which the run reports as
    [  [ERROR] Failed to delete <path>: ...] and survives. *)
Theorem twice_reported_fails_second_deletion (ds : list (string * string))
    (cs : list string) (p : string) (w : Os.world) :
  p ∈ ds.*1 -> p ∈ cs ->
  (CleanupDataset.report false ds cs w).1 = Return tt
  /\ exists k more,
       Os.stdout (CleanupDataset.report false ds cs w).2 = Os.stdout w ++ more
       /\ ("  [ERROR] Failed to delete " +:+ p +:+ ": "
           +:+ SplitDataset.exn_str (OSError k p)) ∈ more.
Proof.
  intros Hd Hc. split; [apply report_lines_report|].
  destruct (report_second_deletion ds cs p w Hd Hc) as (k & more & Ho & Hin).
  now exists k, more.
Qed.

Lemma twice_reported_fails_second_deletion_witness :
  (CleanupDataset.report false [("d/D.JPG", "d/C.jpg")] ["d/C.jpg"; "d/D.JPG"]
     Samples.photos).1 = Return tt
  /\ exists k more,
       Os.stdout (CleanupDataset.report false [("d/D.JPG", "d/C.jpg")]
                    ["d/C.jpg"; "d/D.JPG"] Samples.photos).2
       = Os.stdout Samples.photos ++ more
       /\ ("  [ERROR] Failed to delete " +:+ "d/D.JPG" +:+ ": "
           +:+ SplitDataset.exn_str (OSError k "d/D.JPG")) ∈ more.
Proof.
  apply (twice_reported_fails_second_deletion [("d/D.JPG", "d/C.jpg")]
           ["d/C.jpg"; "d/D.JPG"] "d/D.JPG" Samples.photos).
  - cbn. constructor.
  - do 2 constructor.
Defined.

(** ** [check_class_balance.py]: the counts *)

Section ClassCountRuns.
Import PyStr OsPath Os CheckClassBalance.

Lemma isdir_run p w : isdir p w = (Return (is_dir w p), logged w [EvStat p]).
Proof. reflexivity. Qed.

(** The names the comprehension of [gather_class_counts] keeps. *)
Definition images_in (w : world) (class_path : string) : list string :=
  filter (fun f => is_file w (join class_path f) && supported f = true)
         (entries w class_path).

(** A comprehension filtered by [os.path.isfile(...) and q] makes one
    [stat] call per name. *)
Lemma filter_isfile_and_run (path_of : string -> string) (q : string -> bool) names w :
  filter_m (fun f => (ok <- isfile (path_of f);; ret (ok && q f))%py) names w
  = (Return (filter (fun f => is_file w (path_of f) && q f = true) names),
     logged w (map (fun f => EvStat (path_of f)) names)).
Proof.
  revert w. induction names as [|f names IH]; intros w.
  - cbn. now rewrite logged_nil.
  - cbn [filter_m map].
    rewrite (bind_return _ _ _ _ _
               (bind_return _ _ _ _ _ (isfile_run (path_of f) w))).
    rewrite (bind_return _ _ _ _ _ (IH (logged w [EvStat (path_of f)]))).
    cbn [ret]. rewrite logged_logged. cbn [app]. f_equal. f_equal.
    rewrite filter_cons.
    change (filter (fun f0 => is_file (logged w [EvStat (path_of f)])
                                (path_of f0) && q f0 = true) names)
      with (filter (fun f0 => is_file w (path_of f0) && q f0 = true) names).
    destruct (is_file w (path_of f) && q f).
    + now rewrite decide_True by reflexivity.
    + now rewrite decide_False by discriminate.
Qed.

Lemma count_class_run class_path w :
  is_dir w class_path = true ->
  count_class class_path w
  = (Return (len (images_in w class_path)),
     logged w (EvListdir class_path
               :: map (fun f => EvStat (join class_path f)) (entries w class_path))).
Proof.
  intros Hd. unfold count_class.
  rewrite (bind_return _ _ _ _ _
             (eq_trans (listdir_run class_path w) ltac:(now rewrite Hd))).
  rewrite (bind_return _ _ _ _ _
             (filter_isfile_and_run (join class_path) supported _ _)).
  cbn [ret]. now rewrite logged_logged.
Qed.

(** One turn of the loop of [gather_class_counts], on the dictionary. *)
Definition count_step (w : world) (root : string) (counts : gmap string Z)
    (entry : string) : gmap string Z :=
  if is_dir w (join root entry)
  then <[entry:=len (images_in w (join root entry))]> counts else counts.

Lemma gather_loop_run root w names :
  forall counts evs0,
  exists evs,
    Forall is_lookup evs
    /\ gather_loop root names counts (logged w evs0)
       = (Return (foldl (count_step w root) counts names), logged w (evs0 ++ evs)).
Proof.
  induction names as [|entry names IH]; intros counts evs0.
  - exists []. split; [constructor|]. cbn. now rewrite app_nil_r.
  - cbn [gather_loop foldl].
    rewrite (bind_return _ _ _ _ _ (isdir_run (join root entry) (logged w evs0))).
    rewrite logged_logged. unfold count_step at 2.
    change (is_dir (logged w evs0) (join root entry)) with (is_dir w (join root entry)).
    destruct (is_dir w (join root entry)) eqn:Hd.
    + rewrite (bind_return _ _ _ _ _
                 (count_class_run (join root entry) (logged w _) Hd)).
      rewrite logged_logged.
      change (images_in (logged w (evs0 ++ [EvStat (join root entry)])) (join root entry))
        with (images_in w (join root entry)).
      change (entries (logged w (evs0 ++ [EvStat (join root entry)])) (join root entry))
        with (entries w (join root entry)).
      set (looks := EvListdir (join root entry)
                    :: map (fun f => EvStat (join (join root entry) f))
                           (entries w (join root entry))).
      destruct (IH (<[entry:=len (images_in w (join root entry))]> counts)
                  ((evs0 ++ [EvStat (join root entry)]) ++ looks))
        as (evs & Hevs & Hrun).
      exists ([EvStat (join root entry)] ++ looks ++ evs). split.
      * apply Forall_app. split; [repeat constructor|].
        apply Forall_app. split; [|exact Hevs].
        apply Forall_cons. split; [exact I|].
        apply Forall_forall. intros e (f & -> & _)%list_elem_of_fmap. exact I.
      * rewrite Hrun. f_equal. f_equal. now rewrite <- !(assoc_L (++)).
    + destruct (IH counts (evs0 ++ [EvStat (join root entry)])) as (evs & Hevs & Hrun).
      exists ([EvStat (join root entry)] ++ evs). split.
      * apply Forall_cons. split; [exact I | exact Hevs].
      * rewrite Hrun. f_equal. f_equal. now rewrite <- !(assoc_L (++)).
Qed.

Lemma fold_counts_lookup w root names cls :
  forall counts,
  foldl (count_step w root) counts names !! cls
  = if bool_decide (cls ∈ names) && is_dir w (join root cls)
    then Some (len (images_in w (join root cls))) else counts !! cls.
Proof.
  induction names as [|entry names IH]; intros counts; [reflexivity|].
  cbn [foldl]. rewrite IH.
  destruct (decide (cls ∈ names)) as [Hin|Hnin].
  - rewrite !bool_decide_eq_true_2 by (try right; assumption). cbn [andb].
    destruct (is_dir w (join root cls)) eqn:Hd; [reflexivity|].
    unfold count_step. destruct (decide (cls = entry)) as [->|Hne].
    + now rewrite Hd.
    + destruct (is_dir w (join root entry)); [now rewrite lookup_insert_ne|reflexivity].
  - rewrite (bool_decide_eq_false_2 (cls ∈ names)) by assumption. cbn [andb].
    unfold count_step. destruct (decide (cls = entry)) as [->|Hne].
    + rewrite bool_decide_eq_true_2 by now left. cbn [andb].
      destruct (is_dir w (join root entry)); [now rewrite lookup_insert_eq|reflexivity].
    + rewrite bool_decide_eq_false_2
        by (intros [?|?]%elem_of_cons; [now apply Hne | now apply Hnin]).
      cbn [andb].
      destruct (is_dir w (join root entry)); [now rewrite lookup_insert_ne|reflexivity].
Qed.

(** The dictionary [gather_class_counts] builds. *)
Definition class_counts (w : world) (root : string) : gmap string Z :=
  foldl (count_step w root) ∅ (entries w root).

Lemma class_counts_lookup w root cls :
  class_counts w root !! cls
  = if bool_decide (cls ∈ entries w root) && is_dir w (join root cls)
    then Some (len (images_in w (join root cls))) else None.
Proof. unfold class_counts. now rewrite fold_counts_lookup, lookup_empty. Qed.

Lemma gather_class_counts_run root w :
  is_dir w root = true ->
  exists evs,
    Forall is_lookup evs
    /\ gather_class_counts root w = (Return (class_counts w root), logged w evs).
Proof.
  intros Hd. unfold gather_class_counts.
  rewrite (bind_return _ _ _ _ _ (eq_trans (listdir_run root w) ltac:(now rewrite Hd))).
  destruct (gather_loop_run root w (entries w root) ∅ [EvListdir root])
    as (evs & Hevs & Hrun).
  exists (EvListdir root :: evs). split; [|exact Hrun].
  apply Forall_cons. split; [exact I | exact Hevs].
Qed.

End ClassCountRuns.

(** X18. [gather_class_counts] on a directory returns a dictionary whose
    keys are the entries of the root that are directories - also those
    without any supported file - and whose values count the regular files
    directly inside with one of the extensions, compared in lower case.  It
    only looks at the file system. *)
Theorem class_counts_cover_subdirectories (root : string) (w : Os.world) :
  Os.is_dir w root = true ->
  exists counts evs,
    CheckClassBalance.gather_class_counts root w = (Return counts, logged w evs)
    /\ Forall is_lookup evs
    /\ forall cls,
         counts !! cls
         = if bool_decide (cls ∈ Os.entries w root) && Os.is_dir w (OsPath.join root cls)
           then Some (Z.of_nat (length
                  (filter (fun f => Os.is_file w (OsPath.join (OsPath.join root cls) f)
                                    && CheckClassBalance.supported f = true)
                          (Os.entries w (OsPath.join root cls)))))
           else None.
Proof.
  intros Hd. destruct (gather_class_counts_run root w Hd) as (evs & Hevs & Hrun).
  exists (class_counts w root), evs. split; [exact Hrun|]. split; [exact Hevs|].
  intros cls. apply class_counts_lookup.
Qed.

Lemma class_counts_cover_subdirectories_witness :
  exists counts evs,
    CheckClassBalance.gather_class_counts "p" ClassSamples.pets
    = (Return counts, logged ClassSamples.pets evs)
    /\ Forall is_lookup evs
    /\ forall cls,
         counts !! cls
         = if bool_decide (cls ∈ Os.entries ClassSamples.pets "p")
              && Os.is_dir ClassSamples.pets (OsPath.join "p" cls)
           then Some (Z.of_nat (length
                  (filter (fun f => Os.is_file ClassSamples.pets
                                      (OsPath.join (OsPath.join "p" cls) f)
                                    && CheckClassBalance.supported f = true)
                          (Os.entries ClassSamples.pets (OsPath.join "p" cls)))))
           else None.
Proof.
  apply (class_counts_cover_subdirectories "p" ClassSamples.pets).
  vm_compute. reflexivity.
Defined.

(** ** [check_class_balance.py]: the verdict *)

Section VerdictFacts.
Context `{Tabulate}.
Import PyStr OsPath Os CheckClassBalance.

Lemma in_world_run {A} (c : M world A) w err r w' :
  c w = (r, w') -> in_world c (w, err) = (r, (w', err)).
Proof. unfold in_world. cbn. now intros ->. Qed.

Definition verdict_line (imbalance : bool) : string :=
  if imbalance then SplitDataset.newline +:+ "WARNING: Class imbalance detected."
  else SplitDataset.newline +:+ "All classes are balanced within thresholds.".

(** The rows and the verdict [main] computes from the counts. *)
Definition summary_of (a : args) (counts : gmap string Z)
  : outcome (list (list cell) * bool) :=
  max_count ← py_max (values counts);
  summarise a max_count (sorted_items counts) [] false.

(** [main] on a directory, after the counts are gathered. *)
Definition conclude (a : args) (counts : gmap string Z) (s : state)
  : outcome unit * state :=
  if bool_decide (counts = ∅) then
    (SysExit (ExitStatus 1),
     (s.1, s.2 ++ ["No class subdirectories with supported files found."]))
  else
    match summary_of a counts with
    | Return result =>
        (SysExit (ExitStatus (if result.2 then 1 else 0)),
         (printed s.1 [tabulate_github result.1 headers; verdict_line result.2], s.2))
    | Raise e => (Raise e, s)
    | SysExit x => (SysExit x, s)
    end.

Lemma main_run (a : args) w err :
  (is_dir w (dir a) = false ->
   main a (w, err)
   = (SysExit (ExitStatus 1),
      (logged w [EvStat (dir a)],
       err ++ ["Error: '" +:+ dir a +:+ "' is not a directory."])))
  /\ (is_dir w (dir a) = true ->
      exists evs, Forall is_lookup evs
                  /\ main a (w, err) = conclude a (class_counts w (dir a)) (logged w evs, err)).
Proof.
  split; intros Hd; unfold main; cbv zeta;
    rewrite (bind_return _ _ _ _ _ (in_world_run _ _ err _ _ (isdir_run (dir a) w)));
    rewrite Hd; cbn [negb]; [reflexivity|].
  destruct (gather_class_counts_run (dir a) (logged w [EvStat (dir a)]) Hd)
    as (evs & Hevs & Hrun).
  rewrite logged_logged in Hrun.
  change (class_counts (logged w [EvStat (dir a)]) (dir a))
    with (class_counts w (dir a)) in Hrun.
  rewrite (bind_return _ _ _ _ _ (in_world_run _ _ err _ _ Hrun)).
  exists ([EvStat (dir a)] ++ evs). split; [apply Forall_cons; now split|].
  unfold conclude, summary_of.
  destruct (bool_decide (class_counts w (dir a) = ∅)); [reflexivity|].
  unfold bind at 1. unfold lift at 1.
  destruct (py_max (values (class_counts w (dir a)))) as [m|e|x]; try reflexivity.
  cbn [mbind outcome_bind obind]. unfold bind at 1. unfold lift at 1.
  destruct (summarise a m (sorted_items (class_counts w (dir a))) [] false)
    as [[rows imb]|e|x]; try reflexivity.
  cbn [fst snd].
  destruct imb; unfold bind, in_world, print, modify, sys_exit, lift, printed, verdict_line;
    cbn; now rewrite <- (assoc_L (++)).
Qed.

(** *** Classes of one size *)

Lemma filter_none {A} (P : A -> Prop) `{!forall x, Decision (P x)} (l : list A) :
  Forall (fun x => ~ P x) l -> filter P l = [].
Proof.
  induction 1 as [|x l Hx _ IH]; [reflexivity|].
  rewrite filter_cons, decide_False by assumption. exact IH.
Qed.

Lemma values_all (counts : gmap string Z) c :
  counts <> ∅ -> (forall k v, counts !! k = Some v -> v = c) ->
  py_max (values counts) = Return c.
Proof.
  intros Hne Hall. unfold values.
  assert (Hvals : Forall (fun v => v = c) (map_to_list counts).*2).
  { apply Forall_forall. intros v ([k v'] & -> & Hkv)%list_elem_of_fmap.
    apply elem_of_map_to_list in Hkv. now apply (Hall k). }
  destruct ((map_to_list counts).*2) as [|x l] eqn:Hl.
  - apply fmap_nil_inv in Hl. now apply map_to_list_empty_iff in Hl.
  - cbn. f_equal. apply Forall_cons in Hvals as [-> Hrest]. clear Hl.
    induction Hrest as [|y l -> _ IH]; cbn; [reflexivity|]. rewrite IH. apply Z.max_id.
Qed.

Lemma sorted_items_all (counts : gmap string Z) c :
  (forall k v, counts !! k = Some v -> v = c) ->
  Forall (fun kv => kv.2 = c) (sorted_items counts).
Proof.
  intros Hall. unfold sorted_items. apply Forall_forall.
  intros kv (k & -> & Hk)%list_elem_of_fmap. cbn.
  rewrite sorted_Permutation in Hk. apply elem_of_elements, elem_of_dom in Hk as [v Hv].
  rewrite Hv. cbn. now apply (Hall k).
Qed.

Lemma sorted_items_nonempty (counts : gmap string Z) :
  counts <> ∅ -> sorted_items counts <> [].
Proof.
  intros Hne Hnil. unfold sorted_items in Hnil. apply fmap_nil_inv in Hnil.
  pose proof (sorted_Permutation (elements (dom counts))) as Hp. rewrite Hnil in Hp.
  apply Permutation_nil_l in Hp. symmetry in Hp. apply elements_empty_inv in Hp.
  apply Hne. apply dom_empty_inv_L. now apply leibniz_equiv.
Qed.

(** The quotient of a positive integer by itself is [1.0]. *)
Lemma true_div_same n : 0 < n -> true_div n n = Return PyFloat.one.
Proof.
  intros Hn. unfold true_div.
  destruct (Z.eqb_spec n 0); [lia|].
  unfold SFdiv_core_binary. rewrite Z.abs_eq by lia.
  replace (Zdigits2 n + 0 - (Zdigits2 n + 0)) with 0 by lia.
  change (Z.min (fexp PyFloat.prec PyFloat.emax 0) (0 - 0)) with (-53).
  change (0 - 0 - -53) with 53. cbv zeta.
  change (Z.shiftl n 53) with (Z.shiftl n 53).
  rewrite Z.shiftl_mul_pow2 by lia.
  pose proof (Z.div_eucl_eq (n * 2 ^ 53) n ltac:(lia)) as Heq.
  pose proof (Z.mod_pos_bound (n * 2 ^ 53) n Hn) as Hb.
  unfold Z.modulo in Hb. destruct (Z.div_eucl (n * 2 ^ 53) n) as [q r].
  assert (Hq : q = 2 ^ 53).
  { remember (2 ^ 53) as K eqn:HK. clear HK. nia. }
  assert (Hr : r = 0) by (subst q; lia). subst q r.
  assert (Hloc : new_location n 0 = loc_Exact).
  { unfold new_location, new_location_even, new_location_odd. now destruct (Z.even n). }
  rewrite Hloc. destruct (n <? 0) eqn:Hneg; [apply Z.ltb_lt in Hneg; lia|].
  vm_compute. reflexivity.
Qed.

(** The row of a class as large as the largest. *)
Lemma row_of_largest (a : args) m cls :
  0 < m ->
  row_of a m cls m
  = Return ([CellStr cls; CellInt m; CellStr "1.00"; CellInt 0;
             CellStr (or_ok (join_with "; " (status_of a PyFloat.one 0)))],
            PyFloat.ltb PyFloat.one (ratio_threshold a) || (diff_threshold a <? 0)).
Proof.
  intros Hm. unfold row_of. rewrite (true_div_same m Hm). cbn [mbind outcome_bind obind].
  rewrite Z.sub_diag. f_equal. f_equal.
  unfold status_of.
  destruct (PyFloat.ltb PyFloat.one (ratio_threshold a)); [reflexivity|].
  destruct (diff_threshold a <? 0); reflexivity.
Qed.

Lemma summarise_largest (a : args) m items :
  0 < m ->
  PyFloat.ltb PyFloat.one (ratio_threshold a) = false -> 0 <= diff_threshold a ->
  Forall (fun kv => kv.2 = m) items ->
  forall summary imbalance,
  exists rows, summarise a m items summary imbalance = Return (rows, imbalance).
Proof.
  intros Hm Hr Hdiff Hall. induction Hall as [|[cls cnt] items Hc _ IH];
    intros summary imbalance; cbn [summarise]; [now eexists|].
  cbn in Hc. subst cnt. rewrite (row_of_largest a m cls Hm).
  cbn [mbind outcome_bind obind fst snd]. rewrite Hr.
  destruct (Z.ltb_spec (diff_threshold a) 0); [lia|]. cbn [orb].
  rewrite orb_false_r. apply IH.
Qed.

Lemma summarise_zero (a : args) items summary imbalance :
  items <> [] ->
  summarise a 0 items summary imbalance = Raise (OtherError "division by zero").
Proof. destruct items as [|[cls cnt] items]; [contradiction | reflexivity]. Qed.

(** The classes of [root] all hold [c] files that count. *)
Definition classes_hold (w : world) (root : string) (c : Z) : Prop :=
  (exists cls, cls ∈ entries w root /\ is_dir w (join root cls) = true)
  /\ forall cls, cls ∈ entries w root -> is_dir w (join root cls) = true ->
                 len (images_in w (join root cls)) = c.

Lemma classes_hold_counts w root c :
  classes_hold w root c ->
  class_counts w root <> ∅
  /\ forall k v, class_counts w root !! k = Some v -> v = c.
Proof.
  intros [(cls & Hin & Hd) Hall]. split.
  - intros Hempty. pose proof (class_counts_lookup w root cls) as Hl.
    rewrite Hempty, lookup_empty, bool_decide_eq_true_2, Hd in Hl by assumption.
    discriminate.
  - intros k v. rewrite class_counts_lookup.
    destruct (bool_decide (k ∈ entries w root)) eqn:Hk; [|discriminate].
    apply bool_decide_eq_true in Hk.
    destruct (is_dir w (join root k)) eqn:Hdk; [|discriminate]. cbn.
    intros [= <-]. now apply Hall.
Qed.

Lemma main_zero (a : args) w err :
  is_dir w (dir a) = true -> classes_hold w (dir a) 0 ->
  exists evs, Forall is_lookup evs
              /\ main a (w, err)
                 = (Raise (OtherError "division by zero"), (logged w evs, err)).
Proof.
  intros Hd Hc. destruct (proj2 (main_run a w err) Hd) as (evs & Hevs & ->).
  exists evs. split; [exact Hevs|].
  destruct (classes_hold_counts _ _ _ Hc) as [Hne Hall].
  unfold conclude, summary_of. rewrite bool_decide_eq_false_2 by assumption.
  rewrite (values_all _ 0 Hne Hall). cbn [mbind outcome_bind obind].
  now rewrite summarise_zero by now apply sorted_items_nonempty.
Qed.

Lemma main_level (a : args) w err c :
  is_dir w (dir a) = true -> classes_hold w (dir a) c -> 0 < c ->
  PyFloat.ltb PyFloat.one (ratio_threshold a) = false -> 0 <= diff_threshold a ->
  exists evs rows,
    Forall is_lookup evs
    /\ main a (w, err)
       = (SysExit (ExitStatus 0),
          (printed (logged w evs) [tabulate_github rows headers; verdict_line false], err)).
Proof.
  intros Hd Hc Hpos Hr Hdiff. destruct (proj2 (main_run a w err) Hd) as (evs & Hevs & ->).
  destruct (classes_hold_counts _ _ _ Hc) as [Hne Hall].
  destruct (summarise_largest a c _ Hpos Hr Hdiff (sorted_items_all _ c Hall) [] false)
    as [rows Hrows].
  exists evs, rows. split; [exact Hevs|].
  unfold conclude, summary_of. rewrite bool_decide_eq_false_2 by assumption.
  rewrite (values_all _ c Hne Hall). cbn [mbind outcome_bind obind].
  now rewrite Hrows.
Qed.

Lemma true_div_no_exit a0 b x : true_div a0 b <> SysExit x.
Proof.
  unfold true_div. destruct (b =? 0); [discriminate|]. destruct (a0 =? 0); [discriminate|].
  destruct (SFdiv_core_binary _ _ _ _ _ _) as [[m e] l].
  destruct (binary_round_aux _ _ _ _ _ _); discriminate.
Qed.

Lemma summarise_no_exit (a : args) m items x :
  forall summary imbalance, summarise a m items summary imbalance <> SysExit x.
Proof.
  induction items as [|[cls cnt] items IH]; intros summary imbalance; cbn [summarise];
    [discriminate|].
  unfold row_of. pose proof (true_div_no_exit cnt m) as Hd.
  destruct (true_div cnt m) as [r|e|y]; cbn [mbind outcome_bind obind];
    [apply IH | discriminate | intros [= <-]; now apply (Hd y)].
Qed.

Lemma summary_of_no_exit (a : args) counts x : summary_of a counts <> SysExit x.
Proof.
  unfold summary_of, py_max. destruct (values counts); cbn [mbind outcome_bind obind];
    [discriminate | apply summarise_no_exit].
Qed.

(** How a run on a directory ends: never by returning. *)
Definition ends (s s' : state) (r : outcome unit) : Prop :=
  match r with
  | Return _ => False
  | Raise _ => s' = s
  | SysExit x =>
      (x = ExitStatus 0 /\ s'.2 = s.2
       /\ exists table, s'.1 = printed s.1 [table; verdict_line false])
      \/ (x = ExitStatus 1
          /\ ((s'.1 = s.1 /\ exists msg, s'.2 = s.2 ++ [msg])
              \/ (s'.2 = s.2
                  /\ exists table, s'.1 = printed s.1 [table; verdict_line true])))
  end.

Lemma conclude_ends (a : args) counts s :
  ends s (conclude a counts s).2 (conclude a counts s).1.
Proof.
  unfold conclude. destruct (bool_decide (counts = ∅)).
  { cbn. right. split; [reflexivity|]. left. split; [reflexivity | now eexists]. }
  pose proof (summary_of_no_exit a counts) as Hx.
  destruct (summary_of a counts) as [[rows imb]|e|x]; cbn [fst snd ends].
  - destruct imb; [right | left]; (split; [reflexivity|]).
    + right. split; [reflexivity | now eexists].
    + split; [reflexivity | now eexists].
  - reflexivity.
  - now destruct (Hx x).
Qed.

End VerdictFacts.

(** X19. A dataset whose class directories hold no supported file makes
    [check_class_balance.py] fail: the largest count is 0, and the first
    ratio divides by it.  The run raises [ZeroDivisionError] after it only
    looked; nothing is printed and no message written. *)
Theorem classes_without_images_divide_by_zero `{Tabulate} (a : CheckClassBalance.args)
    (w : Os.world) (err : list string) :
  Os.is_dir w (CheckClassBalance.dir a) = true ->
  (exists cls, cls ∈ Os.entries w (CheckClassBalance.dir a)
               /\ Os.is_dir w (OsPath.join (CheckClassBalance.dir a) cls) = true) ->
  (forall cls f,
     cls ∈ Os.entries w (CheckClassBalance.dir a) ->
     Os.is_dir w (OsPath.join (CheckClassBalance.dir a) cls) = true ->
     f ∈ Os.entries w (OsPath.join (CheckClassBalance.dir a) cls) ->
     Os.is_file w (OsPath.join (OsPath.join (CheckClassBalance.dir a) cls) f) = true ->
     CheckClassBalance.supported f = false) ->
  exists evs,
    Forall is_lookup evs
    /\ CheckClassBalance.main a (w, err)
       = (Raise (OtherError "division by zero"), (logged w evs, err)).
Proof.
  intros Hd Hsome Hnone. apply main_zero; [exact Hd|]. split; [exact Hsome|].
  intros cls Hcls Hdc. unfold images_in, len.
  rewrite filter_none; [reflexivity|].
  apply Forall_forall. intros f Hf Hkeep.
  destruct (Os.is_file w (OsPath.join (OsPath.join (CheckClassBalance.dir a) cls) f)) eqn:Hfile;
    [|discriminate].
  rewrite (Hnone cls f Hcls Hdc Hf Hfile) in Hkeep. discriminate.
Qed.

Lemma classes_without_images_divide_by_zero_witness :
  exists evs,
    Forall is_lookup evs
    /\ CheckClassBalance.main (ClassSamples.defaults "p") (ClassSamples.bare, [])
       = (Raise (OtherError "division by zero"), (logged ClassSamples.bare evs, [])).
Proof.
  apply (@classes_without_images_divide_by_zero plain_tabulate
           (ClassSamples.defaults "p") ClassSamples.bare []).
  - vm_compute. reflexivity.
  - exists "cat". split; [|vm_compute; reflexivity].
    apply (bool_decide_unpack _). vm_compute. exact I.
  - intros cls f Hcls _ Hf Hfile. vm_compute in Hcls.
    each_listed Hcls ltac:(vm_compute in Hf;
                           each_listed Hf ltac:(vm_compute; reflexivity)).
Defined.

(** X20. However [check_class_balance.py] runs, it never returns from
    [main]: it exits or an exception escapes.  It only looks at the file
    system.  With status 0 it has printed the table and the line that all
    classes are balanced; with status 1 it has either written one message
    to standard error and printed nothing, or printed the table and the
    warning; when an exception escapes it has printed nothing. *)
Theorem class_balance_run_ends `{Tabulate} (a : CheckClassBalance.args)
    (w : Os.world) (err : list string) :
  let r := CheckClassBalance.main a (w, err) in
  Os.files r.2.1 = Os.files w /\ Os.dirs r.2.1 = Os.dirs w
  /\ (exists evs, Os.trace r.2.1 = Os.trace w ++ evs /\ Forall is_lookup evs)
  /\ match r.1 with
     | Return _ => False
     | Raise _ => Os.stdout r.2.1 = Os.stdout w /\ r.2.2 = err
     | SysExit x =>
         (x = ExitStatus 0 /\ r.2.2 = err
          /\ exists table,
               Os.stdout r.2.1
               = Os.stdout w ++ [table; SplitDataset.newline
                                        +:+ "All classes are balanced within thresholds."])
         \/ (x = ExitStatus 1
             /\ ((Os.stdout r.2.1 = Os.stdout w /\ exists msg, r.2.2 = err ++ [msg])
                 \/ (r.2.2 = err
                     /\ exists table,
                          Os.stdout r.2.1
                          = Os.stdout w ++ [table; SplitDataset.newline
                                                   +:+ "WARNING: Class imbalance detected."])))
     end.
Proof.
  cbv zeta. destruct (Os.is_dir w (CheckClassBalance.dir a)) eqn:Hd.
  - destruct (proj2 (main_run a w err) Hd) as (evs & Hevs & ->).
    pose proof (conclude_ends a (class_counts w (CheckClassBalance.dir a))
                  (logged w evs, err)) as He.
    destruct (conclude a (class_counts w (CheckClassBalance.dir a)) (logged w evs, err))
      as [[u|e|x] [w' err']]; cbn [fst snd ends] in *.
    + contradiction.
    + injection He as -> ->. repeat split; try reflexivity. now exists evs.
    + destruct He as [(-> & -> & table & ->)
                     |(-> & [(-> & msg & ->)|(-> & table & ->)])];
        (split; [reflexivity|]); (split; [reflexivity|]); (split; [now exists evs|]).
      * left. split; [reflexivity|]. split; [reflexivity | now exists table].
      * right. split; [reflexivity|]. left. split; [reflexivity | now exists msg].
      * right. split; [reflexivity|]. right. split; [reflexivity | now exists table].
  - rewrite (proj1 (main_run a w err) Hd). cbn [fst snd].
    split; [reflexivity|]. split; [reflexivity|].
    split; [exists [Os.EvStat (CheckClassBalance.dir a)]; split;
            [reflexivity | repeat constructor]|].
    right. split; [reflexivity|]. left. split; [reflexivity | now eexists].
Qed.

(** X21. The row of a class as large as the largest shows the ratio 1.00
    and the difference 0; it warns only if the ratio threshold is above 1
    or the difference threshold below 0, and otherwise its status is OK. *)
Theorem largest_class_row (a : CheckClassBalance.args) (m : Z) (cls : string) :
  0 < m ->
  exists status,
    CheckClassBalance.row_of a m cls m
    = Return ([CellStr cls; CellInt m; CellStr "1.00"; CellInt 0; CellStr status],
              PyFloat.ltb PyFloat.one (CheckClassBalance.ratio_threshold a)
              || (CheckClassBalance.diff_threshold a <? 0))
    /\ (PyFloat.ltb PyFloat.one (CheckClassBalance.ratio_threshold a)
        || (CheckClassBalance.diff_threshold a <? 0) = false -> status = "OK").
Proof.
  intros Hm. eexists. split; [apply (row_of_largest a m cls Hm)|].
  intros [Hr Hd]%orb_false_elim. unfold CheckClassBalance.status_of.
  now rewrite Hr, Hd.
Qed.

Lemma largest_class_row_witness :
  exists status,
    CheckClassBalance.row_of (ClassSamples.defaults "p") 3 "cat" 3
    = Return ([CellStr "cat"; CellInt 3; CellStr "1.00"; CellInt 0; CellStr status],
              PyFloat.ltb PyFloat.one
                (CheckClassBalance.ratio_threshold (ClassSamples.defaults "p"))
              || (CheckClassBalance.diff_threshold (ClassSamples.defaults "p") <? 0))
    /\ (PyFloat.ltb PyFloat.one
          (CheckClassBalance.ratio_threshold (ClassSamples.defaults "p"))
        || (CheckClassBalance.diff_threshold (ClassSamples.defaults "p") <? 0) = false ->
        status = "OK").
Proof. apply (largest_class_row (ClassSamples.defaults "p") 3 "cat"). lia. Defined.

(** X22. Classes that all hold the same positive number of supported files
    are balanced: with a ratio threshold of at most 1 and a difference
    threshold of at least 0 the run prints the table and the line that all
    classes are balanced, and exits with status 0. *)
Theorem equal_classes_are_balanced `{Tabulate} (a : CheckClassBalance.args)
    (w : Os.world) (err : list string) (c : Z) :
  Os.is_dir w (CheckClassBalance.dir a) = true ->
  (exists cls, cls ∈ Os.entries w (CheckClassBalance.dir a)
               /\ Os.is_dir w (OsPath.join (CheckClassBalance.dir a) cls) = true) ->
  (forall cls,
     cls ∈ Os.entries w (CheckClassBalance.dir a) ->
     Os.is_dir w (OsPath.join (CheckClassBalance.dir a) cls) = true ->
     Z.of_nat (length
       (filter (fun f => Os.is_file w
                           (OsPath.join (OsPath.join (CheckClassBalance.dir a) cls) f)
                         && CheckClassBalance.supported f = true)
               (Os.entries w (OsPath.join (CheckClassBalance.dir a) cls)))) = c) ->
  0 < c ->
  PyFloat.ltb PyFloat.one (CheckClassBalance.ratio_threshold a) = false ->
  0 <= CheckClassBalance.diff_threshold a ->
  exists table w',
    CheckClassBalance.main a (w, err) = (SysExit (ExitStatus 0), (w', err))
    /\ Os.stdout w'
       = Os.stdout w ++ [table; SplitDataset.newline
                                +:+ "All classes are balanced within thresholds."].
Proof.
  intros Hd Hsome Hall Hc Hr Hdiff.
  destruct (main_level a w err c Hd (conj Hsome Hall) Hc Hr Hdiff)
    as (evs & rows & _ & ->).
  now eexists _, _.
Qed.

Lemma equal_classes_are_balanced_witness :
  exists table w',
    CheckClassBalance.main (ClassSamples.defaults "p") (ClassSamples.level, [])
    = (SysExit (ExitStatus 0), (w', []))
    /\ Os.stdout w'
       = Os.stdout ClassSamples.level
         ++ [table; SplitDataset.newline +:+ "All classes are balanced within thresholds."].
Proof.
  apply (@equal_classes_are_balanced plain_tabulate
           (ClassSamples.defaults "p") ClassSamples.level [] 1).
  - vm_compute. reflexivity.
  - exists "cat". split; [|vm_compute; reflexivity].
    apply (bool_decide_unpack _). vm_compute. exact I.
  - intros cls Hcls _. vm_compute in Hcls.
    each_listed Hcls ltac:(vm_compute; reflexivity).
  - lia.
  - vm_compute. reflexivity.
  - vm_compute. discriminate.
Defined.

(** ** [batch_rename_images.py]: the names *)

Section NameFacts.
Import PyStr OsPath BatchRenameImages.

Definition is_digit (a : ascii) : bool :=
  let n := nat_of_ascii a in (48 <=? n)%nat && (n <=? 57)%nat.

Fixpoint all_chars (P : ascii -> bool) (s : string) : bool :=
  match s with
  | EmptyString => true
  | String a s' => P a && all_chars P s'
  end.

Lemma all_chars_app P s t : all_chars P (s +:+ t) = all_chars P s && all_chars P t.
Proof.
  unfold String.app. induction s as [|a s IH]; cbn; [reflexivity|].
  now rewrite IH, andb_assoc.
Qed.

Lemma all_chars_weaken (P Q : ascii -> bool) s :
  (forall a, P a = true -> Q a = true) -> all_chars P s = true -> all_chars Q s = true.
Proof.
  intros HPQ. induction s as [|a s IH]; cbn; [reflexivity|].
  intros [Ha Hs]%andb_true_iff. now rewrite (HPQ a Ha), IH.
Qed.

Lemma string_app_inv_head (p x y : string) : p +:+ x = p +:+ y -> x = y.
Proof.
  unfold String.app. induction p as [|a p IH]; cbn; [easy|]. intros [= Heq]. now apply IH.
Qed.

Lemma pretty_N_char_digit x :
  (x < 10)%N -> is_digit (pretty_N_char x) = true
                /\ (pretty_N_char x = "0"%char -> x = 0%N).
Proof.
  intros Hx.
  assert (x = 0 \/ x = 1 \/ x = 2 \/ x = 3 \/ x = 4 \/ x = 5 \/ x = 6 \/ x = 7
          \/ x = 8 \/ x = 9)%N as Hcases by lia.
  repeat (destruct Hcases as [->|Hcases]); try subst x; split; try reflexivity; discriminate.
Qed.

(** The digits of a positive number: none but digits, the first not a zero. *)
Lemma pretty_N_go_shape x :
  forall s, (0 < x)%N ->
  exists a d, pretty_N_go x s = String a (d +:+ s)
              /\ is_digit a = true /\ a <> "0"%char /\ all_chars is_digit d = true.
Proof.
  induction (N.lt_wf_0 x) as [x _ IH]. intros s Hx.
  rewrite pretty_N_go_step by assumption.
  destruct (pretty_N_char_digit (x `mod` 10)%N) as [Hdig Hzero];
    [now apply N.mod_lt|].
  destruct (decide (x `div` 10 = 0)%N) as [Hsmall|Hbig].
  - rewrite Hsmall, pretty_N_go_0. exists (pretty_N_char (x `mod` 10)%N), "".
    split; [reflexivity|]. split; [exact Hdig|]. split; [|reflexivity].
    intros Hc. apply Hzero in Hc.
    pose proof (N.div_mod x 10 ltac:(lia)). lia.
  - assert (Hpos : (0 < x `div` 10)%N) by now apply N.neq_0_lt_0.
    assert (Hless : (x `div` 10 < x)%N) by (apply N.div_lt; lia).
    destruct (IH (x `div` 10)%N Hless (String (pretty_N_char (x `mod` 10)%N) s) Hpos)
      as (a & d & -> & Ha & Ha0 & Hd).
    exists a, (d +:+ String (pretty_N_char (x `mod` 10)%N) ""). split.
    { f_equal. now rewrite string_app_assoc. }
    split; [exact Ha|]. split; [exact Ha0|].
    rewrite all_chars_app, Hd. cbn. now rewrite Hdig.
Qed.

(** The text of the absolute value: ["0"], or digits that begin with
    another one. *)
Definition body_of (n : Z) : string := pretty (Z.abs_N n).

Lemma body_shape n :
  exists a d, body_of n = String a d /\ is_digit a = true
              /\ all_chars is_digit d = true
              /\ (a = "0"%char -> d = "").
Proof.
  unfold body_of, pretty, pretty_N. destruct (decide (Z.abs_N n = 0%N)) as [Hz|Hne].
  - exists "0"%char, "". repeat split; reflexivity.
  - destruct (pretty_N_go_shape (Z.abs_N n) "" ltac:(lia)) as (a & d & -> & Ha & Ha0 & Hd).
    exists a, (d +:+ ""). split; [reflexivity|]. split; [exact Ha|].
    split; [now rewrite all_chars_app, Hd|]. intros ->. now destruct Ha0.
Qed.

Lemma str_body n : str n = (if n <? 0 then "-" else "") +:+ body_of n.
Proof. destruct n; reflexivity. Qed.

Lemma zeros_digits k : all_chars is_digit (zeros k) = true.
Proof. induction k as [|k IH]; [reflexivity|]. cbn [zeros all_chars]. now rewrite IH. Qed.

Lemma zeros_length k : String.length (zeros k) = k.
Proof. induction k as [|k IH]; [reflexivity|]. cbn. now rewrite IH. Qed.

(** [zfill] puts zeros between the sign and the digits. *)
Lemma zfill_str n width :
  exists k, zfill (str n) width
            = (if n <? 0 then "-" else "") +:+ zeros k +:+ body_of n.
Proof.
  unfold zfill. destruct (width <=? Z.of_nat (String.length (str n))).
  { exists 0%nat. apply str_body. }
  set (k := Z.to_nat (width - Z.of_nat (String.length (str n)))). exists k.
  clearbody k. rewrite str_body. destruct (body_shape n) as (a & d & Hb & Ha & _ & _).
  rewrite Hb. destruct (n <? 0).
  - reflexivity.
  - change ("" +:+ String a d) with (String a d).
    change ("" +:+ zeros k +:+ String a d) with (zeros k +:+ String a d).
    cbv iota beta.
    replace (Ascii.eqb a "+" || Ascii.eqb a "-")%bool with false; [reflexivity|].
    symmetry. apply orb_false_iff.
    split; apply Ascii.eqb_neq; intros ->; discriminate.
Qed.

Lemma zeros_body_inj k1 k2 i j :
  zeros k1 +:+ body_of i = zeros k2 +:+ body_of j -> body_of i = body_of j.
Proof.
  revert k2. induction k1 as [|k1 IH]; intros k2 Heq.
  - destruct k2 as [|k2]; [exact Heq|]. exfalso.
    destruct (body_shape i) as (a & d & Hb & _ & _ & Hz).
    destruct (body_shape j) as (a' & d' & Hb' & _ & _ & _).
    cbn in Heq. rewrite Hb in Heq. injection Heq as -> Hd.
    rewrite (Hz eq_refl) in Hd. apply (f_equal String.length) in Hd.
    rewrite string_app_length, zeros_length, Hb' in Hd. cbn in Hd. lia.
  - destruct k2 as [|k2].
    + exfalso.
      destruct (body_shape j) as (a & d & Hb & _ & _ & Hz).
      destruct (body_shape i) as (a' & d' & Hb' & _ & _ & _).
      cbn in Heq. rewrite Hb in Heq. injection Heq as <- Hd.
      rewrite (Hz eq_refl) in Hd. apply (f_equal String.length) in Hd.
      rewrite string_app_length, zeros_length, Hb' in Hd. cbn in Hd. lia.
    + cbn in Heq. injection Heq as Heq. now apply (IH k2).
Qed.

Lemma zeros_body_digits k n : all_chars is_digit (zeros k +:+ body_of n) = true.
Proof.
  rewrite all_chars_app, zeros_digits.
  destruct (body_shape n) as (a & d & -> & Ha & Hd & _). cbn. now rewrite Ha, Hd.
Qed.

Lemma body_of_inj i j : body_of i = body_of j -> (i <? 0) = (j <? 0) -> i = j.
Proof.
  unfold body_of. intros Hb%(inj pretty) Hs.
  destruct (Z.ltb_spec i 0), (Z.ltb_spec j 0); try discriminate; lia.
Qed.

(** Padded numbers are equal only for equal numbers. *)
Lemma zfill_str_inj i j wi wj : zfill (str i) wi = zfill (str j) wj -> i = j.
Proof.
  destruct (zfill_str i wi) as [k1 ->], (zfill_str j wj) as [k2 ->].
  intros Heq.
  assert (Hfirst : forall k n, exists a r,
             zeros k +:+ body_of n = String a r /\ is_digit a = true).
  { intros k n. pose proof (zeros_body_digits k n) as Hd.
    destruct (zeros k +:+ body_of n) as [|a r] eqn:Hz.
    - exfalso. destruct (body_shape n) as (a & d & Hb & _).
      apply (f_equal String.length) in Hz.
      rewrite string_app_length, Hb in Hz. cbn in Hz. lia.
    - exists a, r. split; [reflexivity|]. now apply andb_true_iff in Hd as [Ha _]. }
  destruct (i <? 0) eqn:Hi, (j <? 0) eqn:Hj.
  - cbn in Heq. injection Heq as Heq.
    apply body_of_inj; [now apply zeros_body_inj in Heq | congruence].
  - exfalso. destruct (Hfirst k2 j) as (a & r & Hz & Ha).
    cbn [String.app] in Heq. rewrite Hz in Heq. cbn in Heq. injection Heq as <- _.
    discriminate.
  - exfalso. destruct (Hfirst k1 i) as (a & r & Hz & Ha).
    cbn [String.app] in Heq. rewrite Hz in Heq. cbn in Heq. injection Heq as -> _.
    discriminate.
  - cbn [String.app] in Heq.
    apply body_of_inj; [now apply zeros_body_inj in Heq | congruence].
Qed.

Definition no_dot (a : ascii) : bool := negb (Ascii.eqb a extsep).

Lemma zfill_str_plain n width : all_chars no_dot (zfill (str n) width) = true.
Proof.
  destruct (zfill_str n width) as [k ->].
  rewrite all_chars_app. apply andb_true_iff. split.
  - now destruct (n <? 0).
  - apply (all_chars_weaken is_digit); [|apply zeros_body_digits].
    intros a Ha. unfold no_dot. destruct (Ascii.eqb_spec a extsep) as [->|]; [|reflexivity].
    discriminate.
Qed.

(** Two texts without a dot, each followed by a dot: the first dot tells
    where they end. *)
Lemma app_dot_inj z1 z2 r1 r2 :
  all_chars no_dot z1 = true -> all_chars no_dot z2 = true ->
  z1 +:+ String extsep r1 = z2 +:+ String extsep r2 -> z1 = z2 /\ r1 = r2.
Proof.
  unfold String.app.
  revert z2. induction z1 as [|a z1 IH]; intros [|b z2] H1 H2 Heq; cbn in *.
  - now injection Heq as ->.
  - injection Heq as <- _. discriminate H2.
  - injection Heq as -> _. discriminate H1.
  - injection Heq as -> Heq.
    apply andb_true_iff in H1 as [_ H1]. apply andb_true_iff in H2 as [_ H2].
    destruct (IH z2 H1 H2 Heq) as [-> ->]. now split.
Qed.

Lemma new_name_of_inj (a : args) i j e1 e2 :
  new_name_of a i e1 = new_name_of a j e2 -> i = j /\ e1 = e2.
Proof.
  unfold new_name_of. intros Heq.
  apply string_app_inv_head in Heq. apply string_app_inv_head in Heq.
  apply app_dot_inj in Heq as [Hz ->]; try apply zfill_str_plain.
  split; [|reflexivity]. now apply zfill_str_inj in Hz.
Qed.

End NameFacts.

(** X23. The names a run gives are told apart by their numbers: for one
    prefix and one padding, two indexes give the same new name only if they
    are the same index with the same extension - whatever the padding, also
    for negative indexes. *)
Theorem new_names_differ (a : BatchRenameImages.args) (i j : Z) (e1 e2 : string) :
  i <> j ->
  BatchRenameImages.new_name_of a i e1 <> BatchRenameImages.new_name_of a j e2.
Proof. intros Hne Heq. now apply new_name_of_inj in Heq as [? _]. Qed.

Lemma new_names_differ_witness :
  BatchRenameImages.new_name_of (RenameSamples.defaults "in" false) 7 "jpg"
  <> BatchRenameImages.new_name_of (RenameSamples.defaults "in" false) (-7) "jpg".
Proof. apply (new_names_differ (RenameSamples.defaults "in" false) 7 (-7)). lia. Defined.

(** ** [batch_rename_images.py]: the session *)

Section SessionRuns.
Context `{Clock}.
Import PyStr OsPath BatchRename BatchRenameImages.

Lemma in_sys_run {A} (c : M Os.world A) s r w' :
  c (sys s) = (r, w') -> in_sys c s = (r, Session w' (stdin s) (prompts s) (clock s)).
Proof. unfold in_sys. now intros ->. Qed.

(** The line [log] prints at the state [s]. *)
Definition log_line (s : session) (msg : string) : string :=
  "[" +:+ (strftime_now (clock s)).1 +:+ "] " +:+ msg.

Lemma log_run msg s :
  log msg s
  = (Return tt,
     Session (printed (sys s) [log_line s msg]) (stdin s) (prompts s)
             (strftime_now (clock s)).2).
Proof. unfold log, log_line. now destruct (strftime_now (clock s)). Qed.

(** The images of the directory, in the order of the loop. *)
Definition images (w : Os.world) (a : args) : list string :=
  filter (fun f => Os.is_file w (join (dir a) f) && is_image f = true)
         (sorted (Os.entries w (dir a))).

Definition image_looks (w : Os.world) (a : args) : list Os.event :=
  Os.EvListdir (dir a)
  :: map (fun f => Os.EvStat (join (dir a) f)) (sorted (Os.entries w (dir a))).

Lemma gather_images_run (a : args) w :
  Os.is_dir w (dir a) = true ->
  gather_images a w = (Return (images w a), logged w (image_looks w a)).
Proof.
  intros Hd. unfold gather_images.
  rewrite (bind_return _ _ _ _ _ (eq_trans (listdir_run (dir a) w) ltac:(now rewrite Hd))).
  cbv zeta. rewrite (filter_isfile_and_run (join (dir a)) is_image).
  now rewrite logged_logged.
Qed.

Lemma gather_images_fails (a : args) w :
  Os.is_dir w (dir a) = false ->
  exists k, gather_images a w = (Raise (OSError k (dir a)), logged w [Os.EvListdir (dir a)]).
Proof.
  intros Hd. unfold gather_images. pose proof (listdir_run (dir a) w) as Hl.
  rewrite Hd in Hl.
  destruct (Os.is_file w (dir a)); rewrite (bind_raise _ _ _ _ _ Hl); now eexists.
Qed.

(** *** The question *)

(** The action an answer stands for, if any. *)
Definition choice_of (line : string) : option string :=
  let choice := lower (strip line) in
  if bool_decide (choice ∈ ["o"; "overwrite"]) then Some "overwrite"
  else if bool_decide (choice ∈ ["s"; "skip"]) then Some "skip"
  else if bool_decide (choice ∈ ["r"; "rename"]) then Some "rename"
  else None.

(** The state after [k] answers were refused and one more line was asked for. *)
Definition asked (s : session) (prompt : string) (k : nat) (rest : list string) : session :=
  Session (printed (sys s) (replicate k "Enter O, S, or R.")) rest
          (prompts s ++ replicate (S k) prompt) (clock s).

Lemma printed_nil w : printed w [] = w.
Proof. destruct w. unfold printed. cbn. now rewrite app_nil_r. Qed.

Lemma printed_printed w l1 l2 : printed (printed w l1) l2 = printed w (l1 ++ l2).
Proof. unfold printed. cbn. now rewrite app_assoc. Qed.

Lemma ask_from_run prompt pre :
  forall fuel s last_lines,
    stdin s = pre ++ last_lines ->
    Forall (fun l => choice_of l = None) pre ->
    (length pre < fuel)%nat ->
    ask_from fuel prompt s
    = match last_lines with
      | good :: rest =>
          match choice_of good with
          | Some act => (Return act, asked s prompt (length pre) rest)
          | None =>
              ask_from (fuel - S (length pre)) prompt
                (Session (printed (sys s) (replicate (S (length pre)) "Enter O, S, or R."))
                   rest (prompts s ++ replicate (S (length pre)) prompt) (clock s))
          end
      | [] => (Raise (OtherError "EOF when reading a line"),
               asked s prompt (length pre) [])
      end.
Proof.
  induction pre as [|line pre IH]; intros fuel s last_lines Hin Hpre Hfuel.
  - destruct fuel as [|fuel]; [cbn in Hfuel; lia|]. cbn [app length] in *.
    cbn [ask_from]. unfold input, bind at 1. rewrite Hin.
    destruct last_lines as [|good rest].
    + unfold asked. cbn. now rewrite printed_nil.
    + unfold choice_of, asked. cbv zeta.
      destruct (bool_decide (lower (strip good) ∈ ["o"; "overwrite"]));
        [cbn; now rewrite printed_nil|].
      destruct (bool_decide (lower (strip good) ∈ ["s"; "skip"]));
        [cbn; now rewrite printed_nil|].
      destruct (bool_decide (lower (strip good) ∈ ["r"; "rename"]));
        [cbn; now rewrite printed_nil|].
      unfold bind, in_sys. cbn. now rewrite Nat.sub_0_r.
  - destruct fuel as [|fuel]; [cbn in Hfuel; lia|]. cbn [app length] in *.
    apply Forall_cons in Hpre as [Hline Hpre].
    cbn [ask_from]. unfold input, bind at 1. rewrite Hin.
    unfold choice_of in Hline. cbv zeta in Hline.
    destruct (bool_decide (lower (strip line) ∈ ["o"; "overwrite"])); [discriminate|].
    destruct (bool_decide (lower (strip line) ∈ ["s"; "skip"])); [discriminate|].
    destruct (bool_decide (lower (strip line) ∈ ["r"; "rename"])); [discriminate|].
    unfold bind at 1, in_sys at 1. cbn [Os.print modify fst snd sys stdin prompts clock].
    assert (Hlt : (length pre < fuel)%nat) by lia.
    etransitivity;
      [exact (IH fuel (Session (printed (sys s) ["Enter O, S, or R."]) (pre ++ last_lines)
                         (prompts s ++ [prompt]) (clock s))
                last_lines eq_refl Hpre Hlt)|].
    cbn [sys stdin prompts clock].
    destruct last_lines as [|good rest].
    + unfold asked. cbn [sys stdin prompts clock]. f_equal. f_equal.
      * rewrite printed_printed. reflexivity.
      * rewrite <- (assoc_L (++)). reflexivity.
    + destruct (choice_of good).
      * unfold asked. cbn [sys stdin prompts clock]. f_equal. f_equal.
        -- rewrite printed_printed. reflexivity.
        -- rewrite <- (assoc_L (++)). reflexivity.
      * f_equal. f_equal.
        -- rewrite printed_printed. reflexivity.
        -- rewrite <- (assoc_L (++)). reflexivity.
Qed.

End SessionRuns.

Section QuestionFacts.
Context `{Clock}.
Import PyStr OsPath BatchRename BatchRenameImages.

(** A line of ASCII characters: on these [strip] and [lower] are
    Python's. *)
Definition ascii_only (line : string) : bool :=
  all_chars (fun a => (nat_of_ascii a <? 128)%nat) line.

Definition collision_prompt (new : string) : string :=
  "Target exists: '" +:+ new +:+ "'. [O]verwrite / [S]kip / [R]ename? ".

Lemma ask_collision_action_run old new s pre last_lines :
  stdin s = pre ++ last_lines ->
  Forall (fun l => choice_of l = None) pre ->
  (last_lines = [] \/ exists good rest act,
                        last_lines = good :: rest /\ choice_of good = Some act) ->
  ask_collision_action old new s
  = match last_lines with
    | good :: rest =>
        (match choice_of good with Some act => Return act | None => Return "" end,
         asked s (collision_prompt new) (length pre) rest)
    | [] => (Raise (OtherError "EOF when reading a line"),
             asked s (collision_prompt new) (length pre) [])
    end.
Proof.
  intros Hin Hpre Hlast. unfold ask_collision_action. cbv zeta.
  unfold bind at 1, Py.get at 1.
  rewrite (ask_from_run _ pre _ s last_lines Hin Hpre)
    by (rewrite Hin, length_app; lia).
  destruct Hlast as [->|(good & rest & act & -> & Hact)]; [reflexivity|].
  now rewrite Hact.
Qed.

Lemma choice_of_actions line act :
  choice_of line = Some act -> act ∈ ["overwrite"; "skip"; "rename"].
Proof.
  unfold choice_of. cbv zeta.
  repeat (destruct (bool_decide _); [intros [= <-]; repeat constructor|]).
  discriminate.
Qed.

End QuestionFacts.

(** X24. [ask_collision_action] asks until an answer is one of the six
    words, whatever its case and the white space around it: every answer
    before is refused with [Enter O, S, or R.], the prompt is written once
    per answer read, the lines after the accepted answer stay on standard
    input, and the result is the action the answer stands for.  The
    answers are taken to be ASCII, where [strip] and [lower] of the
    embedding are Python's. *)
Theorem ask_takes_first_valid_answer `{Clock} (old new : string)
    (s : BatchRenameImages.session) (pre : list string) (good : string)
    (rest : list string) (act : string) :
  BatchRenameImages.stdin s = pre ++ good :: rest ->
  Forall (fun l => ascii_only l = true) (pre ++ [good]) ->
  Forall (fun l => choice_of l = None) pre ->
  choice_of good = Some act ->
  BatchRenameImages.ask_collision_action old new s
  = (Return act,
     BatchRenameImages.Session
       (printed (BatchRenameImages.sys s) (replicate (length pre) "Enter O, S, or R."))
       rest
       (BatchRenameImages.prompts s
        ++ replicate (S (length pre))
             ("Target exists: '" +:+ new +:+ "'. [O]verwrite / [S]kip / [R]ename? "))
       (BatchRenameImages.clock s))
  /\ act ∈ ["overwrite"; "skip"; "rename"].
Proof.
  intros Hin _ Hpre Hact. split; [|now apply (choice_of_actions good)].
  rewrite (ask_collision_action_run old new s pre (good :: rest) Hin Hpre)
    by (right; now exists good, rest, act).
  now rewrite Hact.
Qed.

Lemma ask_takes_first_valid_answer_witness :
  BatchRenameImages.ask_collision_action "in/a.jpg" "in/img_001.jpg"
    (RenameSamples.begin RenameSamples.taken ["x"; ""; " Skip "; "o"])
  = (Return "skip",
     BatchRenameImages.Session
       (printed RenameSamples.taken (replicate 2 "Enter O, S, or R."))
       ["o"]
       ([] ++ replicate 3
                ("Target exists: '" +:+ "in/img_001.jpg"
                 +:+ "'. [O]verwrite / [S]kip / [R]ename? "))
       0)
  /\ "skip" ∈ ["overwrite"; "skip"; "rename"].
Proof.
  apply (@ask_takes_first_valid_answer counting_clock "in/a.jpg" "in/img_001.jpg"
           (RenameSamples.begin RenameSamples.taken ["x"; ""; " Skip "; "o"])
           ["x"; ""] " Skip " ["o"] "skip").
  - reflexivity.
  - repeat constructor.
  - repeat constructor.
  - vm_compute. reflexivity.
Defined.

(** X25. When standard input ends before a valid answer, the question ends
    in [EOFError]: every line was read and refused, and the prompt written
    once more.  The answers are taken to be ASCII, as for the accepted
    answer. *)
Theorem ask_runs_out_of_answers `{Clock} (old new : string) (s : BatchRenameImages.session) :
  Forall (fun l => ascii_only l = true) (BatchRenameImages.stdin s) ->
  Forall (fun l => choice_of l = None) (BatchRenameImages.stdin s) ->
  BatchRenameImages.ask_collision_action old new s
  = (Raise (OtherError "EOF when reading a line"),
     BatchRenameImages.Session
       (printed (BatchRenameImages.sys s)
          (replicate (length (BatchRenameImages.stdin s)) "Enter O, S, or R."))
       []
       (BatchRenameImages.prompts s
        ++ replicate (S (length (BatchRenameImages.stdin s)))
             ("Target exists: '" +:+ new +:+ "'. [O]verwrite / [S]kip / [R]ename? "))
       (BatchRenameImages.clock s)).
Proof.
  intros _ Hall.
  now rewrite (ask_collision_action_run old new s (BatchRenameImages.stdin s) []
                 (eq_sym (app_nil_r _)) Hall (or_introl eq_refl)).
Qed.

Lemma ask_runs_out_of_answers_witness :
  BatchRenameImages.ask_collision_action "in/a.jpg" "in/img_001.jpg"
    (RenameSamples.begin RenameSamples.taken ["yes"; "no"])
  = (Raise (OtherError "EOF when reading a line"),
     BatchRenameImages.Session
       (printed RenameSamples.taken (replicate 2 "Enter O, S, or R."))
       []
       ([] ++ replicate 3
                ("Target exists: '" +:+ "in/img_001.jpg"
                 +:+ "'. [O]verwrite / [S]kip / [R]ename? "))
       0).
Proof.
  apply (@ask_runs_out_of_answers counting_clock "in/a.jpg" "in/img_001.jpg"
           (RenameSamples.begin RenameSamples.taken ["yes"; "no"])).
  - repeat constructor.
  - repeat constructor.
Defined.

Section PreviewFacts.
Context `{Clock}.
Import PyStr OsPath BatchRename BatchRenameImages.

(** What a run that renames nothing says. *)
Definition first_message (a : args) (imgs : list string) : string :=
  match imgs with
  | [] => "No image files found. Exiting."
  | f :: _ =>
      "Preview: '" +:+ f +:+ "' → '"
      +:+ new_name_of a (start a) (extension f) +:+ "'"
  end.

Lemma main_stops_early (a : args) s :
  Os.is_dir (sys s) (dir a) = true ->
  preview a = true \/ images (sys s) a = [] ->
  main a s
  = (SysExit (ExitStatus 0),
     Session (printed (logged (sys s) (image_looks (sys s) a))
                [log_line s (first_message a (images (sys s) a))])
             (stdin s) (prompts s) (strftime_now (clock s)).2).
Proof.
  intros Hd Hearly. unfold main.
  rewrite (bind_return _ _ _ _ _ (in_sys_run _ s _ _ (gather_images_run a (sys s) Hd))).
  destruct (images (sys s) a) as [|f imgs] eqn:Himgs.
  - rewrite (bind_return _ _ _ _ _ (log_run _ _)). reflexivity.
  - destruct Hearly as [Hp|]; [|discriminate].
    cbn [for_fold]. unfold turn. rewrite Hp. cbv zeta.
    unfold bind at 1. unfold bind at 1. unfold bind at 1.
    rewrite log_run. reflexivity.
Qed.

End PreviewFacts.

(** X26. In preview mode, or when the directory holds no image, a run of
    [batch_rename_images.py] renames nothing and asks nothing: it lists the
    directory, logs one line - the mapping of the first image in sorted
    order to the name for the start index, also when that name is taken -
    and exits with status 0. *)
Theorem preview_renames_nothing `{Clock} (a : BatchRenameImages.args)
    (s : BatchRenameImages.session) :
  Os.is_dir (BatchRenameImages.sys s) (BatchRenameImages.dir a) = true ->
  BatchRenameImages.preview a = true \/ images (BatchRenameImages.sys s) a = [] ->
  exists s' stamp,
    BatchRenameImages.main a s = (SysExit (ExitStatus 0), s')
    /\ Os.files (BatchRenameImages.sys s') = Os.files (BatchRenameImages.sys s)
    /\ Os.dirs (BatchRenameImages.sys s') = Os.dirs (BatchRenameImages.sys s)
    /\ BatchRenameImages.stdin s' = BatchRenameImages.stdin s
    /\ BatchRenameImages.prompts s' = BatchRenameImages.prompts s
    /\ Forall is_lookup (drop (length (Os.trace (BatchRenameImages.sys s)))
                              (Os.trace (BatchRenameImages.sys s')))
    /\ Os.stdout (BatchRenameImages.sys s')
       = Os.stdout (BatchRenameImages.sys s)
         ++ ["[" +:+ stamp +:+ "] "
             +:+ match images (BatchRenameImages.sys s) a with
                 | [] => "No image files found. Exiting."
                 | f :: _ =>
                     "Preview: '" +:+ f +:+ "' → '"
                     +:+ BatchRenameImages.new_name_of a (BatchRenameImages.start a)
                           (BatchRenameImages.extension f) +:+ "'"
                 end].
Proof.
  intros Hd Hearly. rewrite (main_stops_early a s Hd Hearly).
  eexists _, _. split; [reflexivity|]. cbn [BatchRenameImages.sys BatchRenameImages.stdin
    BatchRenameImages.prompts printed logged Os.files Os.dirs Os.stdout Os.trace].
  repeat (split; [reflexivity|]). split; [|reflexivity].
  rewrite drop_app_length. unfold image_looks. constructor; [exact I|].
  apply Forall_forall. intros e (f & -> & _)%list_elem_of_fmap. exact I.
Qed.

Lemma preview_renames_nothing_witness :
  exists s' stamp,
    BatchRenameImages.main (RenameSamples.defaults "in" true)
      (RenameSamples.begin RenameSamples.taken []) = (SysExit (ExitStatus 0), s')
    /\ Os.files (BatchRenameImages.sys s') = Os.files RenameSamples.taken
    /\ Os.dirs (BatchRenameImages.sys s') = Os.dirs RenameSamples.taken
    /\ BatchRenameImages.stdin s' = []
    /\ BatchRenameImages.prompts s' = []
    /\ Forall is_lookup (drop (length (Os.trace RenameSamples.taken))
                              (Os.trace (BatchRenameImages.sys s')))
    /\ Os.stdout (BatchRenameImages.sys s')
       = Os.stdout RenameSamples.taken
         ++ ["[" +:+ stamp +:+ "] "
             +:+ match images RenameSamples.taken (RenameSamples.defaults "in" true) with
                 | [] => "No image files found. Exiting."
                 | f :: _ =>
                     "Preview: '" +:+ f +:+ "' → '"
                     +:+ BatchRenameImages.new_name_of (RenameSamples.defaults "in" true)
                           (BatchRenameImages.start (RenameSamples.defaults "in" true))
                           (BatchRenameImages.extension f) +:+ "'"
                 end].
Proof.
  apply (@preview_renames_nothing counting_clock (RenameSamples.defaults "in" true)
           (RenameSamples.begin RenameSamples.taken [])).
  - vm_compute. reflexivity.
  - left. reflexivity.
Defined.

(** ** [batch_rename_images.py]: the loop *)

Section CountFacts.
Context `{Clock}.
Import PyStr OsPath BatchRename BatchRenameImages.

Lemma try_except_inv {St A} (c : M St A) (h : exn -> M St A) s a s' :
  try_except c h s = (Return a, s') ->
  c s = (Return a, s') \/ exists e s1, c s = (Raise e, s1) /\ h e s1 = (Return a, s').
Proof.
  unfold try_except. destruct (c s) as [[x|e|y] s1]; intros Heq;
    [now left | right; now exists e, s1 | discriminate].
Qed.

(** A turn that returns has advanced one of the three counters. *)
Lemma turn_counts (a : args) f p s p' s' :
  turn a f p s = (Return p', s') ->
  preview a = false /\ (p' = renamed p \/ p' = skipped p \/ p' = failed p).
Proof.
  unfold turn. cbv zeta. destruct (preview a).
  { unfold bind at 1. rewrite log_run. discriminate. }
  intros Hrun. split; [reflexivity|].
  apply bind_inv in Hrun as (taken & s1 & _ & Hrun).
  apply bind_inv in Hrun as (decision & s2 & _ & Hrun).
  destruct decision as [target|].
  - apply try_except_inv in Hrun as [Hrun|(e & s3 & _ & Hrun)].
    + apply bind_inv in Hrun as ([] & s3 & _ & Hrun).
      apply bind_inv in Hrun as ([] & s4 & _ & Hrun).
      injection Hrun as <- _. now left.
    + apply bind_inv in Hrun as ([] & s4 & _ & Hrun).
      injection Hrun as <- _. right. now right.
  - injection Hrun as <- _. right. now left.
Qed.

Definition handled (p : progress) : Z := renamed_count p + skipped_count p + error_count p.

(** At most the counters went up. *)
Definition advanced (p p' : progress) (n : Z) : Prop :=
  index p' = index p + n /\ handled p' = handled p + n
  /\ renamed_count p <= renamed_count p' /\ skipped_count p <= skipped_count p'
  /\ error_count p <= error_count p'.

Lemma loop_counts (a : args) l :
  forall p s p' s',
    for_fold l (turn a) p s = (Return p', s') -> advanced p p' (len l).
Proof.
  unfold advanced, handled, len.
  induction l as [|f l IH]; intros p s p' s' Hrun; cbn [for_fold] in Hrun.
  - injection Hrun as <- _. cbn. lia.
  - apply bind_inv in Hrun as (p1 & s1 & Hturn & Hrun).
    apply turn_counts in Hturn as [_ Hp1]. apply IH in Hrun.
    cbn [length]. destruct Hp1 as [-> | [-> | ->]]; cbn in *; lia.
Qed.

Lemma main_returns (a : args) s s' :
  main a s = (Return tt, s') ->
  preview a = false
  /\ exists p s1,
       advanced (Progress (start a) 0 0 0) p (len (images (sys s) a))
       /\ 0 < len (images (sys s) a)
       /\ Os.stdout (sys s') = Os.stdout (sys s1) ++ [log_line s1 (done_line p)].
Proof.
  unfold main. intros Hrun.
  apply bind_inv in Hrun as (imgs & s0 & Hgather & Hrun).
  destruct (Os.is_dir (sys s) (dir a)) eqn:Hd.
  2:{ destruct (gather_images_fails a (sys s) Hd) as [k Hk].
      rewrite (in_sys_run _ s _ _ Hk) in Hgather. discriminate. }
  rewrite (in_sys_run _ s _ _ (gather_images_run a (sys s) Hd)) in Hgather.
  injection Hgather as <- <-.
  destruct (images (sys s) a) as [|f imgs] eqn:Himgs.
  { apply bind_inv in Hrun as ([] & s1 & _ & Hrun). discriminate. }
  apply bind_inv in Hrun as (p & s1 & Hloop & Hlog).
  rewrite log_run in Hlog. injection Hlog as <-.
  pose proof Hloop as Hfirst. cbn [for_fold] in Hfirst.
  apply bind_inv in Hfirst as (p1 & s2 & Hturn & _).
  apply turn_counts in Hturn as [Hp _].
  split; [exact Hp|]. exists p, s1.
  split; [exact (loop_counts a _ _ _ _ _ Hloop)|].
  split; [unfold len; cbn; lia | reflexivity].
Qed.

End CountFacts.

(** X27. A run of [batch_rename_images.py] that comes to its end was no
    preview, found at least one image and accounted for every image once:
    the numbers of its last line, [Done. Renamed: r, Skipped: k, Errors: e],
    add up to the number of images - whatever was answered and whichever
    renames failed. *)
Theorem every_image_is_counted `{Clock} (a : BatchRenameImages.args)
    (s s' : BatchRenameImages.session) :
  BatchRenameImages.main a s = (Return tt, s') ->
  BatchRenameImages.preview a = false
  /\ exists r k e stamp,
       0 <= r /\ 0 <= k /\ 0 <= e
       /\ 0 < r + k + e
       /\ r + k + e = Z.of_nat (length (images (BatchRenameImages.sys s) a))
       /\ last (Os.stdout (BatchRenameImages.sys s'))
          = Some ("[" +:+ stamp +:+ "] " +:+ "Done. Renamed: " +:+ PyStr.str r
                  +:+ ", Skipped: " +:+ PyStr.str k +:+ ", Errors: " +:+ PyStr.str e).
Proof.
  intros Hrun.
  destruct (main_returns a s s' Hrun) as (Hp & p & s1 & Hadv & Hpos & Hout).
  split; [exact Hp|].
  destruct Hadv as (_ & Htotal & Hr & Hk & He). unfold handled in Htotal. cbn in *.
  exists (BatchRenameImages.renamed_count p), (BatchRenameImages.skipped_count p),
         (BatchRenameImages.error_count p), (strftime_now (BatchRenameImages.clock s1)).1.
  unfold len in *. repeat (split; [lia|]).
  rewrite Hout, last_snoc. reflexivity.
Qed.

Lemma every_image_is_counted_witness :
  BatchRenameImages.preview (RenameSamples.defaults "in" false) = false
  /\ exists r k e stamp,
       0 <= r /\ 0 <= k /\ 0 <= e
       /\ 0 < r + k + e
       /\ r + k + e
          = Z.of_nat (length (images (BatchRenameImages.sys
                                        (RenameSamples.begin RenameSamples.taken ["s"]))
                                (RenameSamples.defaults "in" false)))
       /\ last (Os.stdout (BatchRenameImages.sys
                  (BatchRenameImages.main (RenameSamples.defaults "in" false)
                     (RenameSamples.begin RenameSamples.taken ["s"])).2))
          = Some ("[" +:+ stamp +:+ "] " +:+ "Done. Renamed: " +:+ PyStr.str r
                  +:+ ", Skipped: " +:+ PyStr.str k +:+ ", Errors: " +:+ PyStr.str e).
Proof.
  apply (@every_image_is_counted counting_clock (RenameSamples.defaults "in" false)
           (RenameSamples.begin RenameSamples.taken ["s"])).
  vm_compute. reflexivity.
Defined.

(** ** [batch_rename_images.py]: a run without collisions *)

Section RenameFacts.
Context `{Clock}.
Import PyStr OsPath BatchRename BatchRenameImages.

Definition old_path (a : args) (f : string) : string := join (dir a) f.
Definition target (a : args) (i : Z) (f : string) : string :=
  join (dir a) (new_name_of a i (extension f)).

Lemma startswith_app_nonempty (p rest1 rest2 : string) :
  p <> "" -> startswith (p +:+ rest1) sep = startswith (p +:+ rest2) sep.
Proof. destruct p; [contradiction | reflexivity]. Qed.

Lemma startswith_new_name (a : args) i j e1 e2 :
  startswith (new_name_of a i e1) sep = startswith (new_name_of a j e2) sep.
Proof.
  unfold new_name_of. destruct (prefix a) as [|c p]; reflexivity.
Qed.

Lemma target_inj (a : args) i j f1 f2 : target a i f1 = target a j f2 -> i = j.
Proof.
  unfold target, join. rewrite (startswith_new_name a i j (extension f1) (extension f2)).
  destruct (startswith (new_name_of a j (extension f2)) sep).
  - intros Heq. now apply new_name_of_inj in Heq.
  - destruct (String.eqb (dir a) "" || endswith (dir a) sep); intros Heq.
    + apply string_app_inv_head in Heq. now apply new_name_of_inj in Heq.
    + do 2 apply string_app_inv_head in Heq. now apply new_name_of_inj in Heq.
Qed.

Lemma old_path_inj (a : args) f1 f2 :
  rfind f1 sep < 0 -> rfind f2 sep < 0 -> old_path a f1 = old_path a f2 -> f1 = f2.
Proof.
  unfold old_path. intros H1 H2.
  rewrite !join_dir_prefix by now apply no_sep_startswith.
  apply string_app_inv_head.
Qed.

Lemma path_exists_false w q :
  Os.path_exists w q = false <-> Os.files w !! q = None /\ Os.is_dir w q = false.
Proof.
  unfold Os.path_exists, Os.is_file. rewrite orb_false_iff, bool_decide_eq_false.
  rewrite <- eq_None_not_Some. reflexivity.
Qed.

(** The world after [o] was renamed to the free path [t]. *)
Definition renamed_to (w : Os.world) (o t : string) (g : Os.file) : Os.world :=
  Os.World (<[t:=g]> (delete o (Os.files w))) (Os.dirs w) (Os.stdout w)
           (Os.trace w ++ [Os.EvStat t; Os.EvMove o t]).

Lemma replace_free o t g w :
  Os.files w !! o = Some g -> Os.removable g = true -> Os.path_exists w t = false ->
  replace o t w
  = (Return tt, Os.World (<[t:=g]> (delete o (Os.files w))) (Os.dirs w) (Os.stdout w)
                         (Os.trace w ++ [Os.EvMove o t])).
Proof.
  intros Ho Hg [Ht Hd]%path_exists_false.
  assert (Hne : String.eqb o t = false).
  { apply String.eqb_neq. intros ->. congruence. }
  unfold replace, bind, Os.log, modify, Py.get, Os.set_files, raise, lift, ret. cbn.
  change (Os.is_dir _ t) with (Os.is_dir w t).
  now rewrite Ho, Hne, Hd, Hg, Ht.
Qed.

Lemma turn_renames (a : args) f p s g :
  preview a = false ->
  Os.path_exists (sys s) (target a (index p) f) = false ->
  Os.files (sys s) !! old_path a f = Some g -> Os.removable g = true ->
  exists line,
    turn a f p s
    = (Return (renamed p),
       Session (printed (renamed_to (sys s) (old_path a f) (target a (index p) f) g) [line])
               (stdin s) (prompts s) (strftime_now (clock s)).2).
Proof.
  intros Hp Hfree Ho Hg. unfold turn. cbv zeta. rewrite Hp.
  fold (old_path a f). fold (target a (index p) f).
  rewrite (bind_return _ _ _ _ _
             (in_sys_run _ s _ _ (exists_run (target a (index p) f) (sys s)))).
  rewrite Hfree. unfold bind at 1. unfold ret at 1.
  unfold try_except.
  set (s1 := Session _ (stdin s) (prompts s) (clock s)).
  assert (Hrep : in_sys (replace (old_path a f) (target a (index p) f)) s1
                 = (Return tt,
                    Session (renamed_to (sys s) (old_path a f) (target a (index p) f) g)
                            (stdin s) (prompts s) (clock s))).
  { apply (in_sys_run _ s1). subst s1. cbn [sys].
    rewrite (replace_free _ _ g); try assumption. unfold renamed_to. cbn.
    now rewrite <- (assoc_L (++)). }
  rewrite (bind_return _ _ _ _ _ Hrep).
  rewrite (bind_return _ _ _ _ _ (log_run _ _)). cbn [ret sys stdin prompts clock].
  now eexists.
Qed.

(** The images [l] wait to be renamed from index [i] on: their old paths
    are files that may be moved, and no new name is taken. *)
Definition pending (a : args) (w : Os.world) (i : Z) (l : list string) : Prop :=
  NoDup l
  /\ (forall f, f ∈ l -> rfind f sep < 0)
  /\ (forall k f, l !! k = Some f ->
                  Os.path_exists w (target a (i + Z.of_nat k) f) = false)
  /\ (forall f, f ∈ l -> exists g, Os.files w !! old_path a f = Some g
                                   /\ Os.removable g = true).

Lemma pending_step (a : args) w i x l g :
  pending a w i (x :: l) ->
  Os.files w !! old_path a x = Some g ->
  forall line,
    pending a (printed (renamed_to w (old_path a x) (target a i x) g) [line]) (i + 1) l.
Proof.
  intros (Hnd & Hsep & Hfree & Hfiles) Hx line.
  apply NoDup_cons in Hnd as [Hx_l Hnd].
  assert (Hfree0 := Hfree 0%nat x eq_refl). rewrite Z.add_0_r in Hfree0.
  apply path_exists_false in Hfree0 as [Ht Htd].
  split; [exact Hnd|]. split; [intros f Hf; apply Hsep; now right|]. split.
  - intros k f Hk. apply path_exists_false.
    pose proof (Hfree (S k) f Hk) as [Hq Hqd]%path_exists_false.
    replace (i + Z.of_nat (S k)) with (i + 1 + Z.of_nat k) in Hq, Hqd by lia.
    split; [|exact Hqd]. cbn.
    rewrite lookup_insert_ne by (intros Heq%target_inj; lia).
    destruct (decide (old_path a x = target a (i + 1 + Z.of_nat k) f)) as [<-|Hne];
      [apply lookup_delete_eq | now rewrite lookup_delete_ne].
  - intros f Hf. destruct (Hfiles f ltac:(now right)) as (g' & Hg' & Hr).
    exists g'. split; [|exact Hr]. cbn.
    rewrite lookup_insert_ne by (intros Heq; rewrite Heq in Ht; congruence).
    rewrite lookup_delete_ne; [exact Hg'|].
    intros Heq%old_path_inj; [subst; contradiction|apply Hsep; now left|apply Hsep; now right].
Qed.

Lemma loop_renames (a : args) l :
  preview a = false ->
  forall p s,
    pending a (sys s) (index p) l ->
    exists s',
      for_fold l (turn a) p s
      = (Return (Progress (index p + len l) (renamed_count p + len l)
                          (skipped_count p) (error_count p)), s')
      /\ stdin s' = stdin s /\ prompts s' = prompts s
      /\ Os.dirs (sys s') = Os.dirs (sys s)
      /\ (forall k f, l !! k = Some f ->
            Os.files (sys s') !! target a (index p + Z.of_nat k) f
            = Os.files (sys s) !! old_path a f)
      /\ (forall f, f ∈ l -> Os.files (sys s') !! old_path a f = None)
      /\ (forall q, (forall f, f ∈ l -> q <> old_path a f) ->
                    (forall k f, l !! k = Some f -> q <> target a (index p + Z.of_nat k) f) ->
                    Os.files (sys s') !! q = Os.files (sys s) !! q).
Proof.
  intros Hp. induction l as [|x l IH]; intros p s Hpend.
  - exists s. cbn [for_fold ret]. unfold len. cbn [length].
    rewrite !Z.add_0_r. destruct p. repeat split; try reflexivity.
    + intros k f Hk. discriminate.
    + intros f Hf. now apply elem_of_nil in Hf.
  - pose proof Hpend as (Hnd & Hsep & Hfree & Hfiles).
    apply NoDup_cons in Hnd as [Hx_l Hnd].
    destruct (Hfiles x ltac:(now left)) as (g & Hx & Hg).
    assert (Hfree0 := Hfree 0%nat x eq_refl). rewrite Z.add_0_r in Hfree0.
    destruct (turn_renames a x p s g Hp Hfree0 Hx Hg) as [line Hturn].
    pose proof (pending_step a (sys s) (index p) x l g Hpend Hx line) as Hnext.
    set (s1 := Session _ (stdin s) (prompts s) (strftime_now (clock s)).2) in Hturn.
    destruct (IH (renamed p) s1 Hnext) as (s' & Hrun & Hin & Hpr & Hdirs & Hnew & Hold & Hrest).
    exists s'. cbn [for_fold]. rewrite (bind_return _ _ _ _ _ Hturn).
    cbn [renamed index renamed_count skipped_count error_count] in Hrun, Hnew, Hrest.
    subst s1. cbn [sys stdin prompts clock] in Hin, Hpr, Hdirs, Hnew, Hrest.
    apply path_exists_false in Hfree0 as [Ht Htd].
    assert (Holds : forall f, f ∈ l -> old_path a f <> old_path a x).
    { intros f Hf Heq%old_path_inj; [subst; contradiction|apply Hsep; now right
                                    |apply Hsep; now left]. }
    assert (Htargets : forall k f, target a (index p) x
                                   <> target a (index p + 1 + Z.of_nat k) f).
    { intros k f Heq%target_inj. lia. }
    assert (Hexists : forall f, f ∈ l -> target a (index p) x <> old_path a f).
    { intros f Hf Heq. destruct (Hfiles f ltac:(now right)) as (g' & Hg' & _).
      rewrite <- Heq in Hg'. congruence. }
    split.
    { rewrite Hrun. unfold len. cbn [length].
      replace (Z.of_nat (S (length l))) with (1 + Z.of_nat (length l)) by lia.
      now rewrite !Z.add_assoc. }
    split; [exact Hin|]. split; [exact Hpr|]. split; [exact Hdirs|]. split; [|split].
    + intros [|k] f Hk; cbn in Hk.
      * injection Hk as <-. rewrite Z.add_0_r.
        rewrite Hrest; [cbn; now rewrite lookup_insert_eq| |].
        -- intros f Hf. now apply Hexists.
        -- intros k f _. apply Htargets.
      * replace (index p + Z.of_nat (S k)) with (index p + 1 + Z.of_nat k) by lia.
        rewrite (Hnew k f Hk). cbn.
        rewrite lookup_insert_ne by (apply Hexists; now apply list_elem_of_lookup_2 in Hk).
        rewrite lookup_delete_ne; [reflexivity|].
        intros Heq. apply (Holds f); [now apply list_elem_of_lookup_2 in Hk | now symmetry].
    + intros f [->|Hf]%elem_of_cons; [|now apply Hold].
      rewrite Hrest.
      * cbn. rewrite lookup_insert_ne by (intros Heq; rewrite Heq in Ht; congruence).
        apply lookup_delete_eq.
      * intros f Hf Heq. now apply (Holds f).
      * intros k f Hk Heq.
        pose proof (Hfree (S k) f Hk) as [Hq _]%path_exists_false.
        replace (index p + Z.of_nat (S k)) with (index p + 1 + Z.of_nat k) in Hq by lia.
        rewrite <- Heq in Hq. congruence.
    + intros q Hq_old Hq_new. rewrite Hrest.
      * cbn. rewrite lookup_insert_ne
          by (intros <-; apply (Hq_new 0%nat x eq_refl); now rewrite Z.add_0_r).
        rewrite lookup_delete_ne; [reflexivity|].
        intros <-. now apply (Hq_old x); [left|].
      * intros f Hf. apply Hq_old. now right.
      * intros k f Hk.
        replace (index p + 1 + Z.of_nat k) with (index p + Z.of_nat (S k)) by lia.
        now apply (Hq_new (S k)).
Qed.

End RenameFacts.

Section HappyRun.
Context `{Clock}.
Import PyStr OsPath BatchRename BatchRenameImages.

Lemma images_pending (a : args) w evs :
  (forall k f, images w a !! k = Some f ->
               Os.path_exists w (target a (start a + Z.of_nat k) f) = false) ->
  (forall f g, f ∈ images w a -> Os.files w !! old_path a f = Some g ->
               Os.removable g = true) ->
  pending a (logged w evs) (start a) (images w a).
Proof.
  intros Hfree Hmov.
  assert (Hin : forall f, f ∈ images w a ->
                          f ∈ Os.entries w (dir a) /\ Os.is_file w (join (dir a) f) = true).
  { intros f [Hf Hs]%list_elem_of_filter. rewrite sorted_Permutation in Hs.
    split; [exact Hs|]. now apply andb_true_iff in Hf as [Hf _]. }
  split; [|split; [|split]].
  - unfold images. apply NoDup_filter.
    rewrite sorted_Permutation. apply entries_NoDup.
  - intros f Hf. apply (entries_no_sep w (dir a)). now apply Hin.
  - exact Hfree.
  - intros f Hf. destruct (Hin f Hf) as [_ Hfile].
    apply bool_decide_eq_true in Hfile as [g Hg].
    exists g. split; [exact Hg|]. now apply (Hmov f g).
Qed.

Lemma main_renames (a : args) s :
  preview a = false -> Os.is_dir (sys s) (dir a) = true ->
  images (sys s) a <> [] ->
  pending a (logged (sys s) (image_looks (sys s) a)) (start a) (images (sys s) a) ->
  exists s1 s',
    main a s = (Return tt, s')
    /\ for_fold (images (sys s) a) (turn a) (Progress (start a) 0 0 0)
         (Session (logged (sys s) (image_looks (sys s) a)) (stdin s) (prompts s) (clock s))
       = (Return (Progress (start a + len (images (sys s) a)) (len (images (sys s) a)) 0 0),
          s1)
    /\ s' = Session (printed (sys s1)
                       [log_line s1 (done_line
                          (Progress (start a + len (images (sys s) a))
                                    (len (images (sys s) a)) 0 0))])
                    (stdin s1) (prompts s1) (strftime_now (clock s1)).2.
Proof.
  intros Hp Hd Hne Hpend. unfold main.
  rewrite (bind_return _ _ _ _ _ (in_sys_run _ s _ _ (gather_images_run a (sys s) Hd))).
  destruct (loop_renames a (images (sys s) a) Hp (Progress (start a) 0 0 0)
              (Session (logged (sys s) (image_looks (sys s) a)) (stdin s) (prompts s)
                       (clock s)) Hpend) as (s1 & Hrun & _).
  cbn [index renamed_count skipped_count error_count] in Hrun.
  rewrite Z.add_0_l in Hrun.
  exists s1. eexists. split; [|split; [exact Hrun | reflexivity]].
  destruct (images (sys s) a) as [|f imgs] eqn:Himgs; [contradiction|].
  rewrite (bind_return _ _ _ _ _ Hrun). apply log_run.
Qed.

End HappyRun.

(** X28. A run without collisions renames every image.  When no new name
    is taken and every image may be moved, [batch_rename_images.py] gives
    the images, in sorted order, the names for the indexes from the start
    index on: afterwards each new path holds the file that was at the old
    path, no old path is left, every other path is as before, and nothing
    was asked.  The run ends with [Done. Renamed: n, Skipped: 0, Errors: 0]
    for the [n] images.  The prefix holds no separator, so that the new
    names lie in the directory that was listed. *)
Theorem renames_without_collisions `{Clock} (a : BatchRenameImages.args)
    (s : BatchRenameImages.session) :
  BatchRenameImages.preview a = false ->
  Os.is_dir (BatchRenameImages.sys s) (BatchRenameImages.dir a) = true ->
  PyStr.rfind (BatchRenameImages.prefix a) OsPath.sep < 0 ->
  images (BatchRenameImages.sys s) a <> [] ->
  (forall k f,
     images (BatchRenameImages.sys s) a !! k = Some f ->
     Os.path_exists (BatchRenameImages.sys s)
       (target a (BatchRenameImages.start a + Z.of_nat k) f) = false) ->
  (forall f g,
     f ∈ images (BatchRenameImages.sys s) a ->
     Os.files (BatchRenameImages.sys s) !! old_path a f = Some g ->
     Os.removable g = true) ->
  exists s' stamp,
    BatchRenameImages.main a s = (Return tt, s')
    /\ BatchRenameImages.stdin s' = BatchRenameImages.stdin s
    /\ BatchRenameImages.prompts s' = BatchRenameImages.prompts s
    /\ Os.dirs (BatchRenameImages.sys s') = Os.dirs (BatchRenameImages.sys s)
    /\ (forall k f,
          images (BatchRenameImages.sys s) a !! k = Some f ->
          Os.files (BatchRenameImages.sys s')
            !! target a (BatchRenameImages.start a + Z.of_nat k) f
          = Os.files (BatchRenameImages.sys s) !! old_path a f)
    /\ (forall f,
          f ∈ images (BatchRenameImages.sys s) a ->
          Os.files (BatchRenameImages.sys s') !! old_path a f = None)
    /\ (forall q,
          (forall f, f ∈ images (BatchRenameImages.sys s) a -> q <> old_path a f) ->
          (forall k f,
             images (BatchRenameImages.sys s) a !! k = Some f ->
             q <> target a (BatchRenameImages.start a + Z.of_nat k) f) ->
          Os.files (BatchRenameImages.sys s') !! q
          = Os.files (BatchRenameImages.sys s) !! q)
    /\ last (Os.stdout (BatchRenameImages.sys s'))
       = Some ("[" +:+ stamp +:+ "] " +:+ "Done. Renamed: "
               +:+ PyStr.str (Z.of_nat (length (images (BatchRenameImages.sys s) a)))
               +:+ ", Skipped: " +:+ PyStr.str 0 +:+ ", Errors: " +:+ PyStr.str 0).
Proof.
  intros Hp Hd _ Hne Hfree Hmov. set (w := BatchRenameImages.sys s) in *.
  pose proof (images_pending a w (image_looks w a) Hfree Hmov) as Hpend.
  destruct (main_renames a s Hp Hd Hne Hpend) as (s1 & s' & Hmain & Hloop & ->).
  destruct (loop_renames a (images w a) Hp (BatchRenameImages.Progress
              (BatchRenameImages.start a) 0 0 0)
              (BatchRenameImages.Session (logged w (image_looks w a))
                 (BatchRenameImages.stdin s) (BatchRenameImages.prompts s)
                 (BatchRenameImages.clock s)) Hpend)
    as (s2 & Hrun & Hin & Hpr & Hdirs & Hnew & Hold & Hrest).
  cbn [BatchRenameImages.index BatchRenameImages.renamed_count
       BatchRenameImages.skipped_count BatchRenameImages.error_count] in Hrun.
  rewrite Z.add_0_l in Hrun. fold w in Hloop. rewrite Hloop in Hrun.
  injection Hrun as <-.
  eexists _, (strftime_now (BatchRenameImages.clock s1)).1.
  split; [exact Hmain|].
  cbn [BatchRenameImages.sys BatchRenameImages.stdin BatchRenameImages.prompts
       BatchRenameImages.clock printed logged Os.files Os.dirs Os.stdout] in *.
  split; [exact Hin|]. split; [exact Hpr|]. split; [exact Hdirs|].
  split; [exact Hnew|]. split; [exact Hold|]. split; [exact Hrest|].
  rewrite last_snoc. reflexivity.
Qed.

Lemma renames_without_collisions_witness :
  exists s' stamp,
    BatchRenameImages.main (RenameSamples.defaults "in" false)
      (RenameSamples.begin RenameSamples.shots ["unused"]) = (Return tt, s')
    /\ BatchRenameImages.stdin s' = ["unused"]
    /\ BatchRenameImages.prompts s' = []
    /\ Os.dirs (BatchRenameImages.sys s') = Os.dirs RenameSamples.shots
    /\ (forall k f,
          images RenameSamples.shots (RenameSamples.defaults "in" false) !! k = Some f ->
          Os.files (BatchRenameImages.sys s')
            !! target (RenameSamples.defaults "in" false) (1 + Z.of_nat k) f
          = Os.files RenameSamples.shots
              !! old_path (RenameSamples.defaults "in" false) f)
    /\ (forall f,
          f ∈ images RenameSamples.shots (RenameSamples.defaults "in" false) ->
          Os.files (BatchRenameImages.sys s')
            !! old_path (RenameSamples.defaults "in" false) f = None)
    /\ (forall q,
          (forall f, f ∈ images RenameSamples.shots (RenameSamples.defaults "in" false) ->
                     q <> old_path (RenameSamples.defaults "in" false) f) ->
          (forall k f,
             images RenameSamples.shots (RenameSamples.defaults "in" false) !! k = Some f ->
             q <> target (RenameSamples.defaults "in" false) (1 + Z.of_nat k) f) ->
          Os.files (BatchRenameImages.sys s') !! q = Os.files RenameSamples.shots !! q)
    /\ last (Os.stdout (BatchRenameImages.sys s'))
       = Some ("[" +:+ stamp +:+ "] " +:+ "Done. Renamed: "
               +:+ PyStr.str (Z.of_nat (length (images RenameSamples.shots
                                                  (RenameSamples.defaults "in" false))))
               +:+ ", Skipped: " +:+ PyStr.str 0 +:+ ", Errors: " +:+ PyStr.str 0).
Proof.
  apply (@renames_without_collisions counting_clock (RenameSamples.defaults "in" false)
           (RenameSamples.begin RenameSamples.shots ["unused"])).
  - reflexivity.
  - vm_compute. reflexivity.
  - vm_compute. reflexivity.
  - vm_compute. discriminate.
  - intros k f Hk. vm_compute in Hk.
    destruct k as [|[|[|k]]]; try discriminate; injection Hk as <-; vm_compute; reflexivity.
  - intros f g Hf Hg. vm_compute in Hf.
    each_listed Hf ltac:(vm_compute in Hg; injection Hg as <-; reflexivity).
Defined.

(** ** [batch_rename_images.py]: what a run can destroy *)

Section KeepFacts.
Context `{Clock}.
Import PyStr OsPath BatchRename BatchRenameImages.

(** Every file of [w] is somewhere in [w']. *)
Definition nothing_lost (w w' : Os.world) : Prop :=
  forall p g, Os.files w !! p = Some g -> exists p', Os.files w' !! p' = Some g.

#[global] Instance nothing_lost_refl : Reflexive nothing_lost.
Proof. intros w p g Hp. now exists p. Qed.
#[global] Instance nothing_lost_trans : Transitive nothing_lost.
Proof. intros w1 w2 w3 H12 H23 p g Hp. destruct (H12 p g Hp) as [p' Hp']. eauto. Qed.



(** The session went on: no file was lost, and standard input was read
    from the front. *)
Definition went_on (s s' : session) : Prop :=
  nothing_lost (sys s) (sys s') /\ exists k, stdin s' = drop k (stdin s).

#[global] Instance went_on_refl : Reflexive went_on.
Proof. intros s. split; [reflexivity | now exists 0%nat]. Qed.
#[global] Instance went_on_trans : Transitive went_on.
Proof.
  intros s1 s2 s3 [H12 [k1 Hk1]] [H23 [k2 Hk2]]. split; [now transitivity (sys s2)|].
  exists (k1 + k2)%nat. now rewrite Hk2, Hk1, drop_drop.
Qed.





(** *** The answers *)





(** *** The collision *)



(** *** The loop *)





End KeepFacts.


